(** * Bastion reconciliation (pkg/controller/bastion/actuator_reconcile.go)

    A shallow embedding of the reconcile pass of the Alicloud bastion
    actuator.  Provider calls are explicit world-passing functions, every
    call leaves an event in the trace of the pass, Go's [(value, error)]
    results and run-time panics are separate outcomes. *)

From Stdlib Require Import String List ZArith Bool Lia.
Import ListNotations.
Open Scope string_scope.
Open Scope Z_scope.

(** ** Go values *)

(** [time.Duration] counts nanoseconds. *)
Definition Duration := Z.
Definition Second : Duration := 1000000000.

(** Go's [error] values as this file builds them. *)
Inductive error : Type :=
| errors_New (msg : string)
    (* errors.New(msg), and fmt.Errorf(msg) without a wrapping verb *)
| fmt_Errorf_w (msg : string) (err : error)
    (* fmt.Errorf(msg ++ ": %w", err) *)
| RequeueAfterError (RequeueAfter : Duration) (Cause : error)
    (* &ctrlerror.RequeueAfterError{RequeueAfter, Cause} *)
| foreign_error (msg : string).
    (* an error value produced by a collaborator *)

(** The retry signal is the [*RequeueAfterError] value itself. *)
Definition is_retry_signal (e : error) : bool :=
  match e with
  | RequeueAfterError _ _ => true
  | _ => false
  end.

(** [errors.As(err, &requeueAfter)]: a retry signal anywhere in the
    [%w] chain. *)
Fixpoint carries_retry_signal (e : error) : bool :=
  match e with
  | RequeueAfterError _ _ => true
  | fmt_Errorf_w _ e' => carries_retry_signal e'
  | _ => false
  end.

(** Run-time panics the file can raise. *)
Inductive panic : Type :=
| NilDereference
| IndexOutOfRange.

(** A pure computation that may panic. *)
Inductive partial (A : Type) : Type :=
| Val (a : A)
| Panic (p : panic).
Arguments Val {A} a.
Arguments Panic {A} p.

Definition pbind {A B} (m : partial A) (f : A -> partial B) : partial B :=
  match m with
  | Val a => f a
  | Panic p => Panic p
  end.

(** [equality.Semantic.DeepEqual] on two Go strings. *)
Definition DeepEqual (a b : string) : bool := String.eqb a b.

(** ** SDK and API types *)

(** Modelled from the spec: [corev1.LoadBalancerIngress], declared outside
    this file; an endpoint "optionally carrying a hostname and/or an IP".
    The empty string is Go's zero value of either field. *)
Module LoadBalancerIngress.
Record t : Type := mk { IP : string; Hostname : string }.
Definition zero : t := {| IP := ""; Hostname := "" |}.
End LoadBalancerIngress.

(** Modelled from the spec: [ecs.Permission], an observed security rule,
    declared in the provider SDK: "(description, protocol, port-range,
    source/destination CIDR -- IPv4 and optionally IPv6, direction-specific
    fields such as allow/deny action for egress)". *)
Module Permission.
Record t : Type := mk {
    Description : string;
    IpProtocol : string;
    PortRange : string;
    SourceCidrIp : string;
    Ipv6SourceCidrIp : string;
    DestCidrIp : string;
    Ipv6DestCidrIp : string;
    Policy : string
  }.
End Permission.

(** Modelled from the spec: [ecs.AuthorizeSecurityGroupRequest], a wanted
    ingress rule, declared in the provider SDK (same tuple as above, scoped
    to a security group). *)
Module AuthorizeSecurityGroupRequest.
Record t : Type := mk {
    SecurityGroupId : string;
    Description : string;
    IpProtocol : string;
    PortRange : string;
    SourceCidrIp : string;
    Ipv6SourceCidrIp : string;
    DestCidrIp : string;
    Ipv6DestCidrIp : string;
    Policy : string
  }.
End AuthorizeSecurityGroupRequest.

(** Modelled from the spec: [ecs.AuthorizeSecurityGroupEgressRequest], a
    wanted egress rule, declared in the provider SDK. *)
Module AuthorizeSecurityGroupEgressRequest.
Record t : Type := mk {
    SecurityGroupId : string;
    Description : string;
    IpProtocol : string;
    PortRange : string;
    SourceCidrIp : string;
    Ipv6SourceCidrIp : string;
    DestCidrIp : string;
    Ipv6DestCidrIp : string;
    DestGroupId : string;
    Policy : string
  }.
End AuthorizeSecurityGroupEgressRequest.

(** ** Endpoint model (lines 36-48, 169-192) *)

Record bastionEndpoints : Type := mkEndpoints {
  private : option LoadBalancerIngress.t;
  public : option LoadBalancerIngress.t
}.

(** [IngressReady], line 170. *)
Definition IngressReady (ingress : option LoadBalancerIngress.t) : bool :=
  match ingress with
  | None => false
  | Some i =>
      negb (LoadBalancerIngress.Hostname i =? "")%string
      || negb (LoadBalancerIngress.IP i =? "")%string
  end.

(** [bastionEndpoints.Ready], line 46; the pointer receiver may be nil. *)
Definition Ready (be : option bastionEndpoints) : bool :=
  match be with
  | None => false
  | Some e => IngressReady (private e) && IngressReady (public e)
  end.

(** [addressToIngress], line 177. *)
Definition addressToIngress (dnsName ipAddress : option string)
  : option LoadBalancerIngress.t :=
  match ipAddress, dnsName with
  | None, None => None
  | _, _ =>
      let ingress := LoadBalancerIngress.zero in
      let ingress :=
        match dnsName with
        | Some d => {| LoadBalancerIngress.IP := LoadBalancerIngress.IP ingress;
                       LoadBalancerIngress.Hostname := d |}
        | None => ingress
        end in
      let ingress :=
        match ipAddress with
        | Some ip => {| LoadBalancerIngress.IP := ip;
                        LoadBalancerIngress.Hostname :=
                          LoadBalancerIngress.Hostname ingress |}
        | None => ingress
        end in
      Some ingress
  end.

(** ** Rule reconciler (lines 362-472) *)

(** [ingressRuleEqual], line 396. *)
Definition ingressRuleEqual (a : AuthorizeSecurityGroupRequest.t)
  (b : Permission.t) : bool :=
  if negb (DeepEqual (AuthorizeSecurityGroupRequest.Description a)
             (Permission.Description b)) then false
  else if negb (DeepEqual (AuthorizeSecurityGroupRequest.IpProtocol a)
                  (Permission.IpProtocol b)) then false
  else if negb (DeepEqual (AuthorizeSecurityGroupRequest.PortRange a)
                  (Permission.PortRange b)) then false
  else if negb (DeepEqual (AuthorizeSecurityGroupRequest.SourceCidrIp a)
                  (Permission.SourceCidrIp b)) then false
  else if negb (DeepEqual (AuthorizeSecurityGroupRequest.Ipv6SourceCidrIp a)
                  (Permission.Ipv6SourceCidrIp b)) then false
  else true.

(** [egressRuleEqual], line 454. *)
Definition egressRuleEqual (a : AuthorizeSecurityGroupEgressRequest.t)
  (b : Permission.t) : bool :=
  if negb (DeepEqual (AuthorizeSecurityGroupEgressRequest.Description a)
             (Permission.Description b)) then false
  else if negb (DeepEqual (AuthorizeSecurityGroupEgressRequest.IpProtocol a)
                  (Permission.IpProtocol b)) then false
  else if negb (DeepEqual (AuthorizeSecurityGroupEgressRequest.PortRange a)
                  (Permission.PortRange b)) then false
  else if negb (DeepEqual (AuthorizeSecurityGroupEgressRequest.SourceCidrIp a)
                  (Permission.SourceCidrIp b)) then false
  else true.

(** The two symmetric-difference functions have one body, at two rule
    types.  Wanted rules arrive as pointers ([option]); each loop
    dereferences them. *)
Section SymmetricDifference.
Context {Wanted : Type}.
Variable ruleEqual : Wanted -> Permission.t -> bool.

(** Inner loop of the first pass (lines 366-371, 424-429): stops at the
      first wanted rule equal to [currentRule]. *)
Fixpoint foundAmongWanted (wantedRules : list (option Wanted))
    (currentRule : Permission.t) : partial bool :=
    match wantedRules with
    | [] => Val false
    | None :: _ => Panic NilDereference
    | Some wantedRule :: rest =>
        if ruleEqual wantedRule currentRule then Val true
        else foundAmongWanted rest currentRule
    end.

(** First pass (lines 363-377, 421-435). *)
Fixpoint rulesToDelete (wantedRules : list (option Wanted))
    (currentRules : list Permission.t) : partial (list Permission.t) :=
    match currentRules with
    | [] => Val []
    | currentRule :: rest =>
        pbind (foundAmongWanted wantedRules currentRule) (fun found =>
        pbind (rulesToDelete wantedRules rest) (fun deleted =>
        Val (if found then deleted else currentRule :: deleted)))
    end.

(** Inner loop of the second pass (lines 382-387, 440-445). *)
Fixpoint foundAmongCurrent (wantedRule : Wanted)
    (currentRules : list Permission.t) : bool :=
    match currentRules with
    | [] => false
    | currentRule :: rest =>
        if ruleEqual wantedRule currentRule then true
        else foundAmongCurrent wantedRule rest
    end.

(** Second pass (lines 379-392, 437-450).  A nil wanted rule is
      dereferenced either by the comparison or by the append. *)
Fixpoint rulesToAdd (wantedRules : list (option Wanted))
    (currentRules : list Permission.t) : partial (list Wanted) :=
    match wantedRules with
    | [] => Val []
    | None :: _ => Panic NilDereference
    | Some wantedRule :: rest =>
        pbind (rulesToAdd rest currentRules) (fun added =>
        Val (if foundAmongCurrent wantedRule currentRules then added
             else wantedRule :: added))
    end.

Definition rulesSymmetricDifference (wantedRules : list (option Wanted))
    (currentRules : list Permission.t)
    : partial (list Wanted * list Permission.t) :=
    pbind (rulesToDelete wantedRules currentRules) (fun deleted =>
    pbind (rulesToAdd wantedRules currentRules) (fun added =>
    Val (added, deleted))).
End SymmetricDifference.

(** [ingressRulesSymmetricDifference], line 362. *)
Definition ingressRulesSymmetricDifference :=
  rulesSymmetricDifference ingressRuleEqual.

(** [egressRulesSymmetricDifference], line 420. *)
Definition egressRulesSymmetricDifference :=
  rulesSymmetricDifference egressRuleEqual.

(** ** Provider responses *)

(** Modelled from the spec: [ecs.Instance] inside
    [ecs.DescribeInstancesResponse], declared in the provider SDK: "identified
    by name and provider-assigned id; has a status; carries a private IP once
    running".  [PrivateIpAddress] is the slice
    [VpcAttributes.PrivateIpAddress.IpAddress]. *)
Module Instance.
Record t : Type := mk {
  InstanceId : string;
  InstanceName : string;
  Status : string;
  PrivateIpAddress : list string
}.
End Instance.

(** [Instances] is the slice [Instances.Instance] of the SDK response. *)
Module DescribeInstancesResponse.
Record t : Type := mk { Instances : list Instance.t }.
End DescribeInstancesResponse.

(** Modelled from the spec: [ecs.SecurityGroup], declared in the provider
    SDK: "identified by name (idempotency key) and provider-assigned id". *)
Module SecurityGroup.
Record t : Type := mk {
  SecurityGroupId : string;
  SecurityGroupName : string
}.
End SecurityGroup.

(** [SecurityGroups] is the slice [SecurityGroups.SecurityGroup]. *)
Module DescribeSecurityGroupsResponse.
Record t : Type := mk { SecurityGroups : list SecurityGroup.t }.
End DescribeSecurityGroupsResponse.

Module CreateSecurityGroupResponse.
Record t : Type := mk { SecurityGroupId : string }.
End CreateSecurityGroupResponse.

(** [InstanceIdSets] is the slice [InstanceIdSets.InstanceIdSet]. *)
Module RunInstancesResponse.
Record t : Type := mk { InstanceIdSets : list string }.
End RunInstancesResponse.

(** Modelled from the spec: [ecs.DescribeAvailableResourceResponse], the
    nested availability lookup "zone -> resource -> supported-resource ->
    status", declared in the provider SDK. *)
Module SupportedResource.
Record t : Type := mk { Status : string; Value : string }.
End SupportedResource.

Module AvailableResource.
Record t : Type := mk { SupportedResources : list SupportedResource.t }.
End AvailableResource.

Module AvailableZone.
Record t : Type := mk { AvailableResources : list AvailableResource.t }.
End AvailableZone.

Module DescribeAvailableResourceResponse.
Record t : Type := mk { AvailableZones : list AvailableZone.t }.
End DescribeAvailableResourceResponse.

(** [Permissions] is the slice [Permissions.Permission]. *)
Module DescribeSecurityGroupAttributeResponse.
Record t : Type := mk { Permissions : list Permission.t }.
End DescribeSecurityGroupAttributeResponse.

Module AllocatePublicIpAddressResponse.
Record t : Type := mk { IpAddress : string }.
End AllocatePublicIpAddressResponse.

Module DescribeSecurityGroupAttributeRequest.
Record t : Type := mk { SecurityGroupId : string; Direction : string }.
End DescribeSecurityGroupAttributeRequest.

Module RevokeSecurityGroupRequest.
Record t : Type := mk {
  SecurityGroupId : string;
  IpProtocol : string;
  PortRange : string;
  SourceCidrIp : string;
  Ipv6SourceCidrIp : string
}.
End RevokeSecurityGroupRequest.

Module RevokeSecurityGroupEgressRequest.
Record t : Type := mk {
  SecurityGroupId : string;
  IpProtocol : string;
  PortRange : string
}.
End RevokeSecurityGroupEgressRequest.

(** Modelled from the spec: [aliclient.VPCInfo] and [aliclient.VSwitchInfo],
    declared in the client package: "resolved virtual-network id, subnet id,
    availability-zone id". *)
Record VPCInfo : Type := mkVPCInfo { VPCID : string; VSwitchID : string }.
Record VSwitchInfo : Type := mkVSwitchInfo { ZoneID : string }.

(** ** Request types *)

Record SecretReference : Type := mkSecretReference {
  SecretName : string;
  SecretNamespace : string
}.

(** Modelled from the spec: [Options], declared in options.go: "resolved
    options (region, names for instance/security-groups/network, ...,
    user-init-data payload)". *)
Record Options : Type := mkOptions {
  BastionInstanceName : string;
  Region : string;
  SecretRef : SecretReference;
  SecurityGroupName : string;
  ShootSecurityGroupName : string;
  UserData : string;
  VpcName : string
}.

(** Modelled from the spec: the credentials read from the secret store. *)
Record Credentials : Type := mkCredentials {
  AccessKeyID : string;
  AccessKeySecret : string
}.

(** Modelled from the spec: one entry of the "SSH ingress CIDR allowlist",
    declared in another file of the package. *)
Record IngressPermission : Type := mkIngressPermission { CIDR : string }.

(** Modelled from the spec: the [Bastion] resource of the host framework.
    [DefaultStatus] holds the status fields other controllers own; [Ingress]
    is the published public endpoint. *)
Record DefaultStatus : Type := mkDefaultStatus {
  ObservedGeneration : Z;
  LastOperation : option string;
  LastError : option string
}.

Record BastionStatus : Type := mkBastionStatus {
  Default : DefaultStatus;
  Ingress : option LoadBalancerIngress.t
}.

Record BastionSpec : Type := mkBastionSpec {
  SpecUserData : string;
  SpecIngress : list string
}.

Record Bastion : Type := mkBastion {
  Namespace : string;
  Name : string;
  Spec : BastionSpec;
  Status : BastionStatus
}.

(** Modelled from the spec: the cluster metadata, "available machine types";
    [CloudProfile] is a pointer in [controller.Cluster], [MachineTypes] is
    [CloudProfile.Spec.MachineTypes]. *)
Record MachineType : Type := mkMachineType { MachineTypeName : string }.
Record CloudProfile : Type := mkCloudProfile { MachineTypes : list MachineType }.
Record Cluster : Type := mkCluster { ClusterCloudProfile : option CloudProfile }.

(** ** Effects *)

(** What a pass does to the outside, in order. *)
Inductive event : Type :=
| EvReadCredentials (ref : SecretReference)
| EvNewECSClient (region : string)
| EvNewVPCClient (region : string)
| EvGetVPCInfoByName (name : string)
| EvGetVSwitchesInfoByID (id : string)
| EvGetInstanceType (cores : Z) (zone : string)
| EvGetSecurityGroup (name : string)
| EvCreateSecurityGroups (vpcID name : string)
| EvGetInstances (name : string)
| EvCreateInstances (name securityGroupID imageID vSwitchId zoneID
                       instanceTypeID userData : string)
| EvDescribeSecurityGroupAttribute (req : DescribeSecurityGroupAttributeRequest.t)
| EvCreateIngressRule (rule : AuthorizeSecurityGroupRequest.t)
| EvRevokeIngressRule (req : RevokeSecurityGroupRequest.t)
| EvCreateEgressRule (rule : AuthorizeSecurityGroupEgressRequest.t)
| EvRevokeEgressRule (req : RevokeSecurityGroupEgressRequest.t)
| EvAllocatePublicIp (instanceID : string)
| EvLogInfo (msg : string)
| EvSleep (d : Duration)
| EvStatusPatch (obj from : Bastion)
| EvStatusUpdate (obj : Bastion).

(** A collaborator's [(value, error)] result. *)
Inductive ret (A : Type) : Type :=
| Return (a : A)
| Fail (e : error).
Arguments Return {A} a.
Arguments Fail {A} e.

(** How a function of the pass ends: a value with a nil error, a non-nil
    error, or a panic. *)
Inductive outcome (A : Type) : Type :=
| Ok (a : A)
| Err (e : error)
| Panicked (p : panic).
Arguments Ok {A} a.
Arguments Err {A} e.
Arguments Panicked {A} p.

Record run (World A : Type) : Type := mkRun {
  result : outcome A;
  final : World;
  events : list event
}.
Arguments mkRun {World A}.
Arguments result {World A}.
Arguments final {World A}.
Arguments events {World A}.

Definition M (World A : Type) : Type := World -> run World A.

Section Monad.
Context {World : Type}.

Definition pure {A} (a : A) : M World A := fun w => mkRun (Ok a) w [].

Definition bind {A B} (m : M World A) (f : A -> M World B) : M World B :=
  fun w =>
    let r := m w in
    match result r with
    | Ok a =>
        let r' := f a (final r) in
        mkRun (result r') (final r') (events r ++ events r')
    | Err e => mkRun (Err e) (final r) (events r)
    | Panicked p => mkRun (Panicked p) (final r) (events r)
    end.

(** [return err] with a non-nil error. *)
Definition fail {A} (e : error) : M World A := fun w => mkRun (Err e) w [].

Definition emit (ev : event) : M World unit := fun w => mkRun (Ok tt) w [ev].

(** A call to a collaborator, followed by [if err != nil return err]. *)
Definition call {A} (ev : event) (op : World -> ret A * World) : M World A :=
  fun w =>
    mkRun (match fst (op w) with Return a => Ok a | Fail e => Err e end)
          (snd (op w)) [ev].

(** A pure package function with a [(value, error)] result. *)
Definition check {A} (r : ret A) : M World A :=
  match r with
  | Return a => pure a
  | Fail e => fail e
  end.

(** Following a pointer. *)
Definition deref {A} (p : option A) : M World A :=
  fun w =>
    match p with
    | Some a => mkRun (Ok a) w []
    | None => mkRun (Panicked NilDereference) w []
    end.

(** [s[0]] on a slice. *)
Definition first {A} (s : list A) : M World A :=
  fun w =>
    match s with
    | a :: _ => mkRun (Ok a) w []
    | [] => mkRun (Panicked IndexOutOfRange) w []
    end.

Definition total {A} (p : partial A) : M World A :=
  fun w =>
    match p with
    | Val a => mkRun (Ok a) w []
    | Panic q => mkRun (Panicked q) w []
    end.

(** [if err != nil return wrap(err)]. *)
Definition orWrap {A} (wrap : error -> error) (m : M World A) : M World A :=
  fun w =>
    let r := m w in
    match result r with
    | Err e => mkRun (Err (wrap e)) (final r) (events r)
    | _ => r
    end.

(** [for _, x := range xs] with a body that may return early. *)
Fixpoint forEach {A} (xs : list A) (body : A -> M World unit) : M World unit :=
  match xs with
  | [] => pure tt
  | x :: rest => bind (body x) (fun _ => forEach rest body)
  end.
End Monad.

(** [Silent p m]: no run of [m] leaves an event of class [p]. *)
Definition Silent {World A} (p : event -> bool) (m : M World A) : Prop :=
  forall w, filter p (events (m w)) = [].

Declare Scope pass_scope.
Delimit Scope pass_scope with pass.
Notation "x <- m ;; k" := (bind m (fun x => k))
  (at level 100, m at next level, right associativity) : pass_scope.
Notation "m ;;; k" := (bind m (fun _ => k))
  (at level 100, right associativity) : pass_scope.

(** ** Collaborators *)

(** [aliclient.ECS]: the operations this file calls on the compute client.
    Every response is a pointer. *)
Record ECS (World : Type) : Type := mkECS {
  GetInstanceType : Z -> string ->
    World -> ret (option DescribeAvailableResourceResponse.t) * World;
  GetSecurityGroup : string ->
    World -> ret (option DescribeSecurityGroupsResponse.t) * World;
  CreateSecurityGroups : string -> string ->
    World -> ret (option CreateSecurityGroupResponse.t) * World;
  GetInstances : string ->
    World -> ret (option DescribeInstancesResponse.t) * World;
  CreateInstances :
    string -> string -> string -> string -> string -> string -> string ->
    World -> ret (option RunInstancesResponse.t) * World;
  DescribeSecurityGroupAttribute : DescribeSecurityGroupAttributeRequest.t ->
    World -> ret (option DescribeSecurityGroupAttributeResponse.t) * World;
  CreateIngressRule : AuthorizeSecurityGroupRequest.t ->
    World -> ret unit * World;
  RevokeIngressRule : RevokeSecurityGroupRequest.t ->
    World -> ret unit * World;
  CreateEgressRule : AuthorizeSecurityGroupEgressRequest.t ->
    World -> ret unit * World;
  RevokeEgressRule : RevokeSecurityGroupEgressRequest.t ->
    World -> ret unit * World;
  AllocatePublicIp : string ->
    World -> ret (option AllocatePublicIpAddressResponse.t) * World
}.
Arguments GetInstanceType {World}.
Arguments GetSecurityGroup {World}.
Arguments CreateSecurityGroups {World}.
Arguments GetInstances {World}.
Arguments CreateInstances {World}.
Arguments DescribeSecurityGroupAttribute {World}.
Arguments CreateIngressRule {World}.
Arguments RevokeIngressRule {World}.
Arguments CreateEgressRule {World}.
Arguments RevokeEgressRule {World}.
Arguments AllocatePublicIp {World}.

(** [aliclient.VPC]. *)
Record VPC (World : Type) : Type := mkVPC {
  GetVPCInfoByName : string -> World -> ret (option VPCInfo) * World;
  GetVSwitchesInfoByID : string -> World -> ret (option VSwitchInfo) * World
}.
Arguments GetVPCInfoByName {World}.
Arguments GetVSwitchesInfoByID {World}.

(** The actuator: its client factory and the status writer of its
    Kubernetes client.  [StatusPatch obj from] is
    [a.client.Status().Patch(ctx, obj, client.MergeFrom(from))]. *)
Record actuator (World : Type) : Type := mkActuator {
  NewECSClient : string -> string -> string ->
    World -> ret (option (ECS World)) * World;
  NewVPCClient : string -> string -> string ->
    World -> ret (option (VPC World)) * World;
  StatusPatch : Bastion -> Bastion -> World -> ret unit * World
}.
Arguments NewECSClient {World}.
Arguments NewVPCClient {World}.
Arguments StatusPatch {World}.

(** Functions of the repository that this file calls and other files
    declare. *)
Record Package (World : Type) : Type := mkPackage {
  DetermineOptions : Bastion -> Cluster -> ret (option Options);
  ReadCredentialsFromSecretRef : SecretReference ->
    World -> ret (option Credentials) * World;
  getImageID : Cluster -> Options -> ret string;
  ingressPermissions : Bastion -> ret (list IngressPermission);
  ingressAllowSSH : string -> IngressPermission ->
    option AuthorizeSecurityGroupRequest.t;
  egressAllowSSHToWorker : string -> string -> string ->
    option AuthorizeSecurityGroupEgressRequest.t;
  egressDenyAll : string -> option AuthorizeSecurityGroupEgressRequest.t;
  describeSecurityGroupAttributeRequest : string -> string ->
    DescribeSecurityGroupAttributeRequest.t;
  revokeSecurityGroupRequest : string -> string -> string -> string -> string ->
    RevokeSecurityGroupRequest.t;
  revokeSecurityGroupEgressRequest : string -> string -> string ->
    RevokeSecurityGroupEgressRequest.t
}.
Arguments DetermineOptions {World}.
Arguments ReadCredentialsFromSecretRef {World}.
Arguments getImageID {World}.
Arguments ingressPermissions {World}.
Arguments ingressAllowSSH {World}.
Arguments egressAllowSSHToWorker {World}.
Arguments egressDenyAll {World}.
Arguments describeSecurityGroupAttributeRequest {World}.
Arguments revokeSecurityGroupRequest {World}.
Arguments revokeSecurityGroupEgressRequest {World}.

(** ** The functions of the file *)

Section Actuator.
Context {World : Type}.
Variable pkg : Package World.
Local Open Scope pass_scope.

(** [getInstanceEndpoints], line 194. *)
Definition getInstanceEndpoints (c : ECS World) (opt : Options) (ip : string)
  : M World bastionEndpoints :=
  response <- call (EvGetInstances (BastionInstanceName opt))
                   (GetInstances c (BastionInstanceName opt)) ;;
  match response with
  | None => fail (errors_New "compute instance can't be nil")
  | Some response =>
      match DescribeInstancesResponse.Instances response with
      | [] => fail (errors_New "compute instance not ready yet")
      | instance :: _ =>
          if negb (Instance.Status instance =? "Running")%string
          then fail (errors_New "compute instance not ready yet")
          else
            let endpoints := mkEndpoints None None in
            internalIP <- first (Instance.PrivateIpAddress instance) ;;
            let endpoints :=
              match addressToIngress None (Some internalIP) with
              | Some ingress => mkEndpoints (Some ingress) (public endpoints)
              | None => endpoints
              end in
            let endpoints :=
              match addressToIngress None (Some ip) with
              | Some ingress => mkEndpoints (private endpoints) (Some ingress)
              | None => endpoints
              end in
            pure endpoints
      end
  end.

(** [ensureComputeInstance], line 223. *)
Definition ensureComputeInstance (c : ECS World) (opt : Options)
  (securityGroupID imageID vSwitchId zoneID instanceTypeID : string)
  : M World string :=
  response <- call (EvGetInstances (BastionInstanceName opt))
                   (GetInstances c (BastionInstanceName opt)) ;;
  response <- deref response ;;
  let found :=
    match DescribeInstancesResponse.Instances response with
    | instance :: _ =>
        if (Instance.InstanceName instance =? BastionInstanceName opt)%string
        then Some (Instance.InstanceId instance) else None
    | [] => None
    end in
  match found with
  | Some id => pure id
  | None =>
      emit (EvLogInfo "creating new bastion compute instance") ;;;
      instance <- call (EvCreateInstances (BastionInstanceName opt)
                          securityGroupID imageID vSwitchId zoneID
                          instanceTypeID (UserData opt))
                       (CreateInstances c (BastionInstanceName opt)
                          securityGroupID imageID vSwitchId zoneID
                          instanceTypeID (UserData opt)) ;;
      instance <- deref instance ;;
      first (RunInstancesResponse.InstanceIdSets instance)
  end.

(** [ensureSecurityGroup], line 243. *)
Definition ensureSecurityGroup (c : ECS World)
  (securityGroupName vpcID : string) : M World string :=
  response <- call (EvGetSecurityGroup securityGroupName)
                   (GetSecurityGroup c securityGroupName) ;;
  response <- deref response ;;
  let found :=
    match DescribeSecurityGroupsResponse.SecurityGroups response with
    | group :: _ =>
        if (SecurityGroup.SecurityGroupName group =? securityGroupName)%string
        then Some (SecurityGroup.SecurityGroupId group) else None
    | [] => None
    end in
  match found with
  | Some id => emit (EvLogInfo "Security Group found") ;;; pure id
  | None =>
      emit (EvLogInfo "creating Security Group") ;;;
      createResponse <- call (EvCreateSecurityGroups vpcID securityGroupName)
                             (CreateSecurityGroups c vpcID securityGroupName) ;;
      createResponse <- deref createResponse ;;
      pure (CreateSecurityGroupResponse.SecurityGroupId createResponse)
  end.

(** [isInstanceReady], line 344. *)
Definition isInstanceReady (c : ECS World) (opt : Options) : M World bool :=
  response <- call (EvGetInstances (BastionInstanceName opt))
                   (GetInstances c (BastionInstanceName opt)) ;;
  match response with
  | None => fail (errors_New "bastion instance not yet created")
  | Some response =>
      match DescribeInstancesResponse.Instances response with
      | [] => fail (errors_New "bastion instance not yet created")
      | instance :: _ =>
          if (Instance.Status instance =? "Running")%string then pure true
          else
            emit (EvSleep (10 * Second)) ;;;
            fail (errors_New "bastion instance not yet in Running status")
      end
  end.

(** [ensureSecurityGroupRules], line 264. *)
Definition ensureSecurityGroupRules (c : ECS World) (opt : Options)
  (bastion : Bastion) (securityGroupId : string) : M World unit :=
  (* ingress permission *)
  permissions <- check (ingressPermissions pkg bastion) ;;
  let wantedIngressRules :=
    map (ingressAllowSSH pkg securityGroupId) permissions in
  let describeIngress :=
    describeSecurityGroupAttributeRequest pkg securityGroupId "ingress" in
  currentIngressRules <-
    call (EvDescribeSecurityGroupAttribute describeIngress)
         (DescribeSecurityGroupAttribute c describeIngress) ;;
  currentIngressRules <- deref currentIngressRules ;;
  diff <- total (ingressRulesSymmetricDifference wantedIngressRules
                   (DescribeSecurityGroupAttributeResponse.Permissions
                      currentIngressRules)) ;;
  forEach (fst diff) (fun rule =>
    orWrap (fmt_Errorf_w ("failed to add security group rule "
                          ++ AuthorizeSecurityGroupRequest.Description rule))
      (call (EvCreateIngressRule rule) (CreateIngressRule c rule))) ;;;
  forEach (snd diff) (fun rule =>
    let req := revokeSecurityGroupRequest pkg securityGroupId
                 (Permission.IpProtocol rule) (Permission.PortRange rule)
                 (Permission.SourceCidrIp rule)
                 (Permission.Ipv6SourceCidrIp rule) in
    orWrap (fmt_Errorf_w ("failed to delete security group rule "
                          ++ Permission.Description rule))
      (call (EvRevokeIngressRule req) (RevokeIngressRule c req))) ;;;
  (* egress rules create *)
  shootSecurityGroupResponse <-
    call (EvGetSecurityGroup (ShootSecurityGroupName opt))
         (GetSecurityGroup c (ShootSecurityGroupName opt)) ;;
  shootSecurityGroupResponse <- deref shootSecurityGroupResponse ;;
  match DescribeSecurityGroupsResponse.SecurityGroups
          shootSecurityGroupResponse with
  | [] => fail (errors_New "shoot security group not found")
  | shootSecurityGroup :: _ =>
      let shootSecurityGroupId :=
        SecurityGroup.SecurityGroupId shootSecurityGroup in
      instanceResponse <- call (EvGetInstances (BastionInstanceName opt))
                               (GetInstances c (BastionInstanceName opt)) ;;
      instanceResponse <- deref instanceResponse ;;
      match DescribeInstancesResponse.Instances instanceResponse with
      | [] => fail (errors_New "bastion instance does not have a private ip")
      | instance :: _ =>
          match Instance.PrivateIpAddress instance with
          | [] =>
              fail (errors_New "bastion instance does not have a private ip")
          | privateIP :: _ =>
              let wantedEgressRules :=
                [egressAllowSSHToWorker pkg privateIP securityGroupId
                   shootSecurityGroupId;
                 egressDenyAll pkg securityGroupId] in
              let describeEgress :=
                describeSecurityGroupAttributeRequest pkg securityGroupId
                  "egress" in
              currentEgressRules <-
                call (EvDescribeSecurityGroupAttribute describeEgress)
                     (DescribeSecurityGroupAttribute c describeEgress) ;;
              currentEgressRules <- deref currentEgressRules ;;
              diff <- total (egressRulesSymmetricDifference wantedEgressRules
                               (DescribeSecurityGroupAttributeResponse.Permissions
                                  currentEgressRules)) ;;
              forEach (fst diff) (fun rule =>
                orWrap (fmt_Errorf_w
                          ("failed to add security group egress rule "
                           ++ AuthorizeSecurityGroupEgressRequest.Description
                                rule))
                  (call (EvCreateEgressRule rule) (CreateEgressRule c rule))) ;;;
              forEach (snd diff) (fun rule =>
                let req := revokeSecurityGroupEgressRequest pkg securityGroupId
                             (Permission.IpProtocol rule)
                             (Permission.PortRange rule) in
                orWrap (fmt_Errorf_w
                          ("failed to delete security egress group rule "
                           ++ Permission.Description rule))
                  (call (EvRevokeEgressRule req) (RevokeEgressRule c req)))
          end
      end
  end.
End Actuator.

(** ** The reconcile pass (lines 50-167)

    [Reconcile] is one sequential function.  It is written here as a chain
    of prefixes, each running the pass from its start up to a line, so that
    "a pass that reaches line n" is a run of a prefix. *)

(** [availableInstanceType] is the test of lines 95-99 together with the
    read of line 103: the value of the first supported resource when its
    status is "Available". *)
Definition availableInstanceType
  (instanceType : option DescribeAvailableResourceResponse.t) : option string :=
  match instanceType with
  | None => None
  | Some r =>
      match DescribeAvailableResourceResponse.AvailableZones r with
      | [] => None
      | zone :: _ =>
          match AvailableZone.AvailableResources zone with
          | [] => None
          | resource :: _ =>
              match AvailableResource.SupportedResources resource with
              | [] => None
              | supported :: _ =>
                  if negb (SupportedResource.Status supported =? "Available")%string
                  then None
                  else Some (SupportedResource.Value supported)
              end
          end
      end
  end.

(** The local variables of [Reconcile] after line 86. *)
Record resolved (World : Type) : Type := mkResolved {
  opt : Options;
  aliCloudECSClient : option (ECS World);
  aliCloudVPCClient : VPC World;
  imageID : string;
  vpcInfo : VPCInfo;
  vSwitchInfo : option VSwitchInfo
}.
Arguments mkResolved {World}.
Arguments opt {World}.
Arguments aliCloudECSClient {World}.
Arguments aliCloudVPCClient {World}.
Arguments imageID {World}.
Arguments vpcInfo {World}.
Arguments vSwitchInfo {World}.

(** ... after line 114: both pointers have been followed at line 90. *)
Record selected (World : Type) : Type := mkSelected {
  context : resolved World;
  ecsClient : ECS World;
  zoneID : string;
  instanceTypeId : string
}.
Arguments mkSelected {World}.
Arguments context {World}.
Arguments ecsClient {World}.
Arguments zoneID {World}.
Arguments instanceTypeId {World}.

(** ... after line 124. *)
Record ensured (World : Type) : Type := mkEnsured {
  selection : selected World;
  securityGroupID : string;
  instanceID : string
}.
Arguments mkEnsured {World}.
Arguments selection {World}.
Arguments securityGroupID {World}.
Arguments instanceID {World}.

Section Reconcile.
Context {World : Type}.
Variable pkg : Package World.
Variable a : actuator World.
Variable bastion : Bastion.
Variable cluster : Cluster.
Local Open Scope pass_scope.

(** Lines 53-86. *)
Definition Reconcile_resolved : M World (resolved World) :=
  opt <- check (DetermineOptions pkg bastion cluster) ;;
  opt <- deref opt ;;
  credentials <- call (EvReadCredentials (SecretRef opt))
                      (ReadCredentialsFromSecretRef pkg (SecretRef opt)) ;;
  credentials <- deref credentials ;;
  aliCloudECSClient <-
    call (EvNewECSClient (Region opt))
         (NewECSClient a (Region opt) (AccessKeyID credentials)
            (AccessKeySecret credentials)) ;;
  aliCloudVPCClient <-
    call (EvNewVPCClient (Region opt))
         (NewVPCClient a (Region opt) (AccessKeyID credentials)
            (AccessKeySecret credentials)) ;;
  imageID <- check (getImageID pkg cluster opt) ;;
  aliCloudVPCClient <- deref aliCloudVPCClient ;;
  vpcInfo <- call (EvGetVPCInfoByName (VpcName opt))
                  (GetVPCInfoByName aliCloudVPCClient (VpcName opt)) ;;
  vpcInfo <- deref vpcInfo ;;
  vSwitchInfo <- call (EvGetVSwitchesInfoByID (VSwitchID vpcInfo))
                      (GetVSwitchesInfoByID aliCloudVPCClient
                         (VSwitchID vpcInfo)) ;;
  pure (mkResolved opt aliCloudECSClient aliCloudVPCClient imageID vpcInfo
          vSwitchInfo).

(** The loop of lines 89-105 over the remaining core counts; the result is
    [instanceTypeId], still empty when no candidate was accepted. *)
Fixpoint probeInstanceTypes (c : ECS World) (zoneID : string)
  (cores : list Z) : M World string :=
  match cores with
  | [] => pure ""
  | n :: rest =>
      instanceType <- call (EvGetInstanceType n zoneID)
                           (GetInstanceType c n zoneID) ;;
      match availableInstanceType instanceType with
      | None => probeInstanceTypes c zoneID rest
      | Some value => pure value
      end
  end.

(** Lines 88-114. *)
Definition resolveInstanceTypeId (c : ECS World) (zoneID : string)
  : M World string :=
  instanceTypeId <- probeInstanceTypes c zoneID [1; 2] ;;
  if (instanceTypeId =? "")%string then
    cloudProfile <- deref (ClusterCloudProfile cluster) ;;
    match MachineTypes cloudProfile with
    | [] =>
        fail (errors_New
                "failed to determine instanceTypeId from cloud profile as fallback. Machine types missing from cloud profile")
    | machineType :: _ =>
        emit (EvLogInfo
                "falling back to first machine type of cloud profile as bastion instance type id") ;;;
        pure (MachineTypeName machineType)
    end
  else pure instanceTypeId.

(** Lines 53-114. *)
Definition Reconcile_selected : M World (selected World) :=
  r <- Reconcile_resolved ;;
  vSwitchInfo <- deref (vSwitchInfo r) ;;
  c <- deref (aliCloudECSClient r) ;;
  instanceTypeId <- resolveInstanceTypeId c (ZoneID vSwitchInfo) ;;
  pure (mkSelected r c (ZoneID vSwitchInfo) instanceTypeId).

(** Lines 53-124. *)
Definition Reconcile_ensured : M World (ensured World) :=
  s <- Reconcile_selected ;;
  let r := context s in
  securityGroupID <-
    ensureSecurityGroup (ecsClient s) (SecurityGroupName (opt r))
      (VPCID (vpcInfo r)) ;;
  instanceID <-
    ensureComputeInstance (ecsClient s) (opt r) securityGroupID (imageID r)
      (VSwitchID (vpcInfo r)) (zoneID s) (instanceTypeId s) ;;
  pure (mkEnsured s securityGroupID instanceID).

(** Lines 126-136. *)
Definition awaitInstance (c : ECS World) (opt : Options) : M World unit :=
  ready <- orWrap (fmt_Errorf_w "failed to check for bastion instance")
             (isInstanceReady c opt) ;;
  if negb ready then
    fail (RequeueAfterError (10 * Second)
            (errors_New "bastion instance not ready yet"))
  else pure tt.

(** Lines 53-136. *)
Definition Reconcile_ready : M World (ensured World) :=
  e <- Reconcile_ensured ;;
  awaitInstance (ecsClient (selection e)) (opt (context (selection e))) ;;;
  pure e.

(** Lines 53-146. *)
Definition Reconcile_allocated : M World (ensured World * string) :=
  e <- Reconcile_ready ;;
  let c := ecsClient (selection e) in
  ensureSecurityGroupRules pkg c (opt (context (selection e))) bastion
    (securityGroupID e) ;;;
  publicIP <- call (EvAllocatePublicIp (instanceID e))
                   (AllocatePublicIp c (instanceID e)) ;;
  publicIP <- deref publicIP ;;
  pure (e, AllocatePublicIpAddressResponse.IpAddress publicIP).

(** Lines 148-166. *)
Definition publishEndpoints (c : ECS World) (opt : Options) (ip : string)
  : M World unit :=
  endpoints <- getInstanceEndpoints c opt ip ;;
  if negb (Ready (Some endpoints)) then
    fail (RequeueAfterError (5 * Second)
            (errors_New "bastion instance has no public/private endpoints yet"))
  else
    (* once a public endpoint is available, publish the endpoint on the
       Bastion resource to notify upstream about the ready instance *)
    let from := bastion in
    let bastion :=
      mkBastion (Namespace bastion) (Name bastion) (Spec bastion)
        (mkBastionStatus (Default (Status bastion)) (public endpoints)) in
    call (EvStatusPatch bastion from) (StatusPatch a bastion from).

(** [Reconcile], line 50. *)
Definition Reconcile : M World unit :=
  p <- Reconcile_allocated ;;
  publishEndpoints (ecsClient (selection (fst p)))
    (opt (context (selection (fst p)))) (snd p).
End Reconcile.

(** ** The merge-patch capability *)

Definition eqb_option {A} (eqb : A -> A -> bool) (x y : option A) : bool :=
  match x, y with
  | None, None => true
  | Some u, Some v => eqb u v
  | _, _ => false
  end.

Definition eqb_ingress (x y : LoadBalancerIngress.t) : bool :=
  (LoadBalancerIngress.IP x =? LoadBalancerIngress.IP y)%string
  && (LoadBalancerIngress.Hostname x =? LoadBalancerIngress.Hostname y)%string.

(** Modelled from the spec: the host framework's "merge-patch status"
    capability, declared outside this repository: "a partial/merge update,
    not a full overwrite".  A merge patch carries, per status field, the new
    value when it differs between the copy taken by [client.MergeFrom] and
    the object handed to [Patch], and nothing otherwise. *)
Record StatusMergePatch : Type := mkStatusMergePatch {
  patchObservedGeneration : option Z;
  patchLastOperation : option (option string);
  patchLastError : option (option string);
  patchIngress : option (option LoadBalancerIngress.t)
}.

Definition changed {A} (eqb : A -> A -> bool) (from obj : A) : option A :=
  if eqb from obj then None else Some obj.

(** Modelled from the spec: the data of [client.MergeFrom(from)] for [obj]. *)
Definition mergeFrom (from obj : BastionStatus) : StatusMergePatch :=
  mkStatusMergePatch
    (changed Z.eqb (ObservedGeneration (Default from))
       (ObservedGeneration (Default obj)))
    (changed (eqb_option String.eqb) (LastOperation (Default from))
       (LastOperation (Default obj)))
    (changed (eqb_option String.eqb) (LastError (Default from))
       (LastError (Default obj)))
    (changed (eqb_option eqb_ingress) (Ingress from) (Ingress obj)).

Definition patched {A} (p : option A) (old : A) : A :=
  match p with
  | Some new => new
  | None => old
  end.

(** Modelled from the spec: what the status store holds after a merge patch
    is applied to the status it holds now. *)
Definition applyMergePatch (p : StatusMergePatch) (persisted : BastionStatus)
  : BastionStatus :=
  mkBastionStatus
    (mkDefaultStatus
       (patched (patchObservedGeneration p)
          (ObservedGeneration (Default persisted)))
       (patched (patchLastOperation p) (LastOperation (Default persisted)))
       (patched (patchLastError p) (LastError (Default persisted))))
    (patched (patchIngress p) (Ingress persisted)).

(** The status writes of a trace. *)
Definition isStatusWrite (ev : event) : bool :=
  match ev with
  | EvStatusPatch _ _ | EvStatusUpdate _ => true
  | _ => false
  end.

Definition statusWrites (t : list event) : list event := filter isStatusWrite t.

(** The creation calls of a trace. *)
Definition isCreationCall (ev : event) : bool :=
  match ev with
  | EvCreateSecurityGroups _ _ | EvCreateInstances _ _ _ _ _ _ _ => true
  | _ => false
  end.

Definition creationCalls (t : list event) : list event :=
  filter isCreationCall t.

(** The blocking waits of a trace. *)
Definition isSleep (ev : event) : bool :=
  match ev with
  | EvSleep _ => true
  | _ => false
  end.

Definition sleeps (t : list event) : list event := filter isSleep t.

(** ** An in-memory provider *)

Module InMemory.

(** Modelled from the spec: the provider behind the contract of section 6
    ("LookupSecurityGroup(name)", "CreateSecurityGroup(network, name)",
    "LookupInstance(name)", "CreateInstance(...)", "DescribeRules",
    "AllocatePublicAddress") and the persisted status of the caller.  A
    lookup by name answers with the resources of that name, in the order
    they were created. *)
Record Cloud : Type := mkCloud {
  securityGroups : list SecurityGroup.t;
  instances : list Instance.t;
  ingressRules : list Permission.t;
  egressRules : list Permission.t;
  available : list (Z * DescribeAvailableResourceResponse.t);
  publicAddress : string;
  persistedStatus : BastionStatus
}.

Definition withGroups (w : Cloud) (gs : list SecurityGroup.t) : Cloud :=
  mkCloud gs (instances w) (ingressRules w) (egressRules w) (available w)
    (publicAddress w) (persistedStatus w).

Definition withInstances (w : Cloud) (l : list Instance.t) : Cloud :=
  mkCloud (securityGroups w) l (ingressRules w) (egressRules w) (available w)
    (publicAddress w) (persistedStatus w).

Definition withIngress (w : Cloud) (rs : list Permission.t) : Cloud :=
  mkCloud (securityGroups w) (instances w) rs (egressRules w) (available w)
    (publicAddress w) (persistedStatus w).

Definition withEgress (w : Cloud) (rs : list Permission.t) : Cloud :=
  mkCloud (securityGroups w) (instances w) (ingressRules w) rs (available w)
    (publicAddress w) (persistedStatus w).

Definition withStatus (w : Cloud) (s : BastionStatus) : Cloud :=
  mkCloud (securityGroups w) (instances w) (ingressRules w) (egressRules w)
    (available w) (publicAddress w) s.

Definition groupsNamed (name : string) (w : Cloud) : list SecurityGroup.t :=
  filter (fun g => (SecurityGroup.SecurityGroupName g =? name)%string)
    (securityGroups w).

Definition instancesNamed (name : string) (w : Cloud) : list Instance.t :=
  filter (fun i => (Instance.InstanceName i =? name)%string) (instances w).

Fixpoint lookupCores (n : Z)
  (l : list (Z * DescribeAvailableResourceResponse.t))
  : option DescribeAvailableResourceResponse.t :=
  match l with
  | [] => None
  | (k, r) :: rest => if (k =? n)%Z then Some r else lookupCores n rest
  end.

Definition ingressPermissionOf (r : AuthorizeSecurityGroupRequest.t)
  : Permission.t :=
  Permission.mk (AuthorizeSecurityGroupRequest.Description r)
    (AuthorizeSecurityGroupRequest.IpProtocol r)
    (AuthorizeSecurityGroupRequest.PortRange r)
    (AuthorizeSecurityGroupRequest.SourceCidrIp r)
    (AuthorizeSecurityGroupRequest.Ipv6SourceCidrIp r)
    (AuthorizeSecurityGroupRequest.DestCidrIp r)
    (AuthorizeSecurityGroupRequest.Ipv6DestCidrIp r)
    (AuthorizeSecurityGroupRequest.Policy r).

Definition egressPermissionOf (r : AuthorizeSecurityGroupEgressRequest.t)
  : Permission.t :=
  Permission.mk (AuthorizeSecurityGroupEgressRequest.Description r)
    (AuthorizeSecurityGroupEgressRequest.IpProtocol r)
    (AuthorizeSecurityGroupEgressRequest.PortRange r)
    (AuthorizeSecurityGroupEgressRequest.SourceCidrIp r)
    (AuthorizeSecurityGroupEgressRequest.Ipv6SourceCidrIp r)
    (AuthorizeSecurityGroupEgressRequest.DestCidrIp r)
    (AuthorizeSecurityGroupEgressRequest.Ipv6DestCidrIp r)
    (AuthorizeSecurityGroupEgressRequest.Policy r).

Definition revokedBy (protocol range : string) (p : Permission.t) : bool :=
  (Permission.IpProtocol p =? protocol)%string
  && (Permission.PortRange p =? range)%string.

(** Modelled from the spec: the compute client over [Cloud]. *)
Definition ecs : ECS Cloud :=
  mkECS Cloud
    (fun cores _ w => (Return (lookupCores cores (available w)), w))
    (fun name w =>
       (Return (Some (DescribeSecurityGroupsResponse.mk (groupsNamed name w))),
        w))
    (fun _ name w =>
       (Return (Some (CreateSecurityGroupResponse.mk ("sg-" ++ name))),
        withGroups w (securityGroups w
                        ++ [SecurityGroup.mk ("sg-" ++ name) name])))
    (fun name w =>
       (Return (Some (DescribeInstancesResponse.mk (instancesNamed name w))),
        w))
    (fun name _ _ _ _ _ _ w =>
       (Return (Some (RunInstancesResponse.mk ["i-" ++ name])),
        withInstances w (instances w
                           ++ [Instance.mk ("i-" ++ name) name "Pending" []])))
    (fun req w =>
       (Return (Some (DescribeSecurityGroupAttributeResponse.mk
                        (if (DescribeSecurityGroupAttributeRequest.Direction req
                             =? "ingress")%string
                         then ingressRules w else egressRules w))),
        w))
    (fun rule w =>
       (Return tt, withIngress w (ingressRules w ++ [ingressPermissionOf rule])))
    (fun req w =>
       (Return tt,
        withIngress w
          (filter (fun p =>
                     negb (revokedBy
                             (RevokeSecurityGroupRequest.IpProtocol req)
                             (RevokeSecurityGroupRequest.PortRange req) p
                           && (Permission.SourceCidrIp p =?
                               RevokeSecurityGroupRequest.SourceCidrIp req)%string))
             (ingressRules w))))
    (fun rule w =>
       (Return tt, withEgress w (egressRules w ++ [egressPermissionOf rule])))
    (fun req w =>
       (Return tt,
        withEgress w
          (filter (fun p =>
                     negb (revokedBy
                             (RevokeSecurityGroupEgressRequest.IpProtocol req)
                             (RevokeSecurityGroupEgressRequest.PortRange req) p))
             (egressRules w))))
    (fun _ w =>
       (Return (Some (AllocatePublicIpAddressResponse.mk (publicAddress w))), w)).

(** The same client, except that a creation answers with an empty set of
    instance ids. *)
Definition ecsWithoutIds : ECS Cloud :=
  mkECS Cloud (GetInstanceType ecs) (GetSecurityGroup ecs)
    (CreateSecurityGroups ecs) (GetInstances ecs)
    (fun _ _ _ _ _ _ _ w => (Return (Some (RunInstancesResponse.mk [])), w))
    (DescribeSecurityGroupAttribute ecs) (CreateIngressRule ecs)
    (RevokeIngressRule ecs) (CreateEgressRule ecs) (RevokeEgressRule ecs)
    (AllocatePublicIp ecs).

(** Modelled from the spec: the network client; one network, one subnet. *)
Definition vpc : VPC Cloud :=
  mkVPC Cloud
    (fun _ w => (Return (Some (mkVPCInfo "vpc-1" "vsw-1")), w))
    (fun _ w => (Return (Some (mkVSwitchInfo "zone-a")), w)).

(** Modelled from the spec: the actuator over [Cloud]; its status writer
    applies the merge patch to the persisted status. *)
Definition actuator : actuator Cloud :=
  mkActuator Cloud
    (fun _ _ _ w => (Return (Some ecs), w))
    (fun _ _ _ w => (Return (Some vpc), w))
    (fun obj from w =>
       (Return tt,
        withStatus w (applyMergePatch (mergeFrom (Status from) (Status obj))
                        (persistedStatus w)))).

(** Modelled from the spec: the package functions declared in other files:
    "one SSH-allow rule per entry in the bastion's configured source CIDR
    allowlist", "allow SSH from the bastion's private IP to the target
    workload's security group" and "deny all other egress". *)
Definition package : Package Cloud :=
  mkPackage Cloud
    (fun b _ =>
       Return (Some (mkOptions (Name b) "region-1"
                       (mkSecretReference "cloudprovider" (Namespace b))
                       ("sg-" ++ Name b) "sg-shoot" (SpecUserData (Spec b))
                       "vpc-shoot")))
    (fun _ w => (Return (Some (mkCredentials "id" "secret")), w))
    (fun _ _ => Return "image-1")
    (fun b => Return (map mkIngressPermission (SpecIngress (Spec b))))
    (fun sg p =>
       Some (AuthorizeSecurityGroupRequest.mk sg "SSH access for Bastion"
               "tcp" "22/22" (CIDR p) "" "" "" "Accept"))
    (fun ip sg shoot =>
       Some (AuthorizeSecurityGroupEgressRequest.mk sg
               "Allow Bastion egress to Shoot workers" "tcp" "22/22" ip "" ""
               "" shoot "Accept"))
    (fun sg =>
       Some (AuthorizeSecurityGroupEgressRequest.mk sg
               "Bastion egress deny all" "all" "-1/-1" "" "" "0.0.0.0/0" ""
               "" "Drop"))
    DescribeSecurityGroupAttributeRequest.mk
    RevokeSecurityGroupRequest.mk
    RevokeSecurityGroupEgressRequest.mk.

(** The request of the end-to-end scenario. *)
Definition bastion1 : Bastion :=
  mkBastion "shoot--ns" "bastion-1"
    (mkBastionSpec "#!/bin/sh" ["203.0.113.0/24"])
    (mkBastionStatus (mkDefaultStatus 1 (Some "Create") None) None).

Definition cluster1 : Cluster :=
  mkCluster (Some (mkCloudProfile
                     [mkMachineType "m.small"; mkMachineType "m.large"])).

Definition clusterNoTypes : Cluster := mkCluster (Some (mkCloudProfile [])).

Definition typeAvailable : DescribeAvailableResourceResponse.t :=
  DescribeAvailableResourceResponse.mk
    [AvailableZone.mk
       [AvailableResource.mk [SupportedResource.mk "Available" "ecs.t5.small"]]].

Definition typeSoldOut : DescribeAvailableResourceResponse.t :=
  DescribeAvailableResourceResponse.mk
    [AvailableZone.mk
       [AvailableResource.mk [SupportedResource.mk "SoldOut" "ecs.t5.small"]]].

Definition shootGroup : SecurityGroup.t := SecurityGroup.mk "sg-shoot" "sg-shoot".

(** The provider before the first pass: only the workload's group. *)
Definition empty : Cloud :=
  mkCloud [shootGroup] [] [] [] [(1, typeAvailable)] "198.51.100.9"
    (Status bastion1).

(** No instance type available anywhere. *)
Definition soldOut : Cloud :=
  mkCloud [shootGroup] [] [] [] [(1, typeSoldOut); (2, typeSoldOut)]
    "198.51.100.9" (Status bastion1).

Definition bastionGroup : SecurityGroup.t :=
  SecurityGroup.mk "sg-sg-bastion-1" "sg-bastion-1".

Definition instanceIn (status : string) (ips : list string) : Instance.t :=
  Instance.mk "i-bastion-1" "bastion-1" status ips.

(** The bastion's group and instance exist; the instance has the given
    status and private addresses. *)
Definition provisioned (status : string) (ips : list string)
  (publicIP : string) (persisted : BastionStatus) : Cloud :=
  mkCloud [shootGroup; bastionGroup] [instanceIn status ips] [] []
    [(1, typeAvailable)] publicIP persisted.

Definition pending : Cloud :=
  provisioned "Pending" [] "198.51.100.9" (Status bastion1).

Definition running : Cloud :=
  provisioned "Running" ["10.0.0.5"] "198.51.100.9" (Status bastion1).

(** Running, and another controller has meanwhile written its own status
    fields. *)
Definition runningTouched : Cloud :=
  provisioned "Running" ["10.0.0.5"] "198.51.100.9"
    (mkBastionStatus (mkDefaultStatus 2 (Some "Reconcile") (Some "timeout"))
       None).

(** Running, no public address attached yet. *)
Definition runningNoAddress : Cloud :=
  provisioned "Running" ["10.0.0.5"] "" (Status bastion1).

(** Running, without a private address. *)
Definition runningNoPrivate : Cloud :=
  provisioned "Running" [] "198.51.100.9" (Status bastion1).

Definition options1 : Options :=
  mkOptions "bastion-1" "region-1" (mkSecretReference "cloudprovider" "shoot--ns")
    "sg-bastion-1" "sg-shoot" "#!/bin/sh" "vpc-shoot".

Definition pass (b : Bastion) (c : Cluster) : M Cloud unit :=
  Reconcile package actuator b c.

End InMemory.

(** ** Vocabulary of the properties *)

Definition orEmpty (s : option string) : string :=
  match s with
  | Some v => v
  | None => ""
  end.

Definition populated (i : LoadBalancerIngress.t) : Prop :=
  LoadBalancerIngress.Hostname i <> "" \/ LoadBalancerIngress.IP i <> "".

Section DiffVocabulary.
Context {Wanted : Type}.
Variable ruleEqual : Wanted -> Permission.t -> bool.

(** The diff as the spec words it: [W \ O] and [O \ W] by [ruleEqual]. *)
Definition wantedMinusObserved (W : list Wanted) (O : list Permission.t)
  : list Wanted :=
  filter (fun w => negb (existsb (ruleEqual w) O)) W.

Definition observedMinusWanted (W : list Wanted) (O : list Permission.t)
  : list Permission.t :=
  filter (fun o => negb (existsb (fun w => ruleEqual w o) W)) O.

(** A correct diff [(toAdd, toDelete)] of the wanted rules [W] against the
    observed rules [O]; the fourth to sixth parts say that the observed
    rules kept, together with [toAdd], are set-equal to [W]. *)
Definition diffCorrect (W : list Wanted) (O : list Permission.t)
  (toAdd : list Wanted) (toDelete : list Permission.t) : Prop :=
  (forall a o, In a toAdd -> In o O -> ruleEqual a o = false)
  /\ (forall d, In d toDelete -> In d O)
  /\ (forall d w, In d toDelete -> In w W -> ruleEqual w d = false)
  /\ (forall w, In w W ->
        In w toAdd
        \/ exists o, In o O /\ ~ In o toDelete /\ ruleEqual w o = true)
  /\ (forall a, In a toAdd -> In a W)
  /\ (forall o, In o O -> ~ In o toDelete ->
        exists w, In w W /\ ruleEqual w o = true)
  /\ ((forall w, In w W -> exists o, In o O /\ ruleEqual w o = true) ->
      (forall o, In o O -> exists w, In w W /\ ruleEqual w o = true) ->
      toAdd = [] /\ toDelete = [])
  /\ (W = [] -> toAdd = [] /\ toDelete = O)
  /\ (O = [] -> toAdd = W /\ toDelete = []).
End DiffVocabulary.

Definition sshFrom (cidr : string) : AuthorizeSecurityGroupRequest.t :=
  AuthorizeSecurityGroupRequest.mk "sg-1" "SSH access for Bastion" "tcp"
    "22/22" cidr "" "" "" "Accept".

Definition observedSshFrom (cidr : string) : Permission.t :=
  Permission.mk "SSH access for Bastion" "tcp" "22/22" cidr "" "" "" "Accept".

(** C3 as the specification states it: equal egress rules agree on the
    destination and the action as well. *)
Definition egressEqualityComparesDestinationAndAction : Prop :=
  forall a b, egressRuleEqual a b = true ->
    AuthorizeSecurityGroupEgressRequest.DestCidrIp a = Permission.DestCidrIp b
    /\ AuthorizeSecurityGroupEgressRequest.Policy a = Permission.Policy b.

Definition denyAll : AuthorizeSecurityGroupEgressRequest.t :=
  AuthorizeSecurityGroupEgressRequest.mk "sg-1" "Bastion egress deny all"
    "all" "-1/-1" "" "" "0.0.0.0/0" "" "" "Drop".

Definition observedAllowAll : Permission.t :=
  Permission.mk "Bastion egress deny all" "all" "-1/-1" "" "" "10.0.0.0/8" ""
    "Accept".

(** The provider holds a security group of the requested name: the lookup
    by that name answers with it, and looking up changes nothing. *)
Definition holdsSecurityGroup {World} (c : ECS World) (name : string)
  (w : World) (group : SecurityGroup.t) : Prop :=
  exists response rest,
    GetSecurityGroup c name w = (Return (Some response), w)
    /\ DescribeSecurityGroupsResponse.SecurityGroups response = group :: rest
    /\ SecurityGroup.SecurityGroupName group = name.

(** The provider holds a compute instance of the requested name. *)
Definition holdsInstance {World} (c : ECS World) (name : string)
  (w : World) (instance : Instance.t) : Prop :=
  exists response rest,
    GetInstances c name w = (Return (Some response), w)
    /\ DescribeInstancesResponse.Instances response = instance :: rest
    /\ Instance.InstanceName instance = name.

(** The lookup answered, and not with a group of the requested name. *)
Definition lookupFindsNoGroup {World} (c : ECS World) (name : string)
  (w : World) : Prop :=
  exists response,
    fst (GetSecurityGroup c name w) = Return (Some response)
    /\ forall group rest,
         DescribeSecurityGroupsResponse.SecurityGroups response = group :: rest ->
         SecurityGroup.SecurityGroupName group <> name.

Definition lookupFindsNoInstance {World} (c : ECS World) (name : string)
  (w : World) : Prop :=
  exists response,
    fst (GetInstances c name w) = Return (Some response)
    /\ forall instance rest,
         DescribeInstancesResponse.Instances response = instance :: rest ->
         Instance.InstanceName instance <> name.

(** Every probe of the range answers, and none with an available type. *)
Fixpoint noneAvailable {World} (c : ECS World) (zoneID : string)
  (cores : list Z) (w : World) : Prop :=
  match cores with
  | [] => True
  | n :: rest =>
      (exists instanceType,
          fst (GetInstanceType c n zoneID w) = Return instanceType
          /\ availableInstanceType instanceType = None)
      /\ noneAvailable c zoneID rest (snd (GetInstanceType c n zoneID w))
  end.

(** The provider after the probes of the range. *)
Fixpoint afterProbes {World} (c : ECS World) (zoneID : string)
  (cores : list Z) (w : World) : World :=
  match cores with
  | [] => w
  | n :: rest => afterProbes c zoneID rest (snd (GetInstanceType c n zoneID w))
  end.

Definition noMachineTypes : error :=
  errors_New
    "failed to determine instanceTypeId from cloud profile as fallback. Machine types missing from cloud profile".

Definition fallbackNote : event :=
  EvLogInfo
    "falling back to first machine type of cloud profile as bastion instance type id".

(** The bastion object handed to [Patch] at line 166: the one received,
    with [Status.Ingress] replaced. *)
Definition withStatusIngress (bastion : Bastion)
  (ingress : option LoadBalancerIngress.t) : Bastion :=
  mkBastion (Namespace bastion) (Name bastion) (Spec bastion)
    (mkBastionStatus (Default (Status bastion)) ingress).

(** The endpoints built at lines 208-218 from the private address read and
    the public address allocated. *)
Definition endpointsOf (internalIP ip : string) : bastionEndpoints :=
  mkEndpoints (addressToIngress None (Some internalIP))
    (addressToIngress None (Some ip)).

Definition noEndpointsYet : error :=
  RequeueAfterError (5 * Second)
    (errors_New "bastion instance has no public/private endpoints yet").

(** How a call to a collaborator ends the function that returns it. *)
Definition returned {A} (r : ret A) : outcome A :=
  match r with
  | Return x => Ok x
  | Fail e => Err e
  end.

(** A Running instance reports at least one private address. *)
Definition runningHasPrivateIP {World} (c : ECS World) (name : string)
  (w : World) : Prop :=
  forall response instance rest,
    fst (GetInstances c name w) = Return (Some response) ->
    DescribeInstancesResponse.Instances response = instance :: rest ->
    Instance.Status instance = "Running" ->
    Instance.PrivateIpAddress instance <> [].

(** A successful creation response contains at least one instance id. *)
Definition creationYieldsId {World} (c : ECS World) (opt : Options)
  (securityGroupID imageID vSwitchId zoneID instanceTypeID : string)
  (w : World) : Prop :=
  forall created,
    fst (CreateInstances c (BastionInstanceName opt) securityGroupID imageID
           vSwitchId zoneID instanceTypeID (UserData opt) w)
    = Return (Some created) ->
    RunInstancesResponse.InstanceIdSets created <> [].

(** ** Further vocabulary *)

(** [Emits P m]: every event of every run of [m] satisfies [P]. *)
Definition Emits {World A} (P : event -> Prop) (m : M World A) : Prop :=
  forall w, Forall P (events (m w)).

(** Reads of the provider, and log lines. *)
Definition isRead (ev : event) : bool :=
  match ev with
  | EvReadCredentials _ | EvNewECSClient _ | EvNewVPCClient _
  | EvGetVPCInfoByName _ | EvGetVSwitchesInfoByID _ | EvGetInstanceType _ _
  | EvGetSecurityGroup _ | EvGetInstances _
  | EvDescribeSecurityGroupAttribute _ | EvLogInfo _ => true
  | _ => false
  end.

(** Creations and revocations of security-group rules. *)
Definition isRuleChange (ev : event) : bool :=
  match ev with
  | EvCreateIngressRule _ | EvRevokeIngressRule _
  | EvCreateEgressRule _ | EvRevokeEgressRule _ => true
  | _ => false
  end.

(** The steps after the instance-readiness check (lines 138-166): rule
    reads and changes, the address allocation and the status write. *)
Definition isLateStep (ev : event) : bool :=
  match ev with
  | EvDescribeSecurityGroupAttribute _ | EvAllocatePublicIp _ => true
  | _ => isRuleChange ev || isStatusWrite ev
  end.



(** How [ensureSecurityGroup] ends after its creation call. *)
Definition createdGroup (r : ret (option CreateSecurityGroupResponse.t))
  : outcome string :=
  match r with
  | Return (Some created) =>
      Ok (CreateSecurityGroupResponse.SecurityGroupId created)
  | Return None => Panicked NilDereference
  | Fail e => Err e
  end.

(** How [ensureComputeInstance] ends after its creation call. *)
Definition createdInstance (r : ret (option RunInstancesResponse.t))
  : outcome string :=
  match r with
  | Return (Some created) =>
      match RunInstancesResponse.InstanceIdSets created with
      | id :: _ => Ok id
      | [] => Panicked IndexOutOfRange
      end
  | Return None => Panicked NilDereference
  | Fail e => Err e
  end.


(** [ensureSecurityGroupRules] in its two halves, each with the lines of
    the function it stands for. *)
Section RuleHalves.
Context {World : Type}.
Variable pkg : Package World.
Local Open Scope pass_scope.

(** Lines 265-294: the ingress rules. *)
Definition reconcileIngressRules (c : ECS World) (bastion : Bastion)
  (securityGroupId : string) : M World unit :=
  permissions <- check (ingressPermissions pkg bastion) ;;
  let wantedIngressRules :=
    map (ingressAllowSSH pkg securityGroupId) permissions in
  let describeIngress :=
    describeSecurityGroupAttributeRequest pkg securityGroupId "ingress" in
  currentIngressRules <-
    call (EvDescribeSecurityGroupAttribute describeIngress)
         (DescribeSecurityGroupAttribute c describeIngress) ;;
  currentIngressRules <- deref currentIngressRules ;;
  diff <- total (ingressRulesSymmetricDifference wantedIngressRules
                   (DescribeSecurityGroupAttributeResponse.Permissions
                      currentIngressRules)) ;;
  forEach (fst diff) (fun rule =>
    orWrap (fmt_Errorf_w ("failed to add security group rule "
                          ++ AuthorizeSecurityGroupRequest.Description rule))
      (call (EvCreateIngressRule rule) (CreateIngressRule c rule))) ;;;
  forEach (snd diff) (fun rule =>
    let req := revokeSecurityGroupRequest pkg securityGroupId
                 (Permission.IpProtocol rule) (Permission.PortRange rule)
                 (Permission.SourceCidrIp rule)
                 (Permission.Ipv6SourceCidrIp rule) in
    orWrap (fmt_Errorf_w ("failed to delete security group rule "
                          ++ Permission.Description rule))
      (call (EvRevokeIngressRule req) (RevokeIngressRule c req))).

(** Lines 296-341: the egress rules. *)
Definition reconcileEgressRules (c : ECS World) (opt : Options)
  (securityGroupId : string) : M World unit :=
  shootSecurityGroupResponse <-
    call (EvGetSecurityGroup (ShootSecurityGroupName opt))
         (GetSecurityGroup c (ShootSecurityGroupName opt)) ;;
  shootSecurityGroupResponse <- deref shootSecurityGroupResponse ;;
  match DescribeSecurityGroupsResponse.SecurityGroups
          shootSecurityGroupResponse with
  | [] => fail (errors_New "shoot security group not found")
  | shootSecurityGroup :: _ =>
      let shootSecurityGroupId :=
        SecurityGroup.SecurityGroupId shootSecurityGroup in
      instanceResponse <- call (EvGetInstances (BastionInstanceName opt))
                               (GetInstances c (BastionInstanceName opt)) ;;
      instanceResponse <- deref instanceResponse ;;
      match DescribeInstancesResponse.Instances instanceResponse with
      | [] => fail (errors_New "bastion instance does not have a private ip")
      | instance :: _ =>
          match Instance.PrivateIpAddress instance with
          | [] =>
              fail (errors_New "bastion instance does not have a private ip")
          | privateIP :: _ =>
              let wantedEgressRules :=
                [egressAllowSSHToWorker pkg privateIP securityGroupId
                   shootSecurityGroupId;
                 egressDenyAll pkg securityGroupId] in
              let describeEgress :=
                describeSecurityGroupAttributeRequest pkg securityGroupId
                  "egress" in
              currentEgressRules <-
                call (EvDescribeSecurityGroupAttribute describeEgress)
                     (DescribeSecurityGroupAttribute c describeEgress) ;;
              currentEgressRules <- deref currentEgressRules ;;
              diff <- total (egressRulesSymmetricDifference wantedEgressRules
                               (DescribeSecurityGroupAttributeResponse.Permissions
                                  currentEgressRules)) ;;
              forEach (fst diff) (fun rule =>
                orWrap (fmt_Errorf_w
                          ("failed to add security group egress rule "
                           ++ AuthorizeSecurityGroupEgressRequest.Description
                                rule))
                  (call (EvCreateEgressRule rule) (CreateEgressRule c rule))) ;;;
              forEach (snd diff) (fun rule =>
                let req := revokeSecurityGroupEgressRequest pkg securityGroupId
                             (Permission.IpProtocol rule)
                             (Permission.PortRange rule) in
                orWrap (fmt_Errorf_w
                          ("failed to delete security egress group rule "
                           ++ Permission.Description rule))
                  (call (EvRevokeEgressRule req) (RevokeEgressRule c req)))
          end
      end
  end.
End RuleHalves.

(** Every wanted rule has an equal observed rule and the other way round. *)
Definition rulesInPlace {Wanted} (ruleEqual : Wanted -> Permission.t -> bool)
  (W : list Wanted) (O : list Permission.t) : Prop :=
  (forall w, In w W -> exists o, In o O /\ ruleEqual w o = true)
  /\ (forall o, In o O -> exists w, In w W /\ ruleEqual w o = true).

(** The provider shows the wanted ingress and egress rules of the bastion's
    security group and nothing else, and its lookups change nothing. *)
Definition rulesConverged {World} (pkg : Package World) (c : ECS World)
  (opt : Options) (bastion : Bastion) (securityGroupId : string) (w : World)
  : Prop :=
  exists permissions wantedIngress currentIngress shootResponse shootGroup
         otherGroups instanceResponse instance otherInstances privateIP
         otherIPs allowWorker denyAll currentEgress,
    ingressPermissions pkg bastion = Return permissions
    /\ map (ingressAllowSSH pkg securityGroupId) permissions
       = map Some wantedIngress
    /\ DescribeSecurityGroupAttribute c
         (describeSecurityGroupAttributeRequest pkg securityGroupId "ingress") w
       = (Return (Some currentIngress), w)
    /\ rulesInPlace ingressRuleEqual wantedIngress
         (DescribeSecurityGroupAttributeResponse.Permissions currentIngress)
    /\ GetSecurityGroup c (ShootSecurityGroupName opt) w
       = (Return (Some shootResponse), w)
    /\ DescribeSecurityGroupsResponse.SecurityGroups shootResponse
       = shootGroup :: otherGroups
    /\ GetInstances c (BastionInstanceName opt) w
       = (Return (Some instanceResponse), w)
    /\ DescribeInstancesResponse.Instances instanceResponse
       = instance :: otherInstances
    /\ Instance.PrivateIpAddress instance = privateIP :: otherIPs
    /\ egressAllowSSHToWorker pkg privateIP securityGroupId
         (SecurityGroup.SecurityGroupId shootGroup) = Some allowWorker
    /\ egressDenyAll pkg securityGroupId = Some denyAll
    /\ DescribeSecurityGroupAttribute c
         (describeSecurityGroupAttributeRequest pkg securityGroupId "egress") w
       = (Return (Some currentEgress), w)
    /\ rulesInPlace egressRuleEqual [allowWorker; denyAll]
         (DescribeSecurityGroupAttributeResponse.Permissions currentEgress).


(** A creation call that carries the values resolved earlier in the pass:
    network and group name for a security group; name, image, switch, zone,
    instance type and user data for an instance. *)
Definition creationAsResolved {World} (s : selected World) (ev : event) : Prop :=
  match ev with
  | EvCreateSecurityGroups vpcID name =>
      vpcID = VPCID (vpcInfo (context s))
      /\ name = SecurityGroupName (opt (context s))
  | EvCreateInstances name _ image vSwitchId zone instanceType userData =>
      name = BastionInstanceName (opt (context s))
      /\ image = imageID (context s)
      /\ vSwitchId = VSwitchID (vpcInfo (context s))
      /\ zone = zoneID s
      /\ instanceType = instanceTypeId s
      /\ userData = UserData (opt (context s))
  | _ => True
  end.

Definition notRunningYet : error :=
  fmt_Errorf_w "failed to check for bastion instance"
    (errors_New "bastion instance not yet in Running status").

Module Fixtures.

(** One core is reported available, with an empty value. *)
Definition typeUnnamed : DescribeAvailableResourceResponse.t :=
  DescribeAvailableResourceResponse.mk
    [AvailableZone.mk
       [AvailableResource.mk [SupportedResource.mk "Available" ""]]].

Definition unnamedType : InMemory.Cloud :=
  InMemory.mkCloud [InMemory.shootGroup] [] [] []
    [(1, typeUnnamed); (2, InMemory.typeAvailable)] "198.51.100.9"
    (Status InMemory.bastion1).

(** Only two cores are available. *)
Definition twoCores : InMemory.Cloud :=
  InMemory.mkCloud [InMemory.shootGroup] [] [] []
    [(1, InMemory.typeSoldOut); (2, InMemory.typeAvailable)] "198.51.100.9"
    (Status InMemory.bastion1).

(** A client whose lookups answer [(nil, nil)]. *)
Definition ecsNil : ECS InMemory.Cloud :=
  mkECS InMemory.Cloud (GetInstanceType InMemory.ecs)
    (fun _ w => (Return None, w))
    (CreateSecurityGroups InMemory.ecs)
    (fun _ w => (Return None, w))
    (CreateInstances InMemory.ecs)
    (DescribeSecurityGroupAttribute InMemory.ecs)
    (CreateIngressRule InMemory.ecs) (RevokeIngressRule InMemory.ecs)
    (CreateEgressRule InMemory.ecs) (RevokeEgressRule InMemory.ecs)
    (AllocatePublicIp InMemory.ecs).

(** The wanted rules of the end-to-end scenario. *)
Definition wantedSsh : AuthorizeSecurityGroupRequest.t :=
  AuthorizeSecurityGroupRequest.mk "sg-sg-bastion-1" "SSH access for Bastion"
    "tcp" "22/22" "203.0.113.0/24" "" "" "" "Accept".

Definition wantedAllowWorker : AuthorizeSecurityGroupEgressRequest.t :=
  AuthorizeSecurityGroupEgressRequest.mk "sg-sg-bastion-1"
    "Allow Bastion egress to Shoot workers" "tcp" "22/22" "10.0.0.5" "" "" ""
    "sg-shoot" "Accept".

Definition wantedDenyAll : AuthorizeSecurityGroupEgressRequest.t :=
  AuthorizeSecurityGroupEgressRequest.mk "sg-sg-bastion-1"
    "Bastion egress deny all" "all" "-1/-1" "" "" "0.0.0.0/0" "" "" "Drop".

(** Running, with the wanted rules in place. *)
Definition converged : InMemory.Cloud :=
  InMemory.mkCloud [InMemory.shootGroup; InMemory.bastionGroup]
    [InMemory.instanceIn "Running" ["10.0.0.5"]]
    [InMemory.ingressPermissionOf wantedSsh]
    [InMemory.egressPermissionOf wantedAllowWorker;
     InMemory.egressPermissionOf wantedDenyAll]
    [(1, InMemory.typeAvailable)] "198.51.100.9" (Status InMemory.bastion1).

(** Running, but the workload's security group is missing. *)
Definition noShootGroup : InMemory.Cloud :=
  InMemory.mkCloud [InMemory.bastionGroup]
    [InMemory.instanceIn "Running" ["10.0.0.5"]] [] []
    [(1, InMemory.typeAvailable)] "198.51.100.9" (Status InMemory.bastion1).

(** A client that refuses to create ingress rules. *)
Definition ecsQuota : ECS InMemory.Cloud :=
  mkECS InMemory.Cloud (GetInstanceType InMemory.ecs)
    (GetSecurityGroup InMemory.ecs) (CreateSecurityGroups InMemory.ecs)
    (GetInstances InMemory.ecs) (CreateInstances InMemory.ecs)
    (DescribeSecurityGroupAttribute InMemory.ecs)
    (fun _ w => (Fail (foreign_error "QuotaExceeded"), w))
    (RevokeIngressRule InMemory.ecs)
    (CreateEgressRule InMemory.ecs) (RevokeEgressRule InMemory.ecs)
    (AllocatePublicIp InMemory.ecs).

End Fixtures.

(** * Properties *)

Open Scope list_scope.

(** ** Endpoint model *)

Lemma IngressReady_spec (ingress : option LoadBalancerIngress.t) :
  IngressReady ingress = true <-> exists i, ingress = Some i /\ populated i.
Proof.
  unfold IngressReady, populated. destruct ingress as [i|].
  - rewrite orb_true_iff, !negb_true_iff, !String.eqb_neq. split.
    + intros H. exists i. split; [reflexivity | exact H].
    + intros [j [Hj H]]. injection Hj as <-. exact H.
  - split; [discriminate | intros [j [Hj _]]; discriminate].
Qed.

(** C6: [addressToIngress] is nil exactly when both arguments are nil and
    otherwise carries exactly the given fields, the other one staying empty;
    [Ready] holds exactly when both sides are non-nil and each has a
    non-empty hostname or a non-empty IP (and never on a nil receiver). *)
Theorem endpoint_model_correct :
  (forall dnsName ipAddress,
      addressToIngress dnsName ipAddress = None
      <-> dnsName = None /\ ipAddress = None)
  /\ (forall dnsName ipAddress,
         addressToIngress dnsName ipAddress =
         match dnsName, ipAddress with
         | None, None => None
         | _, _ => Some (LoadBalancerIngress.mk (orEmpty ipAddress)
                           (orEmpty dnsName))
         end)
  /\ (forall priv pub,
         Ready (Some (mkEndpoints priv pub)) = true
         <-> exists p q, priv = Some p /\ pub = Some q
                         /\ populated p /\ populated q)
  /\ Ready None = false.
Proof.
  split; [|split; [|split]].
  - intros [d|] [i|]; simpl; split; try discriminate;
      try (intros [? ?]; discriminate); auto.
  - intros [d|] [i|]; reflexivity.
  - intros priv pub. simpl. rewrite andb_true_iff, !IngressReady_spec. split.
    + intros [[p [Hp Pp]] [q [Hq Pq]]]. exists p, q. auto.
    + intros [p [q [Hp [Hq [Pp Pq]]]]]. split; eauto.
  - reflexivity.
Qed.

Lemma endpoint_model_witness :
  Ready (Some (mkEndpoints (addressToIngress None (Some "10.0.0.5"))
                 (addressToIngress None (Some "1.2.3.4")))) = true
  /\ Ready (Some (mkEndpoints None (addressToIngress None (Some "1.2.3.4"))))
     = false.
Proof.
  destruct endpoint_model_correct as [_ [Hc [Hr _]]]. split.
  - apply Hr. rewrite !Hc. simpl.
    eexists; eexists; repeat split; right; discriminate.
  - destruct (Ready (Some (mkEndpoints None
                (addressToIngress None (Some "1.2.3.4"))))) eqn:E;
      [|reflexivity].
    apply Hr in E. destruct E as [p [q [Hp _]]]. discriminate.
Defined.

(** ** Rule reconciler *)

Section SymmetricDifferenceFacts.
Context {Wanted : Type}.
Variable ruleEqual : Wanted -> Permission.t -> bool.

Lemma foundAmongWanted_existsb W c :
  foundAmongWanted ruleEqual (map Some W) c
  = Val (existsb (fun w => ruleEqual w c) W).
Proof.
  induction W as [|w W IH]; simpl; [reflexivity|].
  destruct (ruleEqual w c); [reflexivity | exact IH].
Qed.

Lemma foundAmongCurrent_existsb w O :
  foundAmongCurrent ruleEqual w O = existsb (ruleEqual w) O.
Proof.
  induction O as [|o O IH]; simpl; [reflexivity|].
  destruct (ruleEqual w o); [reflexivity | exact IH].
Qed.

Lemma rulesToDelete_filter W O :
  rulesToDelete ruleEqual (map Some W) O = Val (observedMinusWanted ruleEqual W O).
Proof.
  induction O as [|o O IH]; simpl; [reflexivity|].
  rewrite foundAmongWanted_existsb, IH. simpl.
  destruct (existsb (fun w => ruleEqual w o) W); reflexivity.
Qed.

Lemma rulesToAdd_filter W O :
  rulesToAdd ruleEqual (map Some W) O = Val (wantedMinusObserved ruleEqual W O).
Proof.
  induction W as [|w W IH]; simpl; [reflexivity|].
  rewrite IH, foundAmongCurrent_existsb. simpl.
  destruct (existsb (ruleEqual w) O); reflexivity.
Qed.

Lemma rulesSymmetricDifference_filter W O :
  rulesSymmetricDifference ruleEqual (map Some W) O
  = Val (wantedMinusObserved ruleEqual W O, observedMinusWanted ruleEqual W O).
Proof.
  unfold rulesSymmetricDifference.
  rewrite rulesToDelete_filter, rulesToAdd_filter. reflexivity.
Qed.

Lemma existsb_false_all {A} (f : A -> bool) (l : list A) :
  existsb f l = false <-> forall x, In x l -> f x = false.
Proof.
  split.
  - intros H x Hx. destruct (f x) eqn:E; [|reflexivity].
    assert (existsb f l = true) by (apply existsb_exists; eauto). congruence.
  - intros H. destruct (existsb f l) eqn:E; [|reflexivity].
    apply existsb_exists in E. destruct E as [x [Hx Fx]].
    rewrite (H x Hx) in Fx. discriminate.
Qed.

Lemma filter_nil_all {A} (f : A -> bool) (l : list A) :
  (forall x, In x l -> f x = false) -> filter f l = [].
Proof.
  induction l as [|x l IH]; simpl; intros H; [reflexivity|].
  rewrite (H x (or_introl eq_refl)). apply IH. intros y Hy. apply H. now right.
Qed.

Lemma filter_all {A} (f : A -> bool) (l : list A) :
  (forall x, In x l -> f x = true) -> filter f l = l.
Proof.
  induction l as [|x l IH]; simpl; intros H; [reflexivity|].
  rewrite (H x (or_introl eq_refl)). f_equal. apply IH. intros y Hy.
  apply H. now right.
Qed.

Lemma filter_diffCorrect W O :
  diffCorrect ruleEqual W O (wantedMinusObserved ruleEqual W O)
    (observedMinusWanted ruleEqual W O).
Proof.
  unfold diffCorrect, wantedMinusObserved, observedMinusWanted.
  repeat split.
  - intros x o Hx Ho. apply filter_In in Hx. destruct Hx as [_ Hx].
    apply negb_true_iff in Hx.
    exact (proj1 (existsb_false_all _ _) Hx o Ho).
  - intros d Hd. apply filter_In in Hd. tauto.
  - intros d w Hd Hw. apply filter_In in Hd. destruct Hd as [_ Hd].
    apply negb_true_iff in Hd.
    exact (proj1 (existsb_false_all _ _) Hd w Hw).
  - intros w Hw. destruct (existsb (ruleEqual w) O) eqn:E.
    + right. apply existsb_exists in E. destruct E as [o [Ho Eo]].
      exists o. repeat split; [exact Ho | | exact Eo].
      intros Hd. apply filter_In in Hd. destruct Hd as [_ Hd].
      apply negb_true_iff in Hd.
      rewrite (proj1 (existsb_false_all _ _) Hd w Hw) in Eo. discriminate.
    + left. apply filter_In. split; [exact Hw|]. now rewrite E.
  - intros x Hx. apply filter_In in Hx. tauto.
  - intros o Ho Hn. destruct (existsb (fun w => ruleEqual w o) W) eqn:E.
    + apply existsb_exists in E. exact E.
    + exfalso. apply Hn. apply filter_In. split; [exact Ho|]. now rewrite E.
  - apply filter_nil_all. intros w Hw. apply negb_false_iff.
    apply existsb_exists. destruct (H w Hw) as [o [Ho Eo]]. eauto.
  - apply filter_nil_all. intros o Ho. apply negb_false_iff.
    apply existsb_exists. destruct (H0 o Ho) as [w [Hw Eo]]. eauto.
  - subst W. reflexivity.
  - subst W. simpl. apply filter_all. reflexivity.
  - subst O. simpl. apply filter_all. reflexivity.
  - subst O. reflexivity.
Qed.

Lemma rulesSymmetricDifference_correct W O :
  exists toAdd toDelete,
    rulesSymmetricDifference ruleEqual (map Some W) O = Val (toAdd, toDelete)
    /\ diffCorrect ruleEqual W O toAdd toDelete.
Proof.
  exists (wantedMinusObserved ruleEqual W O), (observedMinusWanted ruleEqual W O).
  split; [apply rulesSymmetricDifference_filter | apply filter_diffCorrect].
Qed.
End SymmetricDifferenceFacts.

(** C1: for every list of wanted rules (handed over as pointers to them)
    and every list of observed rules, each of the two symmetric-difference
    functions returns [(toAdd, toDelete)] with: nothing in [toAdd] equal to
    an observed rule, [toDelete] taken from the observed rules, nothing in
    [toDelete] equal to a wanted rule, and the observed rules kept together
    with [toAdd] covering exactly the wanted rules; equal lists give two
    empty results, and so do two empty lists. *)
Theorem symmetric_difference_correct :
  (forall W O, exists toAdd toDelete,
      ingressRulesSymmetricDifference (map Some W) O = Val (toAdd, toDelete)
      /\ diffCorrect ingressRuleEqual W O toAdd toDelete)
  /\ (forall W O, exists toAdd toDelete,
         egressRulesSymmetricDifference (map Some W) O = Val (toAdd, toDelete)
         /\ diffCorrect egressRuleEqual W O toAdd toDelete)
  /\ ingressRulesSymmetricDifference [] [] = Val ([], [])
  /\ egressRulesSymmetricDifference [] [] = Val ([], []).
Proof.
  repeat split; try reflexivity; intros W O;
    apply rulesSymmetricDifference_correct.
Qed.

Lemma symmetric_difference_witness :
  ingressRulesSymmetricDifference
    [Some (sshFrom "203.0.113.0/24"); Some (sshFrom "198.51.100.0/24")]
    [observedSshFrom "198.51.100.0/24"; observedSshFrom "192.0.2.0/24"]
  = Val ([sshFrom "203.0.113.0/24"], [observedSshFrom "192.0.2.0/24"])
  /\ ingressRulesSymmetricDifference [Some (sshFrom "203.0.113.0/24")]
       [observedSshFrom "203.0.113.0/24"] = Val ([], []).
Proof.
  destruct symmetric_difference_correct as [Hin _]. split.
  - destruct (Hin [sshFrom "203.0.113.0/24"; sshFrom "198.51.100.0/24"]
                  [observedSshFrom "198.51.100.0/24";
                   observedSshFrom "192.0.2.0/24"])
      as [toAdd [toDelete [E _]]].
    simpl map in E. rewrite E. vm_compute in E. symmetry. exact E.
  - destruct (Hin [sshFrom "203.0.113.0/24"]
                  [observedSshFrom "203.0.113.0/24"])
      as [toAdd [toDelete [E _]]].
    simpl map in E. rewrite E. vm_compute in E. symmetry. exact E.
Defined.

(** C3, counterexample: a wanted rule that drops everything to 0.0.0.0/0
    is equal to an observed rule that accepts everything to 10.0.0.0/8. *)
Lemma egress_equality_ignores_destination_and_action :
  egressRuleEqual denyAll observedAllowAll = true
  /\ AuthorizeSecurityGroupEgressRequest.DestCidrIp denyAll
     <> Permission.DestCidrIp observedAllowAll
  /\ AuthorizeSecurityGroupEgressRequest.Policy denyAll
     <> Permission.Policy observedAllowAll
  /\ ~ egressEqualityComparesDestinationAndAction.
Proof.
  repeat split; try reflexivity; try discriminate.
  intros H. destruct (H denyAll observedAllowAll eq_refl) as [_ Hp].
  discriminate.
Qed.

(** C3, amended: the egress equality holds exactly when description,
    protocol, port range and source CIDR are the same strings; no other
    field is looked at. *)
Theorem egressRuleEqual_four_fields :
  forall a b,
    egressRuleEqual a b = true
    <-> AuthorizeSecurityGroupEgressRequest.Description a
        = Permission.Description b
        /\ AuthorizeSecurityGroupEgressRequest.IpProtocol a
           = Permission.IpProtocol b
        /\ AuthorizeSecurityGroupEgressRequest.PortRange a
           = Permission.PortRange b
        /\ AuthorizeSecurityGroupEgressRequest.SourceCidrIp a
           = Permission.SourceCidrIp b.
Proof.
  intros a b. unfold egressRuleEqual, DeepEqual.
  destruct (String.eqb_spec (AuthorizeSecurityGroupEgressRequest.Description a)
              (Permission.Description b)) as [E1|N1]; simpl;
    [|split; [discriminate | intros [H _]; contradiction]].
  destruct (String.eqb_spec (AuthorizeSecurityGroupEgressRequest.IpProtocol a)
              (Permission.IpProtocol b)) as [E2|N2]; simpl;
    [|split; [discriminate | intros [_ [H _]]; contradiction]].
  destruct (String.eqb_spec (AuthorizeSecurityGroupEgressRequest.PortRange a)
              (Permission.PortRange b)) as [E3|N3]; simpl;
    [|split; [discriminate | intros [_ [_ [H _]]]; contradiction]].
  destruct (String.eqb_spec (AuthorizeSecurityGroupEgressRequest.SourceCidrIp a)
              (Permission.SourceCidrIp b)) as [E4|N4]; simpl;
    [|split; [discriminate | intros [_ [_ [_ H]]]; contradiction]].
  tauto.
Qed.

(** ** Runs *)

Section Runs.
Context {World : Type}.

Lemma bind_Ok {A B} (m : M World A) (f : A -> M World B) w x w1 t1 :
  m w = mkRun (Ok x) w1 t1 ->
  bind m f w
  = mkRun (result (f x w1)) (final (f x w1)) (t1 ++ events (f x w1)).
Proof. intros H. unfold bind. rewrite H. reflexivity. Qed.

Lemma bind_result_Ok {A B} (m : M World A) (f : A -> M World B) w y :
  result (bind m f w) = Ok y ->
  exists x, result (m w) = Ok x /\ result (f x (final (m w))) = Ok y.
Proof.
  unfold bind. destruct (result (m w)) as [x|e|p] eqn:E; simpl;
    try discriminate.
  intros H. exists x. split; [reflexivity | exact H].
Qed.

Lemma bind_events_Ok {A B} (m : M World A) (f : A -> M World B) w x :
  result (m w) = Ok x ->
  events (bind m f w) = events (m w) ++ events (f x (final (m w))).
Proof. intros H. unfold bind. rewrite H. reflexivity. Qed.

Lemma bind_result_Err {A B} (m : M World A) (f : A -> M World B) w e :
  result (m w) = Err e -> result (bind m f w) = Err e.
Proof. intros H. unfold bind. rewrite H. reflexivity. Qed.

Lemma bind_result_Panicked {A B} (m : M World A) (f : A -> M World B) w p :
  result (m w) = Panicked p -> result (bind m f w) = Panicked p.
Proof. intros H. unfold bind. rewrite H. reflexivity. Qed.

Lemma bind_call_Return {A B} ev (op : World -> ret A * World)
  (f : A -> M World B) w x :
  fst (op w) = Return x ->
  bind (call ev op) f w
  = mkRun (result (f x (snd (op w)))) (final (f x (snd (op w))))
      (ev :: events (f x (snd (op w)))).
Proof. intros H. unfold bind, call. simpl. rewrite H. reflexivity. Qed.

Lemma bind_call_Fail {A B} ev (op : World -> ret A * World)
  (f : A -> M World B) w e :
  fst (op w) = Fail e ->
  bind (call ev op) f w = mkRun (Err e) (snd (op w)) [ev].
Proof. intros H. unfold bind, call. simpl. rewrite H. reflexivity. Qed.

Lemma run_eta {A} (r : run World A) :
  r = mkRun (result r) (final r) (events r).
Proof. destruct r. reflexivity. Qed.

Lemma Silent_bind {A B} p (m : M World A) (f : A -> M World B) :
  Silent p m -> (forall x, Silent p (f x)) -> Silent p (bind m f).
Proof.
  intros Hm Hf w. unfold bind.
  destruct (result (m w)) as [x|e|q]; simpl; try apply Hm.
  rewrite filter_app, Hm, Hf. reflexivity.
Qed.

Lemma Silent_pure {A} p (x : A) : Silent p (pure (World := World) x).
Proof. intros w. reflexivity. Qed.

Lemma Silent_fail {A} p e : Silent p (fail (World := World) (A := A) e).
Proof. intros w. reflexivity. Qed.

Lemma Silent_deref {A} p (x : option A) : Silent p (deref (World := World) x).
Proof. intros w. destruct x; reflexivity. Qed.

Lemma Silent_first {A} p (s : list A) : Silent p (first (World := World) s).
Proof. intros w. destruct s; reflexivity. Qed.

Lemma Silent_total {A} p (x : partial A) : Silent p (total (World := World) x).
Proof. intros w. destruct x; reflexivity. Qed.

Lemma Silent_check {A} p (x : ret A) : Silent p (check (World := World) x).
Proof. intros w. destruct x; reflexivity. Qed.

Lemma Silent_emit p ev : p ev = false -> Silent p (emit (World := World) ev).
Proof. intros H w. simpl. rewrite H. reflexivity. Qed.

Lemma Silent_call {A} p ev (op : World -> ret A * World) :
  p ev = false -> Silent p (call ev op).
Proof. intros H w. simpl. rewrite H. reflexivity. Qed.

Lemma Silent_orWrap {A} p wrap (m : M World A) :
  Silent p m -> Silent p (orWrap wrap m).
Proof.
  intros H w. unfold orWrap. destruct (result (m w)); simpl; apply H.
Qed.

Lemma Silent_forEach {A} p (xs : list A) (body : A -> M World unit) :
  (forall x, Silent p (body x)) -> Silent p (forEach xs body).
Proof.
  intros H. induction xs as [|x xs IH]; simpl.
  - apply Silent_pure.
  - apply Silent_bind; [apply H | intros _; exact IH].
Qed.
End Runs.

(** Splits a goal [Silent p m] along the structure of [m]. *)
Ltac silent :=
  repeat first
    [ apply Silent_pure | apply Silent_fail | apply Silent_deref
    | apply Silent_first | apply Silent_total | apply Silent_check
    | apply Silent_emit; reflexivity | apply Silent_call; reflexivity
    | apply Silent_orWrap
    | apply Silent_forEach; intro
    | apply Silent_bind; [|intro]
    | match goal with
      | |- Silent _ (match ?x with _ => _ end) => destruct x
      | |- Silent _ (let _ := _ in _) => cbv zeta
      end ].

(** ** Resource ensurers *)

Section Ensurers.
Context {World : Type}.
Variable c : ECS World.

Lemma ensureSecurityGroup_found name vpcID w group :
  holdsSecurityGroup c name w group ->
  ensureSecurityGroup c name vpcID w
  = mkRun (Ok (SecurityGroup.SecurityGroupId group)) w
      [EvGetSecurityGroup name; EvLogInfo "Security Group found"].
Proof.
  intros [response [rest [Hget [Hlist Hname]]]].
  unfold ensureSecurityGroup.
  rewrite (bind_call_Return _ _ _ _ _ (f_equal fst Hget)).
  rewrite Hget. cbn [snd deref bind result final events].
  rewrite Hlist, Hname, String.eqb_refl. reflexivity.
Qed.

Lemma ensureComputeInstance_found opt sg image vsw zone type w instance :
  holdsInstance c (BastionInstanceName opt) w instance ->
  ensureComputeInstance c opt sg image vsw zone type w
  = mkRun (Ok (Instance.InstanceId instance)) w
      [EvGetInstances (BastionInstanceName opt)].
Proof.
  intros [response [rest [Hget [Hlist Hname]]]].
  unfold ensureComputeInstance.
  rewrite (bind_call_Return _ _ _ _ _ (f_equal fst Hget)).
  rewrite Hget. cbn [snd deref bind result final events].
  rewrite Hlist, Hname, String.eqb_refl. reflexivity.
Qed.

Lemma ensureSecurityGroup_creates_only_if_absent name vpcID w :
  creationCalls (events (ensureSecurityGroup c name vpcID w)) <> [] ->
  lookupFindsNoGroup c name w.
Proof.
  unfold ensureSecurityGroup, lookupFindsNoGroup.
  destruct (fst (GetSecurityGroup c name w)) as [[response|]|e] eqn:Hget.
  - rewrite (bind_call_Return _ _ _ _ _ Hget).
    cbn [deref bind result final events]. intros H.
    exists response. split; [reflexivity|].
    intros group rest Hlist Hname. apply H. clear H.
    rewrite Hlist, Hname, String.eqb_refl. reflexivity.
  - rewrite (bind_call_Return _ _ _ _ _ Hget). intros H. exfalso. apply H.
    reflexivity.
  - rewrite (bind_call_Fail _ _ _ _ _ Hget). intros H. exfalso. apply H.
    reflexivity.
Qed.

Lemma ensureComputeInstance_creates_only_if_absent opt sg image vsw zone type w :
  creationCalls
    (events (ensureComputeInstance c opt sg image vsw zone type w)) <> [] ->
  lookupFindsNoInstance c (BastionInstanceName opt) w.
Proof.
  unfold ensureComputeInstance, lookupFindsNoInstance.
  destruct (fst (GetInstances c (BastionInstanceName opt) w))
    as [[response|]|e] eqn:Hget.
  - rewrite (bind_call_Return _ _ _ _ _ Hget).
    cbn [deref bind result final events]. intros H.
    exists response. split; [reflexivity|].
    intros instance rest Hlist Hname. apply H. clear H.
    rewrite Hlist, Hname, String.eqb_refl. reflexivity.
  - rewrite (bind_call_Return _ _ _ _ _ Hget). intros H. exfalso. apply H.
    reflexivity.
  - rewrite (bind_call_Fail _ _ _ _ _ Hget). intros H. exfalso. apply H.
    reflexivity.
Qed.
End Ensurers.

(** C5: against a provider that holds a security group (a compute
    instance) of the requested name, the ensure operation returns the id of
    that resource and issues no creation call, and so does a second call
    with the same inputs; whenever an ensure operation does issue a
    creation call, its lookup had answered without a resource of that
    name. *)
Theorem ensure_is_idempotent :
  forall (World : Type) (c : ECS World),
    (forall name vpcID w group,
        holdsSecurityGroup c name w group ->
        let first_call := ensureSecurityGroup c name vpcID w in
        let second_call := ensureSecurityGroup c name vpcID (final first_call) in
        result first_call = Ok (SecurityGroup.SecurityGroupId group)
        /\ creationCalls (events first_call) = []
        /\ result second_call = Ok (SecurityGroup.SecurityGroupId group)
        /\ creationCalls (events second_call) = [])
    /\ (forall opt sg image vsw zone type w instance,
           holdsInstance c (BastionInstanceName opt) w instance ->
           let first_call :=
             ensureComputeInstance c opt sg image vsw zone type w in
           let second_call :=
             ensureComputeInstance c opt sg image vsw zone type
               (final first_call) in
           result first_call = Ok (Instance.InstanceId instance)
           /\ creationCalls (events first_call) = []
           /\ result second_call = Ok (Instance.InstanceId instance)
           /\ creationCalls (events second_call) = [])
    /\ (forall name vpcID w,
           creationCalls (events (ensureSecurityGroup c name vpcID w)) <> [] ->
           lookupFindsNoGroup c name w)
    /\ (forall opt sg image vsw zone type w,
           creationCalls
             (events (ensureComputeInstance c opt sg image vsw zone type w))
           <> [] ->
           lookupFindsNoInstance c (BastionInstanceName opt) w).
Proof.
  intros World c. split; [|split; [|split]].
  - intros name vpcID w group H. cbv zeta.
    rewrite (ensureSecurityGroup_found c name vpcID w group H). simpl.
    rewrite (ensureSecurityGroup_found c name vpcID w group H). simpl.
    repeat split.
  - intros opt sg image vsw zone type w instance H. cbv zeta.
    rewrite (ensureComputeInstance_found c opt sg image vsw zone type w _ H).
    simpl.
    rewrite (ensureComputeInstance_found c opt sg image vsw zone type w _ H).
    simpl. repeat split.
  - apply ensureSecurityGroup_creates_only_if_absent.
  - apply ensureComputeInstance_creates_only_if_absent.
Qed.

Lemma InMemory_holds_group w name group :
  In group (InMemory.securityGroups w) ->
  SecurityGroup.SecurityGroupName group = name ->
  exists held,
    holdsSecurityGroup InMemory.ecs name w held
    /\ In held (InMemory.securityGroups w).
Proof.
  intros Hin Hname.
  assert (Hf : In group (InMemory.groupsNamed name w)).
  { apply filter_In. split; [exact Hin|]. now apply String.eqb_eq. }
  destruct (InMemory.groupsNamed name w) as [|held rest] eqn:E;
    [contradiction|].
  assert (Hh : In held (InMemory.groupsNamed name w))
    by (rewrite E; now left).
  apply filter_In in Hh. destruct Hh as [Hh1 Hh2].
  exists held. split; [|exact Hh1].
  exists (DescribeSecurityGroupsResponse.mk (held :: rest)), rest.
  simpl. rewrite E. repeat split. now apply String.eqb_eq.
Qed.

Lemma InMemory_holds_instance w name instance :
  In instance (InMemory.instances w) ->
  Instance.InstanceName instance = name ->
  exists held,
    holdsInstance InMemory.ecs name w held /\ In held (InMemory.instances w).
Proof.
  intros Hin Hname.
  assert (Hf : In instance (InMemory.instancesNamed name w)).
  { apply filter_In. split; [exact Hin|]. now apply String.eqb_eq. }
  destruct (InMemory.instancesNamed name w) as [|held rest] eqn:E;
    [contradiction|].
  assert (Hh : In held (InMemory.instancesNamed name w))
    by (rewrite E; now left).
  apply filter_In in Hh. destruct Hh as [Hh1 Hh2].
  exists held. split; [|exact Hh1].
  exists (DescribeInstancesResponse.mk (held :: rest)), rest.
  simpl. rewrite E. repeat split. now apply String.eqb_eq.
Qed.

Lemma ensure_is_idempotent_witness :
  result (ensureSecurityGroup InMemory.ecs "sg-bastion-1" "vpc-1"
            InMemory.pending) = Ok "sg-sg-bastion-1"
  /\ creationCalls (events (ensureSecurityGroup InMemory.ecs "sg-bastion-1"
                              "vpc-1" InMemory.pending)) = []
  /\ result (ensureComputeInstance InMemory.ecs
               (mkOptions "bastion-1" "" (mkSecretReference "" "") "" "" "" "")
               "sg" "image" "vsw" "zone" "type" InMemory.pending)
     = Ok "i-bastion-1".
Proof.
  destruct (ensure_is_idempotent InMemory.Cloud InMemory.ecs)
    as [Hsg [Hin _]].
  destruct (Hsg "sg-bastion-1" "vpc-1" InMemory.pending InMemory.bastionGroup)
    as [H1 [H2 _]].
  - exists (DescribeSecurityGroupsResponse.mk [InMemory.bastionGroup]), [].
    repeat split.
  - destruct (Hin (mkOptions "bastion-1" "" (mkSecretReference "" "") "" "" ""
                     "")
                "sg" "image" "vsw" "zone" "type" InMemory.pending
                (InMemory.instanceIn "Pending" [])) as [H3 _].
    + exists (DescribeInstancesResponse.mk [InMemory.instanceIn "Pending" []]),
        []. repeat split.
    + repeat split; assumption.
Defined.

(** ** Instance readiness *)

Section Readiness.
Context {World : Type}.
Variable c : ECS World.
Variable opt : Options.

Lemma awaitInstance_not_running w response instance rest :
  fst (GetInstances c (BastionInstanceName opt) w) = Return (Some response) ->
  DescribeInstancesResponse.Instances response = instance :: rest ->
  Instance.Status instance <> "Running" ->
  awaitInstance c opt w
  = mkRun (Err (fmt_Errorf_w "failed to check for bastion instance"
                  (errors_New "bastion instance not yet in Running status")))
      (snd (GetInstances c (BastionInstanceName opt) w))
      [EvGetInstances (BastionInstanceName opt); EvSleep (10 * Second)].
Proof.
  intros Hget Hlist Hstatus. apply String.eqb_neq in Hstatus.
  unfold awaitInstance, isInstanceReady, orWrap, bind, call, emit, fail, pure.
  rewrite Hget. simpl. rewrite Hlist, Hstatus. reflexivity.
Qed.

Lemma awaitInstance_not_found w response :
  fst (GetInstances c (BastionInstanceName opt) w) = Return (Some response) ->
  DescribeInstancesResponse.Instances response = [] ->
  awaitInstance c opt w
  = mkRun (Err (fmt_Errorf_w "failed to check for bastion instance"
                  (errors_New "bastion instance not yet created")))
      (snd (GetInstances c (BastionInstanceName opt) w))
      [EvGetInstances (BastionInstanceName opt)].
Proof.
  intros Hget Hlist.
  unfold awaitInstance, isInstanceReady, orWrap, bind, call, emit, fail, pure.
  rewrite Hget. simpl. rewrite Hlist. reflexivity.
Qed.

(** The retry branch of lines 131-136 is never taken. *)
Lemma awaitInstance_never_retries w :
  forall e, result (awaitInstance c opt w) = Err e -> is_retry_signal e = false.
Proof.
  intros e.
  unfold awaitInstance, isInstanceReady, orWrap, bind, call, emit, fail, pure.
  destruct (fst (GetInstances c (BastionInstanceName opt) w))
    as [[response|]|e0]; simpl;
    try (intros H; injection H as <-; reflexivity).
  destruct (DescribeInstancesResponse.Instances response) as [|instance rest];
    simpl; try (intros H; injection H as <-; reflexivity).
  destruct (Instance.Status instance =? "Running")%string; simpl;
    try discriminate.
  intros H; injection H as <-; reflexivity.
Qed.
End Readiness.

(** C2, at the failing inputs: with the bastion instance found in status
    "Pending" (already there, or created by this very pass), the pass ends
    with the wrapped error of [isInstanceReady], which neither is nor
    carries a retry signal. *)
Theorem pending_instance_is_reported_as_error :
  let notRunning :=
    fmt_Errorf_w "failed to check for bastion instance"
      (errors_New "bastion instance not yet in Running status") in
  result (InMemory.pass InMemory.bastion1 InMemory.cluster1 InMemory.pending)
  = Err notRunning
  /\ result (InMemory.pass InMemory.bastion1 InMemory.cluster1 InMemory.empty)
     = Err notRunning
  /\ is_retry_signal notRunning = false
  /\ carries_retry_signal notRunning = false.
Proof. vm_compute. repeat split. Qed.

(** C4, at the failing input: the pass that finds the instance in status
    "Pending" sleeps for ten seconds before it returns, and what it returns
    is an error, not a retry value. *)
Theorem pending_instance_blocks_the_pass :
  sleeps (events (InMemory.pass InMemory.bastion1 InMemory.cluster1
                    InMemory.pending))
  = [EvSleep (10 * Second)]
  /\ forall d cause,
       result (InMemory.pass InMemory.bastion1 InMemory.cluster1
                 InMemory.pending)
       <> Err (RequeueAfterError d cause).
Proof.
  split; [vm_compute; reflexivity|]. intros d cause. vm_compute. discriminate.
Qed.

(** ** Instance type *)

Section InstanceType.
Context {World : Type}.
Variable c : ECS World.
Variable zone : string.

Lemma probeInstanceTypes_none cores : forall w,
  noneAvailable c zone cores w ->
  probeInstanceTypes c zone cores w
  = mkRun (Ok "") (afterProbes c zone cores w)
      (map (fun n => EvGetInstanceType n zone) cores).
Proof.
  induction cores as [|n rest IH]; intros w H; simpl.
  - reflexivity.
  - destruct H as [[instanceType [Hget Hnone]] Hrest].
    unfold bind, call. rewrite Hget. simpl. rewrite Hnone.
    rewrite (IH _ Hrest). reflexivity.
Qed.

Lemma resolveInstanceTypeId_fallback cluster cloudProfile w :
  ClusterCloudProfile cluster = Some cloudProfile ->
  noneAvailable c zone [1; 2] w ->
  resolveInstanceTypeId cluster c zone w
  = match MachineTypes cloudProfile with
    | [] =>
        mkRun (Err noMachineTypes) (afterProbes c zone [1; 2] w)
          [EvGetInstanceType 1 zone; EvGetInstanceType 2 zone]
    | machineType :: _ =>
        mkRun (Ok (MachineTypeName machineType)) (afterProbes c zone [1; 2] w)
          [EvGetInstanceType 1 zone; EvGetInstanceType 2 zone; fallbackNote]
    end.
Proof.
  intros Hcp H. unfold resolveInstanceTypeId.
  rewrite (bind_Ok _ _ _ _ _ _ (probeInstanceTypes_none _ _ H)).
  rewrite String.eqb_refl, Hcp. unfold bind, deref. simpl.
  destruct (MachineTypes cloudProfile) as [|machineType rest]; reflexivity.
Qed.
End InstanceType.

(** C7: in a pass whose two probes (1 and 2 cores) both answer and neither
    reports the nested status "Available", the resolved instance type is
    the name of the first machine type of the cloud profile, and the
    fallback is logged; with an empty machine-type list the whole pass ends
    with the configuration error. *)
Theorem instance_type_falls_back_to_first_machine_type :
  forall (World : Type) (pkg : Package World) (a : actuator World)
         bastion cluster w0 r c vsw cloudProfile w1 t1,
    Reconcile_resolved pkg a bastion cluster w0 = mkRun (Ok r) w1 t1 ->
    aliCloudECSClient r = Some c ->
    vSwitchInfo r = Some vsw ->
    ClusterCloudProfile cluster = Some cloudProfile ->
    noneAvailable c (ZoneID vsw) [1; 2] w1 ->
    (forall machineType rest,
        MachineTypes cloudProfile = machineType :: rest ->
        result (Reconcile_selected pkg a bastion cluster w0)
        = Ok (mkSelected r c (ZoneID vsw) (MachineTypeName machineType))
        /\ In fallbackNote
             (events (Reconcile_selected pkg a bastion cluster w0)))
    /\ (MachineTypes cloudProfile = [] ->
        result (Reconcile pkg a bastion cluster w0) = Err noMachineTypes).
Proof.
  intros World pkg a bastion cluster w0 r c vsw cloudProfile w1 t1
    Hres Hc Hvsw Hcp Hnone.
  assert (Hsel : Reconcile_selected pkg a bastion cluster w0
                 = let r' := resolveInstanceTypeId cluster c (ZoneID vsw) w1 in
                   match result r' with
                   | Ok ty =>
                       mkRun (Ok (mkSelected r c (ZoneID vsw) ty)) (final r')
                         (t1 ++ events r' ++ [])
                   | Err e => mkRun (Err e) (final r') (t1 ++ events r')
                   | Panicked p =>
                       mkRun (Panicked p) (final r') (t1 ++ events r')
                   end).
  { unfold Reconcile_selected. rewrite (bind_Ok _ _ _ _ _ _ Hres).
    rewrite Hvsw, Hc. unfold bind, deref, pure. simpl.
    destruct (result (resolveInstanceTypeId cluster c (ZoneID vsw) w1));
      reflexivity. }
  rewrite (resolveInstanceTypeId_fallback c (ZoneID vsw) cluster cloudProfile
             w1 Hcp Hnone) in Hsel.
  split.
  - intros machineType rest Hm. rewrite Hm in Hsel. rewrite Hsel. simpl.
    split; [reflexivity|]. apply in_or_app. right. simpl. tauto.
  - intros Hm. rewrite Hm in Hsel.
    unfold Reconcile, Reconcile_allocated, Reconcile_ready, Reconcile_ensured.
    do 4 apply bind_result_Err. rewrite Hsel. reflexivity.
Qed.

Lemma instance_type_fallback_witness :
  match result (Reconcile_selected InMemory.package InMemory.actuator
                  InMemory.bastion1 InMemory.cluster1 InMemory.soldOut) with
  | Ok s => instanceTypeId s = "m.small"
  | _ => False
  end
  /\ result (InMemory.pass InMemory.bastion1 InMemory.clusterNoTypes
               InMemory.soldOut) = Err noMachineTypes.
Proof.
  assert (Hnone : noneAvailable InMemory.ecs "zone-a" [1; 2] InMemory.soldOut).
  { simpl. repeat split; exists (Some InMemory.typeSoldOut); split; reflexivity. }
  split.
  - destruct (instance_type_falls_back_to_first_machine_type
                InMemory.Cloud InMemory.package InMemory.actuator
                InMemory.bastion1 InMemory.cluster1 InMemory.soldOut
                _ InMemory.ecs (mkVSwitchInfo "zone-a")
                (mkCloudProfile [mkMachineType "m.small"; mkMachineType "m.large"])
                _ _ eq_refl eq_refl eq_refl eq_refl Hnone) as [H _].
    destruct (H (mkMachineType "m.small") [mkMachineType "m.large"] eq_refl)
      as [Hr _].
    rewrite Hr. reflexivity.
  - destruct (instance_type_falls_back_to_first_machine_type
                InMemory.Cloud InMemory.package InMemory.actuator
                InMemory.bastion1 InMemory.clusterNoTypes InMemory.soldOut
                _ InMemory.ecs (mkVSwitchInfo "zone-a") (mkCloudProfile [])
                _ _ eq_refl eq_refl eq_refl eq_refl Hnone) as [_ H].
    exact (H eq_refl).
Defined.

(** ** Endpoint readiness and publication *)

Section Publication.
Context {World : Type}.
Variable a : actuator World.
Variable bastion : Bastion.
Variable c : ECS World.
Variable opt : Options.
Variable ip : string.

Lemma getInstanceEndpoints_nil w :
  fst (GetInstances c (BastionInstanceName opt) w) = Return None ->
  result (getInstanceEndpoints c opt ip w)
  = Err (errors_New "compute instance can't be nil").
Proof.
  intros Hget. unfold getInstanceEndpoints, bind, call, fail.
  rewrite Hget. reflexivity.
Qed.

Lemma getInstanceEndpoints_not_found w response :
  fst (GetInstances c (BastionInstanceName opt) w) = Return (Some response) ->
  DescribeInstancesResponse.Instances response = [] ->
  result (getInstanceEndpoints c opt ip w)
  = Err (errors_New "compute instance not ready yet").
Proof.
  intros Hget Hlist. unfold getInstanceEndpoints, bind, call, fail.
  rewrite Hget. simpl. rewrite Hlist. reflexivity.
Qed.

Lemma getInstanceEndpoints_not_running w response instance rest :
  fst (GetInstances c (BastionInstanceName opt) w) = Return (Some response) ->
  DescribeInstancesResponse.Instances response = instance :: rest ->
  Instance.Status instance <> "Running" ->
  result (getInstanceEndpoints c opt ip w)
  = Err (errors_New "compute instance not ready yet").
Proof.
  intros Hget Hlist Hstatus. apply String.eqb_neq in Hstatus.
  unfold getInstanceEndpoints, bind, call, fail.
  rewrite Hget. simpl. rewrite Hlist, Hstatus. reflexivity.
Qed.

Lemma getInstanceEndpoints_running w response instance rest internalIP more :
  fst (GetInstances c (BastionInstanceName opt) w) = Return (Some response) ->
  DescribeInstancesResponse.Instances response = instance :: rest ->
  Instance.Status instance = "Running" ->
  Instance.PrivateIpAddress instance = internalIP :: more ->
  getInstanceEndpoints c opt ip w
  = mkRun (Ok (endpointsOf internalIP ip))
      (snd (GetInstances c (BastionInstanceName opt) w))
      [EvGetInstances (BastionInstanceName opt)].
Proof.
  intros Hget Hlist Hstatus Hips.
  unfold getInstanceEndpoints, bind, call, fail, first, pure.
  rewrite Hget. simpl. rewrite Hlist, Hstatus, Hips. reflexivity.
Qed.

Lemma getInstanceEndpoints_no_address w response instance rest :
  fst (GetInstances c (BastionInstanceName opt) w) = Return (Some response) ->
  DescribeInstancesResponse.Instances response = instance :: rest ->
  Instance.Status instance = "Running" ->
  Instance.PrivateIpAddress instance = [] ->
  result (getInstanceEndpoints c opt ip w) = Panicked IndexOutOfRange.
Proof.
  intros Hget Hlist Hstatus Hips.
  unfold getInstanceEndpoints, bind, call, fail, first, pure.
  rewrite Hget. simpl. rewrite Hlist, Hstatus, Hips. reflexivity.
Qed.

Lemma getInstanceEndpoints_total w :
  runningHasPrivateIP c (BastionInstanceName opt) w ->
  forall p, result (getInstanceEndpoints c opt ip w) <> Panicked p.
Proof.
  intros Hpre p. unfold runningHasPrivateIP in Hpre.
  unfold getInstanceEndpoints, bind, call, fail, first, pure.
  destruct (fst (GetInstances c (BastionInstanceName opt) w))
    as [[response|]|e]; simpl; try discriminate.
  destruct (DescribeInstancesResponse.Instances response)
    as [|instance rest] eqn:Hlist; simpl; try discriminate.
  destruct (Instance.Status instance =? "Running")%string eqn:Hstatus; simpl;
    try discriminate.
  apply String.eqb_eq in Hstatus.
  destruct (Instance.PrivateIpAddress instance) as [|internalIP more] eqn:Hips;
    simpl; try discriminate.
  exfalso. exact (Hpre response instance rest eq_refl Hlist Hstatus Hips).
Qed.

Lemma publishEndpoints_error w e :
  result (getInstanceEndpoints c opt ip w) = Err e ->
  result (publishEndpoints a bastion c opt ip w) = Err e.
Proof. intros H. unfold publishEndpoints. now apply bind_result_Err. Qed.

Lemma publishEndpoints_running w endpoints w1 t1 :
  getInstanceEndpoints c opt ip w = mkRun (Ok endpoints) w1 t1 ->
  publishEndpoints a bastion c opt ip w
  = if Ready (Some endpoints)
    then
      mkRun (returned (fst (StatusPatch a
                              (withStatusIngress bastion (public endpoints))
                              bastion w1)))
        (snd (StatusPatch a (withStatusIngress bastion (public endpoints))
                bastion w1))
        (t1 ++ [EvStatusPatch (withStatusIngress bastion (public endpoints))
                  bastion])
    else mkRun (Err noEndpointsYet) w1 (t1 ++ []).
Proof.
  intros H. unfold publishEndpoints. rewrite (bind_Ok _ _ _ _ _ _ H).
  destruct (Ready (Some endpoints)); reflexivity.
Qed.
End Publication.

(** C8: in every pass that has allocated the public address, the lookup
    of the endpoint check decides the outcome: a nil response, no instance,
    or an instance not in status "Running" ends the pass with an error that
    is no retry signal; a Running instance whose endpoint pair is not ready
    ends it with the retry signal of five seconds and the cause "bastion
    instance has no public/private endpoints yet"; otherwise the pass goes
    on to publish the public endpoint and ends as the status patch does. *)
Theorem endpoint_check_outcomes :
  forall (World : Type) (pkg : Package World) (a : actuator World)
         bastion cluster w0 e ip w1 t1,
    Reconcile_allocated pkg a bastion cluster w0 = mkRun (Ok (e, ip)) w1 t1 ->
    let c := ecsClient (selection e) in
    let name := BastionInstanceName (opt (context (selection e))) in
    let pass := Reconcile pkg a bastion cluster w0 in
    (fst (GetInstances c name w1) = Return None ->
     result pass = Err (errors_New "compute instance can't be nil"))
    /\ (forall response,
           fst (GetInstances c name w1) = Return (Some response) ->
           DescribeInstancesResponse.Instances response = [] ->
           result pass = Err (errors_New "compute instance not ready yet"))
    /\ (forall response instance rest,
           fst (GetInstances c name w1) = Return (Some response) ->
           DescribeInstancesResponse.Instances response = instance :: rest ->
           Instance.Status instance <> "Running" ->
           result pass = Err (errors_New "compute instance not ready yet"))
    /\ (forall msg, is_retry_signal (errors_New msg) = false)
    /\ (forall response instance rest internalIP more,
           fst (GetInstances c name w1) = Return (Some response) ->
           DescribeInstancesResponse.Instances response = instance :: rest ->
           Instance.Status instance = "Running" ->
           Instance.PrivateIpAddress instance = internalIP :: more ->
           let endpoints := endpointsOf internalIP ip in
           let w2 := snd (GetInstances c name w1) in
           let published := withStatusIngress bastion (public endpoints) in
           (Ready (Some endpoints) = false ->
            result pass = Err noEndpointsYet
            /\ statusWrites (events (publishEndpoints a bastion c
                                       (opt (context (selection e))) ip w1))
               = [])
           /\ (Ready (Some endpoints) = true ->
               pass
               = mkRun (returned (fst (StatusPatch a published bastion w2)))
                   (snd (StatusPatch a published bastion w2))
                   (t1 ++ [EvGetInstances name;
                           EvStatusPatch published bastion]))).
Proof.
  intros World pkg a bastion cluster w0 e ip w1 t1 Hreach c name pass.
  assert (Hpass : pass
                  = let r := publishEndpoints a bastion c
                               (opt (context (selection e))) ip w1 in
                    mkRun (result r) (final r) (t1 ++ events r)).
  { unfold pass, Reconcile. rewrite (bind_Ok _ _ _ _ _ _ Hreach). reflexivity. }
  cbv zeta in Hpass. split; [|split; [|split; [|split]]].
  - intros Hget. rewrite Hpass. simpl. apply publishEndpoints_error.
    now apply getInstanceEndpoints_nil.
  - intros response Hget Hlist. rewrite Hpass. simpl.
    apply publishEndpoints_error.
    now apply getInstanceEndpoints_not_found with (response := response).
  - intros response instance rest Hget Hlist Hstatus. rewrite Hpass. simpl.
    apply publishEndpoints_error.
    now apply getInstanceEndpoints_not_running
      with (response := response) (instance := instance) (rest := rest).
  - reflexivity.
  - intros response instance rest internalIP more Hget Hlist Hstatus Hips
      endpoints w2 published.
    pose proof (getInstanceEndpoints_running c (opt (context (selection e))) ip
                  w1 response instance rest internalIP more Hget Hlist Hstatus
                  Hips) as Hrun.
    pose proof (publishEndpoints_running a bastion c
                  (opt (context (selection e))) ip w1 _ _ _ Hrun) as Hpub.
    fold endpoints in Hpub. fold w2 in Hpub. fold published in Hpub.
    split; intros Hready; rewrite Hready in Hpub.
    + rewrite Hpass, Hpub. split; reflexivity.
    + rewrite Hpass, Hpub. reflexivity.
Qed.

Lemma endpoint_check_witness :
  result (InMemory.pass InMemory.bastion1 InMemory.cluster1
            InMemory.runningNoAddress) = Err noEndpointsYet
  /\ result (InMemory.pass InMemory.bastion1 InMemory.cluster1
               InMemory.running) = Ok tt.
Proof.
  split.
  - eassert (Hreach : Reconcile_allocated InMemory.package InMemory.actuator
                        InMemory.bastion1 InMemory.cluster1
                        InMemory.runningNoAddress
                      = mkRun (Ok (_, _)) _ _) by (lazy; reflexivity).
    destruct (endpoint_check_outcomes _ _ _ _ _ _ _ _ _ _ Hreach)
      as [_ [_ [_ [_ H]]]].
    destruct (H (DescribeInstancesResponse.mk
                   [InMemory.instanceIn "Running" ["10.0.0.5"]])
                (InMemory.instanceIn "Running" ["10.0.0.5"]) [] "10.0.0.5" []
                eq_refl eq_refl eq_refl eq_refl) as [Hnot _].
    exact (proj1 (Hnot eq_refl)).
  - eassert (Hreach : Reconcile_allocated InMemory.package InMemory.actuator
                        InMemory.bastion1 InMemory.cluster1 InMemory.running
                      = mkRun (Ok (_, _)) _ _) by (lazy; reflexivity).
    destruct (endpoint_check_outcomes _ _ _ _ _ _ _ _ _ _ Hreach)
      as [_ [_ [_ [_ H]]]].
    destruct (H (DescribeInstancesResponse.mk
                   [InMemory.instanceIn "Running" ["10.0.0.5"]])
                (InMemory.instanceIn "Running" ["10.0.0.5"]) [] "10.0.0.5" []
                eq_refl eq_refl eq_refl eq_refl) as [_ Hready].
    change (InMemory.pass InMemory.bastion1 InMemory.cluster1 InMemory.running)
      with (Reconcile InMemory.package InMemory.actuator InMemory.bastion1
              InMemory.cluster1 InMemory.running).
    rewrite (Hready eq_refl). reflexivity.
Defined.

(** ** Status publication *)

Section Quiet.
Context {World : Type}.
Variable pkg : Package World.
Variable a : actuator World.
Variable bastion : Bastion.
Variable cluster : Cluster.

Lemma getInstanceEndpoints_writes_no_status c opt ip :
  Silent isStatusWrite (getInstanceEndpoints (World := World) c opt ip).
Proof. unfold getInstanceEndpoints. silent. Qed.

Lemma ensureSecurityGroupRules_writes_no_status c opt sg :
  Silent isStatusWrite (ensureSecurityGroupRules pkg c opt bastion sg).
Proof. unfold ensureSecurityGroupRules. silent. Qed.

Lemma Reconcile_ready_writes_no_status :
  Silent isStatusWrite (Reconcile_ready pkg a bastion cluster).
Proof.
  unfold Reconcile_ready, Reconcile_ensured, Reconcile_selected,
    Reconcile_resolved, awaitInstance, isInstanceReady, ensureSecurityGroup,
    ensureComputeInstance, resolveInstanceTypeId.
  silent.
Qed.

Lemma Reconcile_allocated_writes_no_status :
  Silent isStatusWrite (Reconcile_allocated pkg a bastion cluster).
Proof.
  unfold Reconcile_allocated.
  apply Silent_bind; [apply Reconcile_ready_writes_no_status | intro e].
  cbv zeta.
  apply Silent_bind; [apply ensureSecurityGroupRules_writes_no_status | intro].
  silent.
Qed.

Lemma publishEndpoints_Ok c opt ip w :
  result (publishEndpoints a bastion c opt ip w) = Ok tt ->
  exists endpoints,
    Ready (Some endpoints) = true
    /\ statusWrites (events (publishEndpoints a bastion c opt ip w))
       = [EvStatusPatch (withStatusIngress bastion (public endpoints)) bastion].
Proof.
  intros H. unfold publishEndpoints in *.
  destruct (bind_result_Ok _ _ _ _ H) as [endpoints [Hget Hrest]].
  exists endpoints.
  rewrite (bind_events_Ok _ _ _ _ Hget). unfold statusWrites.
  rewrite filter_app, getInstanceEndpoints_writes_no_status.
  destruct (Ready (Some endpoints)); [|discriminate Hrest].
  split; reflexivity.
Qed.
End Quiet.

Lemma Reconcile_unfold {World} (pkg : Package World) a bastion cluster :
  Reconcile pkg a bastion cluster
  = bind (Reconcile_allocated pkg a bastion cluster)
      (fun p => publishEndpoints a bastion (ecsClient (selection (fst p)))
                  (opt (context (selection (fst p)))) (snd p)).
Proof. reflexivity. Qed.

Lemma eqb_option_string_refl (x : option string) :
  eqb_option String.eqb x x = true.
Proof. destruct x; simpl; [apply String.eqb_refl | reflexivity]. Qed.

Lemma mergeFrom_frames_other_fields bastion ingress persisted :
  Default (applyMergePatch
             (mergeFrom (Status bastion)
                (Status (withStatusIngress bastion ingress))) persisted)
  = Default persisted.
Proof.
  unfold applyMergePatch, mergeFrom, changed. simpl.
  rewrite Z.eqb_refl, !eqb_option_string_refl. simpl.
  destruct (Default persisted). reflexivity.
Qed.

Lemma mergeFrom_writes_ingress bastion ingress persisted :
  Ingress (applyMergePatch
             (mergeFrom (Status bastion)
                (Status (withStatusIngress bastion ingress))) persisted)
  = if eqb_option eqb_ingress (Ingress (Status bastion)) ingress
    then Ingress persisted else ingress.
Proof.
  unfold applyMergePatch, mergeFrom, changed. simpl.
  destruct (eqb_option eqb_ingress (Ingress (Status bastion)) ingress);
    reflexivity.
Qed.

(** C9: a pass that completes successfully writes the status exactly once,
    by a merge patch taken from the bastion as received, of an object that
    differs from it in [Status.Ingress] alone, now the public endpoint;
    applied to whatever status is persisted, that patch leaves every other
    status field as it is and touches the ingress field only. *)
Theorem publication_is_a_merge_patch_of_the_ingress :
  forall (World : Type) (pkg : Package World) (a : actuator World)
         bastion cluster w0 w' t,
    Reconcile pkg a bastion cluster w0 = mkRun (Ok tt) w' t ->
    exists endpoints,
      Ready (Some endpoints) = true
      /\ statusWrites t
         = [EvStatusPatch (withStatusIngress bastion (public endpoints))
              bastion]
      /\ forall persisted,
           let after :=
             applyMergePatch
               (mergeFrom (Status bastion)
                  (Status (withStatusIngress bastion (public endpoints))))
               persisted in
           Default after = Default persisted
           /\ (Ingress after = public endpoints
               \/ Ingress after = Ingress persisted).
Proof.
  intros World pkg a bastion cluster w0 w' t H.
  assert (Hres : result (Reconcile pkg a bastion cluster w0) = Ok tt)
    by (rewrite H; reflexivity).
  assert (Hev : events (Reconcile pkg a bastion cluster w0) = t)
    by (rewrite H; reflexivity).
  rewrite Reconcile_unfold in Hres, Hev.
  destruct (bind_result_Ok _ _ _ _ Hres) as [p [Hp Hpub]].
  rewrite (bind_events_Ok _ _ _ _ Hp) in Hev. cbv beta in Hpub, Hev.
  destruct (publishEndpoints_Ok a bastion _ _ _ _ Hpub)
    as [endpoints [Hready Hwrites]].
  exists endpoints. split; [exact Hready|]. split.
  - rewrite <- Hev. unfold statusWrites in *.
    rewrite filter_app, Reconcile_allocated_writes_no_status.
    rewrite Hwrites. reflexivity.
  - intros persisted after. subst after. split.
    + apply mergeFrom_frames_other_fields.
    + rewrite mergeFrom_writes_ingress.
      destruct (eqb_option eqb_ingress (Ingress (Status bastion))
                  (public endpoints)); [right | left]; reflexivity.
Qed.

Lemma publication_witness :
  (exists endpoints,
      Ready (Some endpoints) = true
      /\ statusWrites (events (InMemory.pass InMemory.bastion1
                                 InMemory.cluster1 InMemory.runningTouched))
         = [EvStatusPatch
              (withStatusIngress InMemory.bastion1 (public endpoints))
              InMemory.bastion1]
      /\ forall persisted,
           let after :=
             applyMergePatch
               (mergeFrom (Status InMemory.bastion1)
                  (Status (withStatusIngress InMemory.bastion1
                             (public endpoints))))
               persisted in
           Default after = Default persisted
           /\ (Ingress after = public endpoints
               \/ Ingress after = Ingress persisted))
  /\ InMemory.persistedStatus
       (final (InMemory.pass InMemory.bastion1 InMemory.cluster1
                 InMemory.runningTouched))
     = mkBastionStatus
         (mkDefaultStatus 2 (Some "Reconcile") (Some "timeout"))
         (Some (LoadBalancerIngress.mk "198.51.100.9" "")).
Proof.
  split.
  - apply (publication_is_a_merge_patch_of_the_ingress
             InMemory.Cloud InMemory.package InMemory.actuator
             InMemory.bastion1 InMemory.cluster1 InMemory.runningTouched
             (final (InMemory.pass InMemory.bastion1 InMemory.cluster1
                       InMemory.runningTouched))
             (events (InMemory.pass InMemory.bastion1 InMemory.cluster1
                        InMemory.runningTouched))).
    vm_compute. reflexivity.
  - vm_compute. reflexivity.
Defined.

(** ** Unguarded indexing *)

Section Indexing.
Context {World : Type}.
Variable c : ECS World.
Variable opt : Options.

Lemma ensureComputeInstance_no_id sg image vsw zone type w created :
  lookupFindsNoInstance c (BastionInstanceName opt) w ->
  fst (CreateInstances c (BastionInstanceName opt) sg image vsw zone type
         (UserData opt) (snd (GetInstances c (BastionInstanceName opt) w)))
  = Return (Some created) ->
  RunInstancesResponse.InstanceIdSets created = [] ->
  result (ensureComputeInstance c opt sg image vsw zone type w)
  = Panicked IndexOutOfRange.
Proof.
  intros [response [Hget Hno]] Hcreate Hids. unfold ensureComputeInstance.
  rewrite (bind_call_Return _ _ _ _ _ Hget).
  cbn [deref bind result final events].
  assert (Hfound :
            match DescribeInstancesResponse.Instances response with
            | [] => None
            | instance :: _ =>
                if (Instance.InstanceName instance =? BastionInstanceName opt)%string
                then Some (Instance.InstanceId instance) else None
            end = None).
  { destruct (DescribeInstancesResponse.Instances response)
      as [|instance rest] eqn:Hlist; [reflexivity|].
    pose proof (Hno instance rest eq_refl) as Hname.
    apply String.eqb_neq in Hname. rewrite Hname. reflexivity. }
  rewrite Hfound. cbn [emit bind result final events].
  rewrite (bind_call_Return _ _ _ _ _ Hcreate).
  cbn [deref bind result final events]. rewrite Hids. reflexivity.
Qed.

Lemma ensureComputeInstance_index_safe sg image vsw zone type w :
  creationYieldsId c opt sg image vsw zone type
    (snd (GetInstances c (BastionInstanceName opt) w)) ->
  result (ensureComputeInstance c opt sg image vsw zone type w)
  <> Panicked IndexOutOfRange.
Proof.
  intros Hpre. unfold creationYieldsId in Hpre. unfold ensureComputeInstance.
  destruct (fst (GetInstances c (BastionInstanceName opt) w))
    as [[response|]|e] eqn:Hget.
  - rewrite (bind_call_Return _ _ _ _ _ Hget).
    cbn [deref bind result final events].
    destruct (match DescribeInstancesResponse.Instances response with
              | [] => None
              | instance :: _ =>
                  if (Instance.InstanceName instance
                      =? BastionInstanceName opt)%string
                  then Some (Instance.InstanceId instance) else None
              end) as [id|]; [discriminate|].
    cbn [emit bind result final events].
    destruct (fst (CreateInstances c (BastionInstanceName opt) sg image vsw
                     zone type (UserData opt)
                     (snd (GetInstances c (BastionInstanceName opt) w))))
      as [[created|]|e] eqn:Hcreate.
    + rewrite (bind_call_Return _ _ _ _ _ Hcreate).
      cbn [deref bind result final events].
      destruct (RunInstancesResponse.InstanceIdSets created) as [|id ids]
        eqn:Hids; [|discriminate].
      exfalso. exact (Hpre created eq_refl Hids).
    + rewrite (bind_call_Return _ _ _ _ _ Hcreate). discriminate.
    + rewrite (bind_call_Fail _ _ _ _ _ Hcreate). discriminate.
  - rewrite (bind_call_Return _ _ _ _ _ Hget). discriminate.
  - rewrite (bind_call_Fail _ _ _ _ _ Hget). discriminate.
Qed.
End Indexing.

(** C10: [getInstanceEndpoints] panics with an index out of range on a
    Running instance without private address, and [ensureComputeInstance]
    does on a creation response without instance id; when a Running
    instance reports at least one private address [getInstanceEndpoints]
    does not panic at all, and when a successful creation response holds
    at least one id [ensureComputeInstance] never fails on the index. *)
Theorem unguarded_indexing_needs_nonempty_responses :
  forall (World : Type) (c : ECS World) (opt : Options),
    let name := BastionInstanceName opt in
    (forall ip w response instance rest,
        fst (GetInstances c name w) = Return (Some response) ->
        DescribeInstancesResponse.Instances response = instance :: rest ->
        Instance.Status instance = "Running" ->
        Instance.PrivateIpAddress instance = [] ->
        result (getInstanceEndpoints c opt ip w) = Panicked IndexOutOfRange)
    /\ (forall sg image vsw zone type w created,
           lookupFindsNoInstance c name w ->
           fst (CreateInstances c name sg image vsw zone type (UserData opt)
                  (snd (GetInstances c name w)))
           = Return (Some created) ->
           RunInstancesResponse.InstanceIdSets created = [] ->
           result (ensureComputeInstance c opt sg image vsw zone type w)
           = Panicked IndexOutOfRange)
    /\ (forall ip w,
           runningHasPrivateIP c name w ->
           forall p, result (getInstanceEndpoints c opt ip w) <> Panicked p)
    /\ (forall sg image vsw zone type w,
           creationYieldsId c opt sg image vsw zone type
             (snd (GetInstances c name w)) ->
           result (ensureComputeInstance c opt sg image vsw zone type w)
           <> Panicked IndexOutOfRange).
Proof.
  intros World c opt name. subst name. split; [|split; [|split]].
  - intros ip w response instance rest.
    apply getInstanceEndpoints_no_address.
  - intros sg image vsw zone type w created.
    apply ensureComputeInstance_no_id.
  - intros ip w. apply getInstanceEndpoints_total.
  - intros sg image vsw zone type w. apply ensureComputeInstance_index_safe.
Qed.

Lemma unguarded_indexing_witness :
  result (getInstanceEndpoints InMemory.ecs InMemory.options1 "198.51.100.9"
            InMemory.runningNoPrivate) = Panicked IndexOutOfRange
  /\ result (ensureComputeInstance InMemory.ecsWithoutIds InMemory.options1
               "sg" "image" "vsw" "zone" "type" InMemory.empty)
     = Panicked IndexOutOfRange
  /\ result (getInstanceEndpoints InMemory.ecs InMemory.options1 "198.51.100.9"
               InMemory.running) <> Panicked IndexOutOfRange
  /\ result (ensureComputeInstance InMemory.ecs InMemory.options1
               "sg" "image" "vsw" "zone" "type" InMemory.empty)
     <> Panicked IndexOutOfRange.
Proof.
  split; [|split; [|split]].
  - destruct (unguarded_indexing_needs_nonempty_responses
                InMemory.Cloud InMemory.ecs InMemory.options1) as [H _].
    exact (H "198.51.100.9" InMemory.runningNoPrivate
             (DescribeInstancesResponse.mk [InMemory.instanceIn "Running" []])
             (InMemory.instanceIn "Running" []) [] eq_refl eq_refl eq_refl
             eq_refl).
  - destruct (unguarded_indexing_needs_nonempty_responses
                InMemory.Cloud InMemory.ecsWithoutIds InMemory.options1)
      as [_ [H _]].
    apply (H "sg" "image" "vsw" "zone" "type" InMemory.empty
             (RunInstancesResponse.mk [])); [|reflexivity|reflexivity].
    exists (DescribeInstancesResponse.mk []). split; [reflexivity|].
    intros instance rest Hlist. discriminate Hlist.
  - destruct (unguarded_indexing_needs_nonempty_responses
                InMemory.Cloud InMemory.ecs InMemory.options1)
      as [_ [_ [H _]]].
    apply H. intros response instance rest Hget Hlist Hstatus Hips.
    vm_compute in Hget. injection Hget as <-. simpl in Hlist.
    injection Hlist as <- <-. discriminate Hips.
  - destruct (unguarded_indexing_needs_nonempty_responses
                InMemory.Cloud InMemory.ecs InMemory.options1)
      as [_ [_ [_ H]]].
    apply H. intros created Hcreate. vm_compute in Hcreate.
    injection Hcreate as <-. discriminate.
Defined.

(** * Further properties *)

(** ** Rule equality and rule diff *)

(** X1: the ingress equality holds exactly when description, protocol, port
    range, IPv4 source CIDR and IPv6 source CIDR are the same strings; the
    security group, the policy and the destination fields play no part. *)
Theorem ingressRuleEqual_five_fields :
  forall a b,
    ingressRuleEqual a b = true
    <-> AuthorizeSecurityGroupRequest.Description a = Permission.Description b
        /\ AuthorizeSecurityGroupRequest.IpProtocol a = Permission.IpProtocol b
        /\ AuthorizeSecurityGroupRequest.PortRange a = Permission.PortRange b
        /\ AuthorizeSecurityGroupRequest.SourceCidrIp a
           = Permission.SourceCidrIp b
        /\ AuthorizeSecurityGroupRequest.Ipv6SourceCidrIp a
           = Permission.Ipv6SourceCidrIp b.
Proof.
  intros a b. unfold ingressRuleEqual, DeepEqual.
  repeat match goal with
         | |- context [String.eqb ?x ?y] =>
             destruct (String.eqb_spec x y); simpl
         end; split; try discriminate; try tauto; intros H; tauto.
Qed.

Section NilWantedRules.
Context {Wanted : Type}.
Variable ruleEqual : Wanted -> Permission.t -> bool.

Lemma foundAmongWanted_panic ws c p :
  foundAmongWanted ruleEqual ws c = Panic p ->
  In None ws /\ p = NilDereference.
Proof.
  induction ws as [|[w|] ws IH]; simpl; try discriminate.
  - destruct (ruleEqual w c); [discriminate|].
    intros H. destruct (IH H). split; [now right | assumption].
  - intros H. injection H as <-. split; [now left | reflexivity].
Qed.

Lemma rulesToDelete_panic ws cs p :
  rulesToDelete ruleEqual ws cs = Panic p ->
  In None ws /\ p = NilDereference.
Proof.
  induction cs as [|c cs IH]; simpl; try discriminate.
  destruct (foundAmongWanted ruleEqual ws c) as [found|q] eqn:E; simpl.
  - destruct (rulesToDelete ruleEqual ws cs) as [deleted|q]; simpl;
      [discriminate|].
    intros H. injection H as <-. now apply IH.
  - intros H. injection H as <-. exact (foundAmongWanted_panic _ _ _ E).
Qed.

Lemma rulesToAdd_panic ws cs p :
  rulesToAdd ruleEqual ws cs = Panic p -> In None ws /\ p = NilDereference.
Proof.
  induction ws as [|[w|] ws IH]; simpl; try discriminate.
  - destruct (rulesToAdd ruleEqual ws cs) as [added|q]; simpl; [discriminate|].
    intros H. injection H as <-. destruct (IH eq_refl).
    split; [now right | assumption].
  - intros H. injection H as <-. split; [now left | reflexivity].
Qed.

Lemma rulesToAdd_nil ws cs :
  In None ws -> rulesToAdd ruleEqual ws cs = Panic NilDereference.
Proof.
  induction ws as [|[w|] ws IH]; simpl; intros H.
  - contradiction.
  - destruct H as [H|H]; [discriminate|]. rewrite (IH H). reflexivity.
  - reflexivity.
Qed.

Lemma rulesSymmetricDifference_nil ws cs :
  (In None ws ->
   rulesSymmetricDifference ruleEqual ws cs = Panic NilDereference)
  /\ (forall p, rulesSymmetricDifference ruleEqual ws cs = Panic p ->
                In None ws /\ p = NilDereference).
Proof.
  unfold rulesSymmetricDifference. split.
  - intros H.
    destruct (rulesToDelete ruleEqual ws cs) as [deleted|q] eqn:E; simpl.
    + rewrite (rulesToAdd_nil _ _ H). reflexivity.
    + destruct (rulesToDelete_panic _ _ _ E) as [_ ->]. reflexivity.
  - intros p.
    destruct (rulesToDelete ruleEqual ws cs) as [deleted|q] eqn:E; simpl.
    + destruct (rulesToAdd ruleEqual ws cs) as [added|r] eqn:F; simpl;
        [discriminate|].
      intros H. injection H as <-. exact (rulesToAdd_panic _ _ _ F).
    + intros H. injection H as <-. exact (rulesToDelete_panic _ _ _ E).
Qed.
End NilWantedRules.

(** X2: each symmetric-difference function panics exactly when the wanted
    list holds a nil pointer, whatever the observed rules are, and the
    panic is a nil dereference. *)
Theorem symmetric_difference_panics_on_nil_wanted_rule :
  forall cs,
    (forall ws, In None ws ->
        ingressRulesSymmetricDifference ws cs = Panic NilDereference)
    /\ (forall ws p, ingressRulesSymmetricDifference ws cs = Panic p ->
           In None ws /\ p = NilDereference)
    /\ (forall ws, In None ws ->
           egressRulesSymmetricDifference ws cs = Panic NilDereference)
    /\ (forall ws p, egressRulesSymmetricDifference ws cs = Panic p ->
           In None ws /\ p = NilDereference).
Proof.
  intros cs. split; [|split; [|split]].
  - intros ws H. now apply rulesSymmetricDifference_nil.
  - intros ws p H. exact (proj2 (rulesSymmetricDifference_nil _ ws cs) p H).
  - intros ws H. now apply rulesSymmetricDifference_nil.
  - intros ws p H. exact (proj2 (rulesSymmetricDifference_nil _ ws cs) p H).
Qed.

Lemma symmetric_difference_nil_witness :
  ingressRulesSymmetricDifference
    [Some (sshFrom "203.0.113.0/24"); None]
    [observedSshFrom "203.0.113.0/24"]
  = Panic NilDereference.
Proof.
  destruct (symmetric_difference_panics_on_nil_wanted_rule
              [observedSshFrom "203.0.113.0/24"]) as [H _].
  apply H. right. left. reflexivity.
Defined.

(** X3: on valid pointers the loops compute the two set differences of
    the rule reconciler: [toAdd] is the wanted rules without an equal
    observed rule, [toDelete] the observed rules without an equal wanted
    rule, each in its original order and with its repetitions. *)
Theorem symmetric_difference_is_set_difference :
  forall W O,
    ingressRulesSymmetricDifference (map Some W) O
    = Val (wantedMinusObserved ingressRuleEqual W O,
           observedMinusWanted ingressRuleEqual W O)
    /\ forall W' : list AuthorizeSecurityGroupEgressRequest.t,
        egressRulesSymmetricDifference (map Some W') O
        = Val (wantedMinusObserved egressRuleEqual W' O,
               observedMinusWanted egressRuleEqual W' O).
Proof.
  intros W O. split; [|intros W'];
    apply rulesSymmetricDifference_filter.
Qed.

Section Convergence.
Context {Wanted : Type}.
Variable ruleEqual : Wanted -> Permission.t -> bool.
Variable observe : Wanted -> Permission.t.
Hypothesis observed_equal : forall w, ruleEqual w (observe w) = true.



End Convergence.



(** ** Endpoints *)

(** X5: the ingress built by [addressToIngress] is ready exactly when a
    non-empty DNS name or a non-empty IP address was given; an ingress built
    from empty strings only exists and is not ready. *)
Theorem addressToIngress_ready :
  forall dnsName ipAddress,
    IngressReady (addressToIngress dnsName ipAddress) = true
    <-> (exists name, dnsName = Some name /\ name <> "")
        \/ (exists ip, ipAddress = Some ip /\ ip <> "").
Proof.
  intros [d|] [i|]; simpl;
    rewrite ?orb_true_iff, ?negb_true_iff, ?String.eqb_neq; split; intros H;
    repeat match goal with
           | H : _ \/ _ |- _ => destruct H
           | H : exists _, _ |- _ => destruct H
           | H : _ /\ _ |- _ => destruct H
           | H : Some _ = Some _ |- _ => injection H as ->
           | H : None = Some _ |- _ => discriminate H
           | H : false = true |- _ => discriminate H
           end;
    try discriminate; try tauto;
    solve [left; eexists; split; [reflexivity | assumption]
          | right; eexists; split; [reflexivity | assumption]].
Qed.

Section EmitsFacts.
Context {World : Type}.
Variable P : event -> Prop.

Lemma Emits_bind {A B} (m : M World A) (f : A -> M World B) :
  Emits P m -> (forall x, Emits P (f x)) -> Emits P (bind m f).
Proof.
  intros Hm Hf w. unfold bind.
  destruct (result (m w)) as [x|e|q]; simpl; try apply Hm.
  apply Forall_app. split; [apply Hm | apply Hf].
Qed.

Lemma Forall_events_bind {A B} (m : M World A) (f : A -> M World B) w :
  Forall P (events (m w)) -> (forall x, Emits P (f x)) ->
  Forall P (events (bind m f w)).
Proof.
  intros Hm Hf. unfold bind.
  destruct (result (m w)) as [x|e|q]; simpl; try apply Hm.
  apply Forall_app. split; [apply Hm | apply Hf].
Qed.

Lemma Emits_pure {A} (x : A) : Emits P (pure (World := World) x).
Proof. intros w. constructor. Qed.

Lemma Emits_fail {A} e : Emits P (fail (World := World) (A := A) e).
Proof. intros w. constructor. Qed.

Lemma Emits_deref {A} (x : option A) : Emits P (deref (World := World) x).
Proof. intros w. destruct x; constructor. Qed.

Lemma Emits_first {A} (s : list A) : Emits P (first (World := World) s).
Proof. intros w. destruct s; constructor. Qed.

Lemma Emits_total {A} (x : partial A) : Emits P (total (World := World) x).
Proof. intros w. destruct x; constructor. Qed.

Lemma Emits_check {A} (x : ret A) : Emits P (check (World := World) x).
Proof. intros w. destruct x; constructor. Qed.

Lemma Emits_emit ev : P ev -> Emits P (emit (World := World) ev).
Proof. intros H w. simpl. constructor; [exact H | constructor]. Qed.

Lemma Emits_call {A} ev (op : World -> ret A * World) :
  P ev -> Emits P (call ev op).
Proof. intros H w. simpl. constructor; [exact H | constructor]. Qed.

Lemma Emits_orWrap {A} wrap (m : M World A) :
  Emits P m -> Emits P (orWrap wrap m).
Proof.
  intros H w. unfold orWrap. destruct (result (m w)); simpl; apply H.
Qed.

Lemma Emits_forEach {A} (xs : list A) (body : A -> M World unit) :
  (forall x, Emits P (body x)) -> Emits P (forEach xs body).
Proof.
  intros H. induction xs as [|x xs IH]; simpl.
  - apply Emits_pure.
  - apply Emits_bind; [apply H | intros _; exact IH].
Qed.

Lemma bind_events_cases {A B} (m : M World A) (f : A -> M World B) w :
  (events (bind m f w) = events (m w)
   /\ forall x, result (m w) <> Ok x)
  \/ exists x,
      result (m w) = Ok x
      /\ events (bind m f w) = events (m w) ++ events (f x (final (m w))).
Proof.
  unfold bind. destruct (result (m w)) as [x|e|q]; simpl.
  - right. exists x. split; reflexivity.
  - left. split; [reflexivity | discriminate].
  - left. split; [reflexivity | discriminate].
Qed.

Lemma bind_not_Ok {A B} (m : M World A) (f : A -> M World B) w :
  (forall x, result (m w) <> Ok x) ->
  events (bind m f w) = events (m w)
  /\ (forall y, result (bind m f w) <> Ok y).
Proof.
  intros H. unfold bind. destruct (result (m w)) as [x|e|q]; simpl.
  - now contradiction (H x).
  - split; [reflexivity | discriminate].
  - split; [reflexivity | discriminate].
Qed.
End EmitsFacts.

(** Splits a goal [Emits P m] along the structure of [m]; what is left
    are the events themselves. *)
Ltac emits :=
  repeat first
    [ apply Emits_pure | apply Emits_fail | apply Emits_deref
    | apply Emits_first | apply Emits_total | apply Emits_check
    | apply Emits_emit | apply Emits_call
    | apply Emits_orWrap
    | apply Emits_forEach; intro
    | apply Emits_bind; [|intro]
    | match goal with
      | |- Emits _ (match ?x with _ => _ end) => destruct x
      | |- Emits _ (let _ := _ in _) => cbv zeta
      end ].

(** X6: when [getInstanceEndpoints] succeeds, the private endpoint is the
    first private address of the Running instance found, the public endpoint
    is the address passed in, no hostname is set, exactly one lookup was
    made, and the pair is ready exactly when both addresses are non-empty. *)
Theorem getInstanceEndpoints_success_shape :
  forall (World : Type) (c : ECS World) opt ip w endpoints,
    result (getInstanceEndpoints c opt ip w) = Ok endpoints ->
    exists response instance rest internalIP more,
      fst (GetInstances c (BastionInstanceName opt) w) = Return (Some response)
      /\ DescribeInstancesResponse.Instances response = instance :: rest
      /\ Instance.Status instance = "Running"
      /\ Instance.PrivateIpAddress instance = internalIP :: more
      /\ endpoints
         = mkEndpoints (Some (LoadBalancerIngress.mk internalIP ""))
             (Some (LoadBalancerIngress.mk ip ""))
      /\ events (getInstanceEndpoints c opt ip w)
         = [EvGetInstances (BastionInstanceName opt)]
      /\ (Ready (Some endpoints) = true <-> internalIP <> "" /\ ip <> "").
Proof.
  intros World c opt ip w endpoints. unfold getInstanceEndpoints.
  destruct (fst (GetInstances c (BastionInstanceName opt) w))
    as [[response|]|e] eqn:Hget;
    [rewrite (bind_call_Return _ _ _ _ _ Hget)
    |rewrite (bind_call_Return _ _ _ _ _ Hget)
    |rewrite (bind_call_Fail _ _ _ _ _ Hget)];
    cbn [result events fail]; try discriminate.
  destruct (DescribeInstancesResponse.Instances response)
    as [|instance rest] eqn:Hlist; cbn [result events fail];
    try discriminate.
  destruct (Instance.Status instance =? "Running")%string eqn:Hstatus;
    cbn [negb result events fail]; try discriminate.
  destruct (Instance.PrivateIpAddress instance) as [|internalIP more]
    eqn:Hips; unfold bind, first, pure; cbn [result events final];
    try discriminate.
  intros H. injection H as <-. apply String.eqb_eq in Hstatus.
  exists response, instance, rest, internalIP, more.
  repeat split; try assumption; try reflexivity.
  - simpl in H. rewrite andb_true_iff, !negb_true_iff, !String.eqb_neq in H.
    tauto.
  - simpl in H. rewrite andb_true_iff, !negb_true_iff, !String.eqb_neq in H.
    tauto.
  - intros [H1 H2]. simpl.
    rewrite andb_true_iff, !negb_true_iff, !String.eqb_neq. tauto.
Qed.

Lemma getInstanceEndpoints_success_witness :
  Ready (Some (mkEndpoints (Some (LoadBalancerIngress.mk "10.0.0.5" ""))
                 (Some (LoadBalancerIngress.mk "" "")))) = false.
Proof.
  destruct (getInstanceEndpoints_success_shape InMemory.Cloud InMemory.ecs
              InMemory.options1 "" InMemory.running
              (mkEndpoints (Some (LoadBalancerIngress.mk "10.0.0.5" ""))
                 (Some (LoadBalancerIngress.mk "" ""))) eq_refl)
    as [response [instance [rest [internalIP [more [_ [_ [_ [_ [_ [_ H]]]]]]]]]]].
  destruct (Ready (Some (mkEndpoints (Some (LoadBalancerIngress.mk "10.0.0.5" ""))
                           (Some (LoadBalancerIngress.mk "" ""))))) eqn:E;
    [|reflexivity].
  destruct (proj1 H eq_refl) as [_ Hip]. now contradiction Hip.
Defined.

(** ** Instance type selection *)

(** X7: the probes go by increasing core count and stop at the first
    candidate reported available with a non-empty value, which is the
    resolved type: a hit at one core issues no second probe, two cores are
    probed only after a miss at one core, and a failing probe ends the
    resolution with its error and no further probe. *)
Theorem first_available_instance_type_wins :
  forall (World : Type) (c : ECS World) cluster zone w,
    let probe1 := GetInstanceType c 1 zone w in
    let probe2 := GetInstanceType c 2 zone (snd probe1) in
    (forall r1 value,
        fst probe1 = Return r1 ->
        availableInstanceType r1 = Some value -> value <> "" ->
        resolveInstanceTypeId cluster c zone w
        = mkRun (Ok value) (snd probe1) [EvGetInstanceType 1 zone])
    /\ (forall r1 r2 value,
           fst probe1 = Return r1 -> availableInstanceType r1 = None ->
           fst probe2 = Return r2 ->
           availableInstanceType r2 = Some value -> value <> "" ->
           resolveInstanceTypeId cluster c zone w
           = mkRun (Ok value) (snd probe2)
               [EvGetInstanceType 1 zone; EvGetInstanceType 2 zone])
    /\ (forall e,
           fst probe1 = Fail e ->
           resolveInstanceTypeId cluster c zone w
           = mkRun (Err e) (snd probe1) [EvGetInstanceType 1 zone])
    /\ (forall r1 e,
           fst probe1 = Return r1 -> availableInstanceType r1 = None ->
           fst probe2 = Fail e ->
           resolveInstanceTypeId cluster c zone w
           = mkRun (Err e) (snd probe2)
               [EvGetInstanceType 1 zone; EvGetInstanceType 2 zone]).
Proof.
  intros World c cluster zone w probe1 probe2. subst probe1 probe2.
  unfold resolveInstanceTypeId. cbn [probeInstanceTypes].
  split; [|split; [|split]].
  - intros r1 value H1 Ha Hne. apply String.eqb_neq in Hne.
    unfold bind at 1. rewrite (bind_call_Return _ _ _ _ _ H1), Ha.
    cbn [pure result final events]. rewrite Hne. reflexivity.
  - intros r1 r2 value H1 Hn H2 Ha Hne. apply String.eqb_neq in Hne.
    unfold bind at 1. rewrite (bind_call_Return _ _ _ _ _ H1), Hn.
    rewrite (bind_call_Return _ _ _ _ _ H2), Ha.
    cbn [pure result final events]. rewrite Hne. reflexivity.
  - intros e H1. unfold bind at 1. rewrite (bind_call_Fail _ _ _ _ _ H1).
    reflexivity.
  - intros r1 e H1 Hn H2. unfold bind at 1.
    rewrite (bind_call_Return _ _ _ _ _ H1), Hn.
    rewrite (bind_call_Fail _ _ _ _ _ H2). reflexivity.
Qed.

Lemma first_available_instance_type_witness :
  resolveInstanceTypeId InMemory.cluster1 InMemory.ecs "zone-a" InMemory.empty
  = mkRun (Ok "ecs.t5.small") InMemory.empty [EvGetInstanceType 1 "zone-a"]
  /\ resolveInstanceTypeId InMemory.cluster1 InMemory.ecs "zone-a"
       Fixtures.twoCores
     = mkRun (Ok "ecs.t5.small") Fixtures.twoCores
         [EvGetInstanceType 1 "zone-a"; EvGetInstanceType 2 "zone-a"].
Proof.
  split.
  - destruct (first_available_instance_type_wins InMemory.Cloud InMemory.ecs
                InMemory.cluster1 "zone-a" InMemory.empty) as [H _].
    apply (H (Some InMemory.typeAvailable) "ecs.t5.small");
      [reflexivity | reflexivity | discriminate].
  - destruct (first_available_instance_type_wins InMemory.Cloud InMemory.ecs
                InMemory.cluster1 "zone-a" Fixtures.twoCores) as [_ [H _]].
    apply (H (Some InMemory.typeSoldOut) (Some InMemory.typeAvailable)
             "ecs.t5.small");
      [reflexivity | reflexivity | reflexivity | reflexivity | discriminate].
Defined.

(** X8: a candidate reported available with an empty value ends the probes
    like a hit and is then treated like no hit at all: without probing two
    cores, the type is taken from the first machine type of the cloud
    profile, the resolution fails when the profile has none, and it panics
    when the cluster carries no cloud profile. *)
Theorem available_type_without_value_falls_back :
  forall (World : Type) (c : ECS World) cluster zone w r1,
    fst (GetInstanceType c 1 zone w) = Return r1 ->
    availableInstanceType r1 = Some "" ->
    let w1 := snd (GetInstanceType c 1 zone w) in
    (forall cloudProfile machineType rest,
        ClusterCloudProfile cluster = Some cloudProfile ->
        MachineTypes cloudProfile = machineType :: rest ->
        resolveInstanceTypeId cluster c zone w
        = mkRun (Ok (MachineTypeName machineType)) w1
            [EvGetInstanceType 1 zone; fallbackNote])
    /\ (forall cloudProfile,
           ClusterCloudProfile cluster = Some cloudProfile ->
           MachineTypes cloudProfile = [] ->
           resolveInstanceTypeId cluster c zone w
           = mkRun (Err noMachineTypes) w1 [EvGetInstanceType 1 zone])
    /\ (ClusterCloudProfile cluster = None ->
        resolveInstanceTypeId cluster c zone w
        = mkRun (Panicked NilDereference) w1 [EvGetInstanceType 1 zone]).
Proof.
  intros World c cluster zone w r1 H1 Ha w1. subst w1.
  assert (E : resolveInstanceTypeId cluster c zone w
              = let r := bind (deref (ClusterCloudProfile cluster))
                           (fun cloudProfile =>
                              match MachineTypes cloudProfile with
                              | [] => fail noMachineTypes
                              | machineType :: _ =>
                                  bind (emit fallbackNote)
                                    (fun _ => pure (MachineTypeName machineType))
                              end)
                           (snd (GetInstanceType c 1 zone w)) in
                mkRun (result r) (final r)
                  (EvGetInstanceType 1 zone :: events r)).
  { unfold resolveInstanceTypeId. cbn [probeInstanceTypes].
    unfold bind at 1. rewrite (bind_call_Return _ _ _ _ _ H1), Ha.
    cbn [pure result final events]. rewrite String.eqb_refl. reflexivity. }
  rewrite E. clear E. split; [|split].
  - intros cloudProfile machineType rest Hcp Hm. rewrite Hcp.
    unfold bind, deref. cbn [result final events]. rewrite Hm. reflexivity.
  - intros cloudProfile Hcp Hm. rewrite Hcp.
    unfold bind, deref. cbn [result final events]. rewrite Hm. reflexivity.
  - intros Hcp. rewrite Hcp. reflexivity.
Qed.

Lemma available_type_without_value_witness :
  resolveInstanceTypeId InMemory.cluster1 InMemory.ecs "zone-a"
    Fixtures.unnamedType
  = mkRun (Ok "m.small") Fixtures.unnamedType
      [EvGetInstanceType 1 "zone-a"; fallbackNote].
Proof.
  destruct (available_type_without_value_falls_back InMemory.Cloud
              InMemory.ecs InMemory.cluster1 "zone-a" Fixtures.unnamedType
              (Some Fixtures.typeUnnamed) eq_refl eq_refl) as [H _].
  exact (H _ (mkMachineType "m.small") [mkMachineType "m.large"] eq_refl
           eq_refl).
Defined.

(** ** Creation paths and nil responses *)

(** X9: when the lookup answers without a group of the requested name in
    first place, [ensureSecurityGroup] issues exactly one creation call, for
    the given network and name, and ends as that call does: with the id of
    the response, with the error of the call, or with a nil dereference on
    a nil response. *)
Theorem ensureSecurityGroup_creates_when_absent :
  forall (World : Type) (c : ECS World) name vpcID w,
    lookupFindsNoGroup c name w ->
    let w1 := snd (GetSecurityGroup c name w) in
    ensureSecurityGroup c name vpcID w
    = mkRun (createdGroup (fst (CreateSecurityGroups c vpcID name w1)))
        (snd (CreateSecurityGroups c vpcID name w1))
        [EvGetSecurityGroup name; EvLogInfo "creating Security Group";
         EvCreateSecurityGroups vpcID name].
Proof.
  intros World c name vpcID w [response [Hget Hno]] w1. subst w1.
  unfold ensureSecurityGroup.
  rewrite (bind_call_Return _ _ _ _ _ Hget).
  cbn [deref bind result final events].
  assert (Hfound :
            match DescribeSecurityGroupsResponse.SecurityGroups response with
            | [] => None
            | group :: _ =>
                if (SecurityGroup.SecurityGroupName group =? name)%string
                then Some (SecurityGroup.SecurityGroupId group) else None
            end = None).
  { destruct (DescribeSecurityGroupsResponse.SecurityGroups response)
      as [|group rest] eqn:Hlist; [reflexivity|].
    pose proof (Hno group rest eq_refl) as Hname.
    apply String.eqb_neq in Hname. rewrite Hname. reflexivity. }
  rewrite Hfound. cbn [emit bind result final events].
  unfold createdGroup.
  destruct (fst (CreateSecurityGroups c vpcID name
                   (snd (GetSecurityGroup c name w))))
    as [[created|]|e] eqn:Hc;
    [rewrite (bind_call_Return _ _ _ _ _ Hc)
    |rewrite (bind_call_Return _ _ _ _ _ Hc)
    |rewrite (bind_call_Fail _ _ _ _ _ Hc)]; reflexivity.
Qed.

Lemma ensureSecurityGroup_creates_witness :
  ensureSecurityGroup InMemory.ecs "sg-bastion-1" "vpc-1" InMemory.empty
  = mkRun (Ok "sg-sg-bastion-1")
      (InMemory.withGroups InMemory.empty
         [InMemory.shootGroup; InMemory.bastionGroup])
      [EvGetSecurityGroup "sg-bastion-1"; EvLogInfo "creating Security Group";
       EvCreateSecurityGroups "vpc-1" "sg-bastion-1"].
Proof.
  apply (ensureSecurityGroup_creates_when_absent InMemory.Cloud InMemory.ecs
           "sg-bastion-1" "vpc-1" InMemory.empty).
  exists (DescribeSecurityGroupsResponse.mk []). split; [reflexivity|].
  intros group rest H. discriminate H.
Defined.

(** X10: when the lookup answers without an instance of the requested name
    in first place, [ensureComputeInstance] issues exactly one creation
    call, carrying the name and user data of the options and the security
    group, image, switch, zone and instance type it was given, and ends as
    that call does: with the first id of the response, with the error of the
    call, with a nil dereference on a nil response, or with an index out of
    range on an empty id set. *)
Theorem ensureComputeInstance_creates_when_absent :
  forall (World : Type) (c : ECS World) opt sg image vsw zone type w,
    lookupFindsNoInstance c (BastionInstanceName opt) w ->
    let w1 := snd (GetInstances c (BastionInstanceName opt) w) in
    let creation :=
      CreateInstances c (BastionInstanceName opt) sg image vsw zone type
        (UserData opt) w1 in
    ensureComputeInstance c opt sg image vsw zone type w
    = mkRun (createdInstance (fst creation)) (snd creation)
        [EvGetInstances (BastionInstanceName opt);
         EvLogInfo "creating new bastion compute instance";
         EvCreateInstances (BastionInstanceName opt) sg image vsw zone type
           (UserData opt)].
Proof.
  intros World c opt sg image vsw zone type w [response [Hget Hno]] w1 creation.
  subst creation w1. unfold ensureComputeInstance.
  rewrite (bind_call_Return _ _ _ _ _ Hget).
  cbn [deref bind result final events].
  assert (Hfound :
            match DescribeInstancesResponse.Instances response with
            | [] => None
            | instance :: _ =>
                if (Instance.InstanceName instance
                    =? BastionInstanceName opt)%string
                then Some (Instance.InstanceId instance) else None
            end = None).
  { destruct (DescribeInstancesResponse.Instances response)
      as [|instance rest] eqn:Hlist; [reflexivity|].
    pose proof (Hno instance rest eq_refl) as Hname.
    apply String.eqb_neq in Hname. rewrite Hname. reflexivity. }
  rewrite Hfound. cbn [emit bind result final events].
  unfold createdInstance.
  destruct (fst (CreateInstances c (BastionInstanceName opt) sg image vsw zone
                   type (UserData opt)
                   (snd (GetInstances c (BastionInstanceName opt) w))))
    as [[created|]|e] eqn:Hc;
    [rewrite (bind_call_Return _ _ _ _ _ Hc)
    |rewrite (bind_call_Return _ _ _ _ _ Hc)
    |rewrite (bind_call_Fail _ _ _ _ _ Hc)]; try reflexivity.
  cbn [deref bind result final events].
  destruct (RunInstancesResponse.InstanceIdSets created); reflexivity.
Qed.

Lemma ensureComputeInstance_creates_witness :
  result (ensureComputeInstance InMemory.ecs InMemory.options1 "sg-1"
            "image-1" "vsw-1" "zone-a" "ecs.t5.small" InMemory.empty)
  = Ok "i-bastion-1"
  /\ creationCalls
       (events (ensureComputeInstance InMemory.ecs InMemory.options1 "sg-1"
                  "image-1" "vsw-1" "zone-a" "ecs.t5.small" InMemory.empty))
     = [EvCreateInstances "bastion-1" "sg-1" "image-1" "vsw-1" "zone-a"
          "ecs.t5.small" "#!/bin/sh"].
Proof.
  assert (H : lookupFindsNoInstance InMemory.ecs
                (BastionInstanceName InMemory.options1) InMemory.empty).
  { exists (DescribeInstancesResponse.mk []). split; [reflexivity|].
    intros instance rest H. discriminate H. }
  rewrite (ensureComputeInstance_creates_when_absent InMemory.Cloud
             InMemory.ecs InMemory.options1 "sg-1" "image-1" "vsw-1" "zone-a"
             "ecs.t5.small" InMemory.empty H).
  split; reflexivity.
Defined.

(** X11: a nil response with a nil error is handled in two ways: the two
    readiness lookups turn it into an error ("bastion instance not yet
    created", "compute instance can't be nil"), the two ensure operations
    dereference it and panic, having issued the lookup only. *)
Theorem nil_lookup_responses :
  forall (World : Type) (c : ECS World) opt w,
    (fst (GetInstances c (BastionInstanceName opt) w) = Return None ->
     result (isInstanceReady c opt w)
     = Err (errors_New "bastion instance not yet created")
     /\ (forall ip,
            result (getInstanceEndpoints c opt ip w)
            = Err (errors_New "compute instance can't be nil"))
     /\ (forall sg image vsw zone type,
            ensureComputeInstance c opt sg image vsw zone type w
            = mkRun (Panicked NilDereference)
                (snd (GetInstances c (BastionInstanceName opt) w))
                [EvGetInstances (BastionInstanceName opt)]))
    /\ (forall name vpcID,
           fst (GetSecurityGroup c name w) = Return None ->
           ensureSecurityGroup c name vpcID w
           = mkRun (Panicked NilDereference) (snd (GetSecurityGroup c name w))
               [EvGetSecurityGroup name]).
Proof.
  intros World c opt w. split.
  - intros Hget. split; [|split].
    + unfold isInstanceReady. rewrite (bind_call_Return _ _ _ _ _ Hget).
      reflexivity.
    + intros ip. now apply getInstanceEndpoints_nil.
    + intros sg image vsw zone type. unfold ensureComputeInstance.
      rewrite (bind_call_Return _ _ _ _ _ Hget). reflexivity.
  - intros name vpcID Hget. unfold ensureSecurityGroup.
    rewrite (bind_call_Return _ _ _ _ _ Hget). reflexivity.
Qed.

Lemma nil_lookup_responses_witness :
  result (isInstanceReady Fixtures.ecsNil InMemory.options1 InMemory.running)
  = Err (errors_New "bastion instance not yet created")
  /\ result (ensureSecurityGroup Fixtures.ecsNil "sg-bastion-1" "vpc-1"
               InMemory.running) = Panicked NilDereference.
Proof.
  destruct (nil_lookup_responses InMemory.Cloud Fixtures.ecsNil
              InMemory.options1 InMemory.running) as [H1 H2].
  split.
  - exact (proj1 (H1 eq_refl)).
  - rewrite (H2 "sg-bastion-1" "vpc-1" eq_refl). reflexivity.
Defined.

(** ** Security group rules *)

Section Steps.
Context {World : Type}.

Lemma bind_pure_run {A B} (x : A) (f : A -> M World B) w :
  bind (pure x) f w = f x w.
Proof. unfold bind, pure. simpl. destruct (f x w); reflexivity. Qed.

Lemma bind_deref_Some {A B} (x : A) (f : A -> M World B) w :
  bind (deref (Some x)) f w = f x w.
Proof. unfold bind, deref. simpl. destruct (f x w); reflexivity. Qed.

Lemma bind_total_Val {A B} (x : A) (f : A -> M World B) w :
  bind (total (Val x)) f w = f x w.
Proof. unfold bind, total. simpl. destruct (f x w); reflexivity. Qed.

Lemma bind_check_Return {A B} (x : A) (f : A -> M World B) w :
  bind (check (Return x)) f w = f x w.
Proof. apply bind_pure_run. Qed.

Lemma bind_call_reads {A B} ev (op : World -> ret A * World)
  (f : A -> M World B) w x :
  op w = (Return x, w) ->
  bind (call ev op) f w
  = mkRun (result (f x w)) (final (f x w)) (ev :: events (f x w)).
Proof.
  intros H. rewrite (bind_call_Return _ _ _ _ _ (f_equal fst H)).
  rewrite H. reflexivity.
Qed.

Lemma bind_assoc {A B C} (m : M World A) (f : A -> M World B)
  (g : B -> M World C) w :
  bind (bind m f) g w = bind m (fun x => bind (f x) g) w.
Proof.
  unfold bind. destruct (result (m w)) as [x|e|p]; simpl; try reflexivity.
  destruct (result (f x (final (m w)))) as [y|e|p]; simpl; try reflexivity.
  rewrite app_assoc. reflexivity.
Qed.

Lemma bind_ext {A B} (m : M World A) (f g : A -> M World B) w :
  (forall x w', f x w' = g x w') -> bind m f w = bind m g w.
Proof.
  intros H. unfold bind. destruct (result (m w)); simpl; try reflexivity.
  rewrite H. reflexivity.
Qed.

Lemma forEach_nil {A} (body : A -> M World unit) w :
  forEach [] body w = mkRun (Ok tt) w [].
Proof. reflexivity. Qed.
End Steps.

Lemma rulesInPlace_no_diff {Wanted} (ruleEqual : Wanted -> Permission.t -> bool)
  W O :
  rulesInPlace ruleEqual W O ->
  rulesSymmetricDifference ruleEqual (map Some W) O = Val ([], []).
Proof.
  intros [H1 H2]. rewrite rulesSymmetricDifference_filter.
  destruct (filter_diffCorrect ruleEqual W O)
    as [_ [_ [_ [_ [_ [_ [H _]]]]]]].
  destruct (H H1 H2) as [-> ->]. reflexivity.
Qed.

Lemma ensureSecurityGroupRules_halves {World} (pkg : Package World) c opt
  bastion sg w :
  ensureSecurityGroupRules pkg c opt bastion sg w
  = bind (reconcileIngressRules pkg c bastion sg)
      (fun _ => reconcileEgressRules pkg c opt sg) w.
Proof.
  unfold ensureSecurityGroupRules, reconcileIngressRules, reconcileEgressRules.
  cbv zeta. symmetry.
  repeat (rewrite bind_assoc; apply bind_ext; intros).
  reflexivity.
Qed.

(** X12: when the provider already shows the wanted ingress and egress
    rules and nothing else, [ensureSecurityGroupRules] succeeds with four
    lookups and without creating or revoking any rule, and leaves the
    provider as it was. *)
Theorem ensureSecurityGroupRules_converged_is_noop :
  forall (World : Type) (pkg : Package World) (c : ECS World) opt bastion
         sg w,
    rulesConverged pkg c opt bastion sg w ->
    ensureSecurityGroupRules pkg c opt bastion sg w
    = mkRun (Ok tt) w
        [EvDescribeSecurityGroupAttribute
           (describeSecurityGroupAttributeRequest pkg sg "ingress");
         EvGetSecurityGroup (ShootSecurityGroupName opt);
         EvGetInstances (BastionInstanceName opt);
         EvDescribeSecurityGroupAttribute
           (describeSecurityGroupAttributeRequest pkg sg "egress")].
Proof.
  intros World pkg c opt bastion sg w
    [permissions [wantedIngress [currentIngress [shootResponse [shootGroup
    [otherGroups [instanceResponse [instance [otherInstances [privateIP
    [otherIPs [allowWorker [denyAll' [currentEgress
    [Hperm [Hwanted [Hin [Hinplace [Hshoot [Hgroups [Hinst [Hinsts [Hips
    [Hallow [Hdeny [Hout Houtplace]]]]]]]]]]]]]]]]]]]]]]]]]].
  unfold ensureSecurityGroupRules.
  rewrite Hperm, bind_check_Return. cbv zeta.
  rewrite (bind_call_reads _ _ _ _ _ Hin), bind_deref_Some, Hwanted.
  unfold ingressRulesSymmetricDifference.
  rewrite (rulesInPlace_no_diff _ _ _ Hinplace), bind_total_Val.
  cbn [fst snd forEach]. rewrite !bind_pure_run.
  rewrite (bind_call_reads _ _ _ _ _ Hshoot), bind_deref_Some, Hgroups.
  cbv beta iota zeta.
  rewrite (bind_call_reads _ _ _ _ _ Hinst), bind_deref_Some, Hinsts, Hips.
  cbv beta iota zeta.
  rewrite (bind_call_reads _ _ _ _ _ Hout), bind_deref_Some, Hallow, Hdeny.
  unfold egressRulesSymmetricDifference.
  change [Some allowWorker; Some denyAll']
    with (map Some [allowWorker; denyAll']).
  rewrite (rulesInPlace_no_diff _ _ _ Houtplace), bind_total_Val.
  cbn [fst snd forEach]. rewrite !bind_pure_run. reflexivity.
Qed.

Lemma ensureSecurityGroupRules_converged_witness :
  final (ensureSecurityGroupRules InMemory.package InMemory.ecs
           InMemory.options1 InMemory.bastion1 "sg-sg-bastion-1"
           InMemory.running) = Fixtures.converged
  /\ filter isRuleChange
       (events (ensureSecurityGroupRules InMemory.package InMemory.ecs
                  InMemory.options1 InMemory.bastion1 "sg-sg-bastion-1"
                  Fixtures.converged)) = [].
Proof.
  split; [vm_compute; reflexivity|].
  rewrite (ensureSecurityGroupRules_converged_is_noop InMemory.Cloud
             InMemory.package InMemory.ecs InMemory.options1 InMemory.bastion1
             "sg-sg-bastion-1" Fixtures.converged); [reflexivity|].
  exists [mkIngressPermission "203.0.113.0/24"], [Fixtures.wantedSsh],
    (DescribeSecurityGroupAttributeResponse.mk
       [InMemory.ingressPermissionOf Fixtures.wantedSsh]),
    (DescribeSecurityGroupsResponse.mk [InMemory.shootGroup]),
    InMemory.shootGroup, [],
    (DescribeInstancesResponse.mk [InMemory.instanceIn "Running" ["10.0.0.5"]]),
    (InMemory.instanceIn "Running" ["10.0.0.5"]), [], "10.0.0.5", [],
    Fixtures.wantedAllowWorker, Fixtures.wantedDenyAll,
    (DescribeSecurityGroupAttributeResponse.mk
       [InMemory.egressPermissionOf Fixtures.wantedAllowWorker;
        InMemory.egressPermissionOf Fixtures.wantedDenyAll]).
  repeat match goal with |- _ /\ _ => split end; try reflexivity.
  - split.
    + intros r [<-|[]]. eexists. split; [left; reflexivity | reflexivity].
    + intros o [<-|[]]. eexists. split; [left; reflexivity | reflexivity].
  - split.
    + intros r [<-|[<-|[]]]; eexists;
        (split; [left; reflexivity | reflexivity])
        || (split; [right; left; reflexivity | reflexivity]).
    + intros o [<-|[<-|[]]]; eexists;
        (split; [left; reflexivity | reflexivity])
        || (split; [right; left; reflexivity | reflexivity]).
Defined.

Section Failures.
Context {World : Type}.

Lemma bind_Err_run {A B} (m : M World A) (f : A -> M World B) w e w' t :
  m w = mkRun (Err e) w' t -> bind m f w = mkRun (Err e) w' t.
Proof. intros H. unfold bind. rewrite H. reflexivity. Qed.

Lemma orWrap_call_Fail {A} ev (op : World -> ret A * World) wrap w e :
  fst (op w) = Fail e ->
  orWrap wrap (call ev op) w = mkRun (Err (wrap e)) (snd (op w)) [ev].
Proof. intros H. unfold orWrap, call. simpl. rewrite H. reflexivity. Qed.
End Failures.

(** X13: when the first ingress rule to add is refused,
    [ensureSecurityGroupRules] stops at once: the error is wrapped as
    "failed to add security group rule" with the description of that rule,
    and no other rule is created or revoked and no egress step is taken. *)
Theorem ensureSecurityGroupRules_stops_at_first_refusal :
  forall (World : Type) (pkg : Package World) (c : ECS World) opt bastion sg
         w permissions current rule others toDelete e,
    let describe := describeSecurityGroupAttributeRequest pkg sg "ingress" in
    let w1 := snd (DescribeSecurityGroupAttribute c describe w) in
    ingressPermissions pkg bastion = Return permissions ->
    fst (DescribeSecurityGroupAttribute c describe w)
    = Return (Some current) ->
    ingressRulesSymmetricDifference
      (map (ingressAllowSSH pkg sg) permissions)
      (DescribeSecurityGroupAttributeResponse.Permissions current)
    = Val (rule :: others, toDelete) ->
    fst (CreateIngressRule c rule w1) = Fail e ->
    ensureSecurityGroupRules pkg c opt bastion sg w
    = mkRun
        (Err (fmt_Errorf_w
                ("failed to add security group rule "
                 ++ AuthorizeSecurityGroupRequest.Description rule)%string e))
        (snd (CreateIngressRule c rule w1))
        [EvDescribeSecurityGroupAttribute describe; EvCreateIngressRule rule].
Proof.
  intros World pkg c opt bastion sg w permissions current rule others
    toDelete e describe w1 Hperm Hdesc Hdiff Hfail. subst describe w1.
  unfold ensureSecurityGroupRules.
  rewrite Hperm, bind_check_Return. cbv zeta.
  rewrite (bind_call_Return _ _ _ _ _ Hdesc), bind_deref_Some, Hdiff,
    bind_total_Val.
  cbn [fst snd forEach].
  rewrite (bind_Err_run _ _ _ _ _ _
             (bind_Err_run _ _ _ _ _ _ (orWrap_call_Fail _ _ _ _ _ Hfail))).
  reflexivity.
Qed.

Lemma ensureSecurityGroupRules_refusal_witness :
  ensureSecurityGroupRules InMemory.package Fixtures.ecsQuota
    InMemory.options1 InMemory.bastion1 "sg-sg-bastion-1" InMemory.running
  = mkRun
      (Err (fmt_Errorf_w "failed to add security group rule SSH access for Bastion"
              (foreign_error "QuotaExceeded")))
      InMemory.running
      [EvDescribeSecurityGroupAttribute
         (DescribeSecurityGroupAttributeRequest.mk "sg-sg-bastion-1" "ingress");
       EvCreateIngressRule Fixtures.wantedSsh].
Proof.
  apply (ensureSecurityGroupRules_stops_at_first_refusal InMemory.Cloud
           InMemory.package Fixtures.ecsQuota InMemory.options1
           InMemory.bastion1 "sg-sg-bastion-1" InMemory.running
           [mkIngressPermission "203.0.113.0/24"]
           (DescribeSecurityGroupAttributeResponse.mk [])
           Fixtures.wantedSsh [] [] (foreign_error "QuotaExceeded"));
    reflexivity.
Defined.

(** X14: the checks of the egress half come after the ingress half has
    been carried out: once the ingress rules are reconciled, a missing
    workload security group ends [ensureSecurityGroupRules] with "shoot
    security group not found", and a bastion instance that is missing or has
    no private address ends it with "bastion instance does not have a
    private ip"; the ingress changes already made stay in the trace and in
    the provider. *)
Theorem ensureSecurityGroupRules_egress_preconditions :
  forall (World : Type) (pkg : Package World) (c : ECS World) opt bastion sg
         w w1 t1,
    reconcileIngressRules pkg c bastion sg w = mkRun (Ok tt) w1 t1 ->
    let shoot := GetSecurityGroup c (ShootSecurityGroupName opt) w1 in
    let lookup := GetInstances c (BastionInstanceName opt) (snd shoot) in
    (forall response,
        fst shoot = Return (Some response) ->
        DescribeSecurityGroupsResponse.SecurityGroups response = [] ->
        ensureSecurityGroupRules pkg c opt bastion sg w
        = mkRun (Err (errors_New "shoot security group not found"))
            (snd shoot)
            (t1 ++ [EvGetSecurityGroup (ShootSecurityGroupName opt)]))
    /\ (forall response group groups instances,
           fst shoot = Return (Some response) ->
           DescribeSecurityGroupsResponse.SecurityGroups response
           = group :: groups ->
           fst lookup = Return (Some instances) ->
           (DescribeInstancesResponse.Instances instances = []
            \/ exists instance rest,
                DescribeInstancesResponse.Instances instances
                = instance :: rest
                /\ Instance.PrivateIpAddress instance = []) ->
           ensureSecurityGroupRules pkg c opt bastion sg w
           = mkRun
               (Err (errors_New "bastion instance does not have a private ip"))
               (snd lookup)
               (t1 ++ [EvGetSecurityGroup (ShootSecurityGroupName opt);
                       EvGetInstances (BastionInstanceName opt)])).
Proof.
  intros World pkg c opt bastion sg w w1 t1 Hin shoot lookup.
  subst shoot lookup. rewrite ensureSecurityGroupRules_halves.
  rewrite (bind_Ok _ _ _ _ _ _ Hin). unfold reconcileEgressRules. split.
  - intros response Hshoot Hgroups.
    rewrite (bind_call_Return _ _ _ _ _ Hshoot), bind_deref_Some, Hgroups.
    reflexivity.
  - intros response group groups instances Hshoot Hgroups Hlookup Hnone.
    rewrite (bind_call_Return _ _ _ _ _ Hshoot), bind_deref_Some, Hgroups.
    cbv beta iota zeta.
    rewrite (bind_call_Return _ _ _ _ _ Hlookup), bind_deref_Some.
    destruct Hnone as [->|[instance [rest [-> ->]]]]; reflexivity.
Qed.

Lemma ensureSecurityGroupRules_egress_witness :
  result (ensureSecurityGroupRules InMemory.package InMemory.ecs
            InMemory.options1 InMemory.bastion1 "sg-sg-bastion-1"
            Fixtures.noShootGroup)
  = Err (errors_New "shoot security group not found")
  /\ InMemory.ingressRules
       (final (ensureSecurityGroupRules InMemory.package InMemory.ecs
                 InMemory.options1 InMemory.bastion1 "sg-sg-bastion-1"
                 Fixtures.noShootGroup))
     = [InMemory.ingressPermissionOf Fixtures.wantedSsh].
Proof.
  eassert (Hin : reconcileIngressRules InMemory.package InMemory.ecs
                   InMemory.bastion1 "sg-sg-bastion-1" Fixtures.noShootGroup
                 = mkRun (Ok tt) _ _) by (lazy; reflexivity).
  destruct (ensureSecurityGroupRules_egress_preconditions InMemory.Cloud
              InMemory.package InMemory.ecs InMemory.options1
              InMemory.bastion1 "sg-sg-bastion-1" Fixtures.noShootGroup _ _
              Hin) as [H _].
  rewrite (H (DescribeSecurityGroupsResponse.mk []) eq_refl eq_refl).
  split; reflexivity.
Defined.

(** X15: whatever the provider answers, [ensureSecurityGroupRules] only
    reads (permissions, security groups, instances) and creates or revokes
    rules: it never creates a security group or an instance, allocates an
    address, sleeps or writes the status. *)
Theorem ensureSecurityGroupRules_only_touches_rules :
  forall (World : Type) (pkg : Package World) (c : ECS World) opt bastion sg,
    Emits (fun ev => isRead ev = true \/ isRuleChange ev = true)
      (ensureSecurityGroupRules pkg c opt bastion sg).
Proof.
  intros World pkg c opt bastion sg. unfold ensureSecurityGroupRules.
  emits; solve [left; reflexivity | right; reflexivity].
Qed.

(** ** The pass as a whole *)

Section Stages.
Context {World : Type}.
Variable pkg : Package World.
Variable a : actuator World.
Variable bastion : Bastion.
Variable cluster : Cluster.

Lemma Reconcile_allocated_unfold :
  Reconcile_allocated pkg a bastion cluster
  = bind (Reconcile_ready pkg a bastion cluster)
      (fun e =>
         bind (ensureSecurityGroupRules pkg (ecsClient (selection e))
                 (opt (context (selection e))) bastion (securityGroupID e))
           (fun _ =>
              bind (call (EvAllocatePublicIp (instanceID e))
                      (AllocatePublicIp (ecsClient (selection e))
                         (instanceID e)))
                (fun publicIP =>
                   bind (deref publicIP)
                     (fun publicIP =>
                        pure (e, AllocatePublicIpAddressResponse.IpAddress
                                   publicIP))))).
Proof. reflexivity. Qed.

Lemma Reconcile_ready_unfold :
  Reconcile_ready pkg a bastion cluster
  = bind (Reconcile_ensured pkg a bastion cluster)
      (fun e =>
         bind (awaitInstance (ecsClient (selection e))
                 (opt (context (selection e))))
           (fun _ => pure e)).
Proof. reflexivity. Qed.

Lemma Reconcile_ensured_unfold :
  Reconcile_ensured pkg a bastion cluster
  = bind (Reconcile_selected pkg a bastion cluster)
      (fun s =>
         bind (ensureSecurityGroup (ecsClient s)
                 (SecurityGroupName (opt (context s)))
                 (VPCID (vpcInfo (context s))))
           (fun securityGroupID =>
              bind (ensureComputeInstance (ecsClient s) (opt (context s))
                      securityGroupID (imageID (context s))
                      (VSwitchID (vpcInfo (context s))) (zoneID s)
                      (instanceTypeId s))
                (fun instanceID => pure (mkEnsured s securityGroupID instanceID)))).
Proof. reflexivity. Qed.

Lemma Reconcile_selected_reads :
  Emits (fun ev => isRead ev = true) (Reconcile_selected pkg a bastion cluster).
Proof.
  unfold Reconcile_selected, Reconcile_resolved, resolveInstanceTypeId.
  emits; reflexivity.
Qed.

Lemma Reconcile_ready_early :
  Emits (fun ev => isLateStep ev = false)
    (Reconcile_ready pkg a bastion cluster).
Proof.
  unfold Reconcile_ready, Reconcile_ensured, Reconcile_selected,
    Reconcile_resolved, awaitInstance, isInstanceReady, ensureSecurityGroup,
    ensureComputeInstance, resolveInstanceTypeId.
  emits; reflexivity.
Qed.

(** A stage that does not return ends the pass with its own events. *)
Lemma Reconcile_stops_with_selected w0 :
  (forall s, result (Reconcile_selected pkg a bastion cluster w0) <> Ok s) ->
  events (Reconcile pkg a bastion cluster w0)
  = events (Reconcile_selected pkg a bastion cluster w0)
  /\ forall u, result (Reconcile pkg a bastion cluster w0) <> Ok u.
Proof.
  intros H.
  rewrite Reconcile_unfold, Reconcile_allocated_unfold, Reconcile_ready_unfold,
    Reconcile_ensured_unfold.
  match goal with
  | |- context [bind (bind (bind (bind _ ?k1) ?k2) ?k3) ?k4 w0] =>
      destruct (bind_not_Ok _ k1 w0 H) as [E1 H1];
      destruct (bind_not_Ok _ k2 w0 H1) as [E2 H2];
      destruct (bind_not_Ok _ k3 w0 H2) as [E3 H3];
      destruct (bind_not_Ok _ k4 w0 H3) as [E4 H4]
  end.
  split; [rewrite E4, E3, E2, E1; reflexivity | exact H4].
Qed.

Lemma Reconcile_stops_with_ready w0 :
  (forall e, result (Reconcile_ready pkg a bastion cluster w0) <> Ok e) ->
  events (Reconcile pkg a bastion cluster w0)
  = events (Reconcile_ready pkg a bastion cluster w0)
  /\ forall u, result (Reconcile pkg a bastion cluster w0) <> Ok u.
Proof.
  intros H. rewrite Reconcile_unfold, Reconcile_allocated_unfold.
  match goal with
  | |- context [bind (bind _ ?k1) ?k2 w0] =>
      destruct (bind_not_Ok _ k1 w0 H) as [E1 H1];
      destruct (bind_not_Ok _ k2 w0 H1) as [E2 H2]
  end.
  split; [rewrite E2, E1; reflexivity | exact H2].
Qed.
End Stages.

Lemma not_ready_helper {World} (pkg : Package World) a bastion cluster w0 :
  (forall e, result (Reconcile_ready pkg a bastion cluster w0) <> Ok e) ->
  Forall (fun ev => isLateStep ev = false)
    (events (Reconcile pkg a bastion cluster w0)).
Proof.
  intros H.
  destruct (Reconcile_stops_with_ready pkg a bastion cluster w0 H) as [E _].
  rewrite E. apply Reconcile_ready_early.
Qed.

(** X16: in every pass, successful or not, the status is written at most
    once, by a merge patch that is the last event of the pass, and only
    for a ready endpoint pair whose public side it publishes; no pass
    issues a full status update. *)
Theorem status_is_written_once_and_last :
  forall (World : Type) (pkg : Package World) (a : actuator World)
         bastion cluster w0,
    let t := events (Reconcile pkg a bastion cluster w0) in
    statusWrites t = []
    \/ exists endpoints before,
        Ready (Some endpoints) = true
        /\ t = before
               ++ [EvStatusPatch
                     (withStatusIngress bastion (public endpoints)) bastion]
        /\ statusWrites before = [].
Proof.
  intros World pkg a bastion cluster w0 t. subst t.
  rewrite Reconcile_unfold.
  pose proof (Reconcile_allocated_writes_no_status pkg a bastion cluster w0)
    as Hquiet.
  match goal with
  | |- context [bind ?m ?k w0] =>
      destruct (bind_events_cases m k w0) as [[E _]|[p [Hp E]]]; rewrite E
  end; [left; exact Hquiet|].
  unfold publishEndpoints.
  pose proof (getInstanceEndpoints_writes_no_status
                (ecsClient (selection (fst p)))
                (opt (context (selection (fst p)))) (snd p)
                (final (Reconcile_allocated pkg a bastion cluster w0)))
    as Hget.
  match goal with
  | |- context [bind ?m ?k ?w] =>
      destruct (bind_events_cases m k w) as [[E2 _]|[endpoints [Hg E2]]];
      rewrite E2
  end.
  - left. unfold statusWrites. rewrite filter_app, Hquiet, Hget. reflexivity.
  - destruct (Ready (Some endpoints)) eqn:Hready; cbn [negb events fail call].
    + right. exists endpoints. eexists. split; [exact Hready|]. split.
      * apply app_assoc.
      * unfold statusWrites. rewrite filter_app, Hquiet, Hget. reflexivity.
    + left. unfold statusWrites.
      rewrite !filter_app, Hquiet, Hget. reflexivity.
Qed.

(** X17: up to the resolution of the instance type (line 114) the pass
    only reads; so a pass that fails in that part -- options, credentials,
    clients, image, network, probes or the missing machine types -- has
    created and changed nothing, and does not succeed. *)
Theorem failure_before_selection_changes_nothing :
  forall (World : Type) (pkg : Package World) (a : actuator World)
         bastion cluster w0,
    (forall s, result (Reconcile_selected pkg a bastion cluster w0) <> Ok s) ->
    Forall (fun ev => isRead ev = true)
      (events (Reconcile pkg a bastion cluster w0))
    /\ forall u, result (Reconcile pkg a bastion cluster w0) <> Ok u.
Proof.
  intros World pkg a bastion cluster w0 H.
  destruct (Reconcile_stops_with_selected pkg a bastion cluster w0 H)
    as [E Hno].
  split; [|exact Hno]. rewrite E. apply Reconcile_selected_reads.
Qed.

Lemma failure_before_selection_witness :
  Forall (fun ev => isRead ev = true)
    (events (InMemory.pass InMemory.bastion1 InMemory.clusterNoTypes
               InMemory.soldOut)).
Proof.
  apply (failure_before_selection_changes_nothing InMemory.Cloud
           InMemory.package InMemory.actuator InMemory.bastion1
           InMemory.clusterNoTypes InMemory.soldOut).
  intros s H. vm_compute in H. discriminate H.
Defined.

(** X18: a pass that does not get past the instance-readiness check
    (line 136) has read no rules, created or revoked no rule, allocated no
    address and written no status. *)
Theorem not_ready_pass_takes_no_late_step :
  forall (World : Type) (pkg : Package World) (a : actuator World)
         bastion cluster w0,
    (forall e, result (Reconcile_ready pkg a bastion cluster w0) <> Ok e) ->
    Forall (fun ev => isLateStep ev = false)
      (events (Reconcile pkg a bastion cluster w0))
    /\ forall u, result (Reconcile pkg a bastion cluster w0) <> Ok u.
Proof.
  intros World pkg a bastion cluster w0 H.
  destruct (Reconcile_stops_with_ready pkg a bastion cluster w0 H) as [E Hno].
  split; [|exact Hno]. rewrite E. apply Reconcile_ready_early.
Qed.

Lemma not_ready_pass_witness :
  Forall (fun ev => isLateStep ev = false)
    (events (InMemory.pass InMemory.bastion1 InMemory.cluster1
               InMemory.pending)).
Proof.
  apply (not_ready_pass_takes_no_late_step InMemory.Cloud InMemory.package
           InMemory.actuator InMemory.bastion1 InMemory.cluster1
           InMemory.pending).
  intros e H. vm_compute in H. discriminate H.
Defined.

Section Sleeping.
Context {World : Type}.

Lemma filter_events_bind_tail {A B} p (m : M World A) (f : A -> M World B) w :
  (forall x, Silent p (f x)) ->
  filter p (events (bind m f w)) = filter p (events (m w)).
Proof.
  intros Hf. destruct (bind_events_cases m f w) as [[E _]|[x [_ E]]];
    rewrite E; [reflexivity|].
  rewrite filter_app, Hf, app_nil_r. reflexivity.
Qed.

Lemma filter_events_bind_head {A B} p (m : M World A) (f : A -> M World B) w :
  Silent p m ->
  filter p (events (bind m f w))
  = match result (m w) with
    | Ok x => filter p (events (f x (final (m w))))
    | _ => []
    end.
Proof.
  intros Hm. unfold bind.
  destruct (result (m w)) as [x|e|q]; simpl; try apply Hm.
  rewrite filter_app, Hm. reflexivity.
Qed.

Lemma awaitInstance_cases (c : ECS World) opt w :
  sleeps (events (awaitInstance c opt w)) = []
  \/ awaitInstance c opt w
     = mkRun (Err notRunningYet)
         (snd (GetInstances c (BastionInstanceName opt) w))
         [EvGetInstances (BastionInstanceName opt); EvSleep (10 * Second)].
Proof.
  unfold awaitInstance, isInstanceReady, orWrap, bind, call, emit, fail, pure.
  destruct (fst (GetInstances c (BastionInstanceName opt) w))
    as [[response|]|e]; cbn [result final events];
    try (left; reflexivity).
  destruct (DescribeInstancesResponse.Instances response)
    as [|instance rest]; cbn [result final events]; try (left; reflexivity).
  destruct (Instance.Status instance =? "Running")%string;
    cbn [result final events negb]; [left | right]; reflexivity.
Qed.

Lemma Reconcile_ensured_never_sleeps (pkg : Package World) a bastion cluster :
  Silent isSleep (Reconcile_ensured pkg a bastion cluster).
Proof.
  unfold Reconcile_ensured, Reconcile_selected, Reconcile_resolved,
    ensureSecurityGroup, ensureComputeInstance, resolveInstanceTypeId.
  silent.
Qed.

Lemma ensureSecurityGroupRules_never_sleeps (pkg : Package World) c opt
  bastion sg :
  Silent isSleep (ensureSecurityGroupRules pkg c opt bastion sg).
Proof. unfold ensureSecurityGroupRules. silent. Qed.

Lemma publishEndpoints_never_sleeps (a : actuator World) bastion c opt ip :
  Silent isSleep (publishEndpoints a bastion c opt ip).
Proof. unfold publishEndpoints, getInstanceEndpoints. silent. Qed.
End Sleeping.

(** X19: the only sleep of a pass is the one of [isInstanceReady]: a pass
    either does not sleep at all, or it sleeps once, for ten seconds, and
    then ends with the error "failed to check for bastion instance: bastion
    instance not yet in Running status" without having taken any step after
    the readiness check.  A pass that succeeds or asks for a retry has not
    slept. *)
Theorem pass_sleeps_only_for_an_instance_not_running :
  forall (World : Type) (pkg : Package World) (a : actuator World)
         bastion cluster w0,
    let r := Reconcile pkg a bastion cluster w0 in
    sleeps (events r) = []
    \/ (sleeps (events r) = [EvSleep (10 * Second)]
        /\ result r = Err notRunningYet
        /\ Forall (fun ev => isLateStep ev = false) (events r)).
Proof.
  intros World pkg a bastion cluster w0 r. subst r.
  assert (Hs : sleeps (events (Reconcile pkg a bastion cluster w0))
               = match result (Reconcile_ensured pkg a bastion cluster w0) with
                 | Ok e =>
                     sleeps (events
                               (awaitInstance (ecsClient (selection e))
                                  (opt (context (selection e)))
                                  (final (Reconcile_ensured pkg a bastion
                                            cluster w0))))
                 | _ => []
                 end).
  { unfold sleeps.
    rewrite Reconcile_unfold, filter_events_bind_tail
      by (intros p; apply publishEndpoints_never_sleeps).
    rewrite Reconcile_allocated_unfold, filter_events_bind_tail
      by (intros e; apply Silent_bind;
          [apply ensureSecurityGroupRules_never_sleeps | intro; silent]).
    rewrite Reconcile_ready_unfold, filter_events_bind_head
      by apply Reconcile_ensured_never_sleeps.
    destruct (result (Reconcile_ensured pkg a bastion cluster w0)) as [e| |];
      try reflexivity.
    apply filter_events_bind_tail. intros x. apply Silent_pure. }
  destruct (result (Reconcile_ensured pkg a bastion cluster w0)) as [e|err|q]
    eqn:He; try (left; exact Hs).
  destruct (awaitInstance_cases (ecsClient (selection e))
              (opt (context (selection e)))
              (final (Reconcile_ensured pkg a bastion cluster w0)))
    as [Hno|Hrun]; [left; rewrite Hs; exact Hno|].
  right.
  assert (Hready : result (Reconcile_ready pkg a bastion cluster w0)
                   = Err notRunningYet).
  { rewrite Reconcile_ready_unfold. unfold bind at 1. rewrite He.
    cbn [result]. apply bind_result_Err. rewrite Hrun. reflexivity. }
  split; [rewrite Hs, Hrun; reflexivity|]. split.
  - rewrite Reconcile_unfold, Reconcile_allocated_unfold.
    do 2 apply bind_result_Err. exact Hready.
  - apply not_ready_helper. intros x Hx. rewrite Hready in Hx.
    discriminate Hx.
Qed.

Lemma read_is_no_creation {World} (s : selected World) ev :
  isRead ev = true -> creationAsResolved s ev.
Proof. destruct ev; simpl; intros H; try exact I; discriminate H. Qed.

(** X20: every creation call of a pass carries what the pass resolved
    before line 114: a security group is created in the resolved network
    under the security-group name of the options; an instance is created
    under the instance name and user data of the options, with the resolved
    image, switch, zone and instance type. *)
Theorem creations_use_the_resolved_values :
  forall (World : Type) (pkg : Package World) (a : actuator World)
         bastion cluster w0 s w1 t1,
    Reconcile_selected pkg a bastion cluster w0 = mkRun (Ok s) w1 t1 ->
    Forall (creationAsResolved s)
      (events (Reconcile pkg a bastion cluster w0)).
Proof.
  intros World pkg a bastion cluster w0 s w1 t1 Hsel.
  rewrite Reconcile_unfold, Reconcile_allocated_unfold, Reconcile_ready_unfold,
    Reconcile_ensured_unfold.
  apply Forall_events_bind;
    [apply Forall_events_bind; [apply Forall_events_bind|]|].
  - rewrite (bind_Ok _ _ _ _ _ _ Hsel). cbn [events].
    apply Forall_app. split.
    + pose proof (Reconcile_selected_reads pkg a bastion cluster w0) as Hr.
      rewrite Hsel in Hr. cbn [events] in Hr.
      eapply Forall_impl; [|exact Hr]. intros ev. apply read_is_no_creation.
    + assert (He : Emits (creationAsResolved s)
                     (bind (ensureSecurityGroup (ecsClient s)
                              (SecurityGroupName (opt (context s)))
                              (VPCID (vpcInfo (context s))))
                        (fun securityGroupID =>
                           bind (ensureComputeInstance (ecsClient s)
                                   (opt (context s)) securityGroupID
                                   (imageID (context s))
                                   (VSwitchID (vpcInfo (context s)))
                                   (zoneID s) (instanceTypeId s))
                             (fun instanceID =>
                                pure (mkEnsured s securityGroupID
                                        instanceID))))).
      { unfold ensureSecurityGroup, ensureComputeInstance.
        emits; first [exact I | repeat split]. }
      apply He.
  - intros e. unfold awaitInstance, isInstanceReady.
    emits; exact I.
  - intros e. unfold ensureSecurityGroupRules. emits; exact I.
  - intros p. unfold publishEndpoints, getInstanceEndpoints. emits; exact I.
Qed.

Lemma creations_use_the_resolved_values_witness :
  creationCalls (events (InMemory.pass InMemory.bastion1 InMemory.cluster1
                           InMemory.soldOut))
  = [EvCreateSecurityGroups "vpc-1" "sg-bastion-1";
     EvCreateInstances "bastion-1" "sg-sg-bastion-1" "image-1" "vsw-1"
       "zone-a" "m.small" "#!/bin/sh"]
  /\ Forall (fun ev =>
               match ev with
               | EvCreateInstances _ _ _ _ _ instanceType _ =>
                   instanceType = "m.small"
               | _ => True
               end)
       (events (InMemory.pass InMemory.bastion1 InMemory.cluster1
                  InMemory.soldOut)).
Proof.
  split; [vm_compute; reflexivity|].
  eassert (Hsel : Reconcile_selected InMemory.package InMemory.actuator
                    InMemory.bastion1 InMemory.cluster1 InMemory.soldOut
                  = mkRun (Ok _) _ _) by (lazy; reflexivity).
  pose proof (creations_use_the_resolved_values _ _ _ _ _ _ _ _ _ Hsel) as H.
  eapply Forall_impl; [|exact H].
  intros ev. destruct ev; simpl; try (intros; exact I).
  intros [_ [_ [_ [_ [Ht _]]]]]. exact Ht.
Defined.

(** X21: [isInstanceReady] answers without error exactly when the lookup
    finds the instance in status "Running", and its answer is then [true],
    after that single lookup and without sleeping; it never answers
    [(false, nil)]. *)
Theorem isInstanceReady_answers_only_true :
  forall (World : Type) (c : ECS World) opt w,
    let lookup := GetInstances c (BastionInstanceName opt) w in
    (forall ready,
        result (isInstanceReady c opt w) = Ok ready ->
        ready = true
        /\ events (isInstanceReady c opt w)
           = [EvGetInstances (BastionInstanceName opt)]
        /\ exists response instance rest,
            fst lookup = Return (Some response)
            /\ DescribeInstancesResponse.Instances response = instance :: rest
            /\ Instance.Status instance = "Running")
    /\ (forall response instance rest,
           fst lookup = Return (Some response) ->
           DescribeInstancesResponse.Instances response = instance :: rest ->
           Instance.Status instance = "Running" ->
           isInstanceReady c opt w
           = mkRun (Ok true) (snd lookup)
               [EvGetInstances (BastionInstanceName opt)]).
Proof.
  intros World c opt w lookup. subst lookup. split.
  - intros ready. unfold isInstanceReady, bind, call, emit, fail, pure.
    destruct (fst (GetInstances c (BastionInstanceName opt) w))
      as [[response|]|e]; cbn [result final events]; try discriminate.
    destruct (DescribeInstancesResponse.Instances response)
      as [|instance rest] eqn:Hlist; cbn [result final events];
      try discriminate.
    destruct (Instance.Status instance =? "Running")%string eqn:Hstatus;
      cbn [result final events]; try discriminate.
    intros H. injection H as <-. apply String.eqb_eq in Hstatus.
    split; [reflexivity|]. split; [reflexivity|].
    exists response, instance, rest. repeat split; assumption.
  - intros response instance rest Hget Hlist Hstatus.
    unfold isInstanceReady. rewrite (bind_call_Return _ _ _ _ _ Hget).
    rewrite Hlist, Hstatus. reflexivity.
Qed.

Lemma isInstanceReady_witness :
  isInstanceReady InMemory.ecs InMemory.options1 InMemory.running
  = mkRun (Ok true) InMemory.running [EvGetInstances "bastion-1"].
Proof.
  destruct (isInstanceReady_answers_only_true InMemory.Cloud InMemory.ecs
              InMemory.options1 InMemory.running) as [_ H].
  exact (H (DescribeInstancesResponse.mk
              [InMemory.instanceIn "Running" ["10.0.0.5"]])
           (InMemory.instanceIn "Running" ["10.0.0.5"]) [] eq_refl eq_refl
           eq_refl).
Defined.
